(** * White-Caves-DB, WhatsApp bot: the campaign dispatcher and the inbound router

    A shallow embedding of

    - [sendBroadcast]    (the campaign loop, unnamed/part_008),
    - [CampaignResult]   (whatsapp-bot-lion/code/Console/CampaignResult.js),
    - [MessageAnalyzer]  (the inbound message router, unnamed/part_000),
    - [convertMsToTime], [convertMsToHM], [toMilliseconds] (unnamed/part_005),
    - [FindBastardsInContacts]
                         (whatsapp-bot-lion/code/Contacts/FindBastardsInContacts.js),
    - [createIndexes]    (unnamed/part_007) and [setupDatabase] (unnamed/part_004),

    with the functions they import from modules outside the sources at hand
    (the shuffle, the session selector, the number validator, the chat probe,
    the transport, the scheduler, the business handlers, the sheet reader,
    the database driver) taken as collaborators that act on an abstract
    world.

    JavaScript completions are explicit: a call either returns a value or
    throws; [try]/[catch], [continue] and [await] are written out. *)

From Stdlib Require Import String List Arith ZArith Lia Bool Permutation.
From Stdlib Require Import DecimalString.
Import ListNotations.
Local Open Scope string_scope.
Local Open Scope list_scope.

(** ** JavaScript completions *)

Module Js.

Inductive JsError : Type :=
| TypeError (msg : string)
| ReferenceError (name : string)
| Raised (msg : string).

(** The result of evaluating a call: a value, or a thrown error (for an
    awaited call, a rejected promise is a thrown error). *)
Inductive Completion (A : Type) : Type :=
| Returned (a : A)
| Threw (e : JsError).

Arguments Returned {A} a.
Arguments Threw {A} e.

(** [i % n] on non-negative integers; [None] is NaN (n = 0). *)
Definition js_rem (i n : nat) : option nat :=
  if Nat.eqb n 0 then None else Some (Nat.modulo i n).

(** [arr[z]]: [None] is [undefined] (index out of range, or -1). *)
Definition js_index {A} (arr : list A) (z : Z) : option A :=
  if Z.ltb z 0 then None else nth_error arr (Z.to_nat z).

(** *** Computations on a state that may throw

    The state is kept when an error is thrown: what was assigned and what was
    observed before the throw stays so in the [catch] block. *)

Definition M (S A : Type) : Type := S -> Completion A * S.

Definition ret {S A} (a : A) : M S A := fun s => (Returned a, s).

Definition bind {S A B} (m : M S A) (k : A -> M S B) : M S B :=
  fun s =>
    match m s with
    | (Returned a, s') => k a s'
    | (Threw e, s') => (Threw e, s')
    end.

Definition throw {S A} (e : JsError) : M S A := fun s => (Threw e, s).

(** [try { m } catch (error) { h error }] *)
Definition try_catch {S A} (m : M S A) (h : JsError -> M S A) : M S A :=
  fun s =>
    match m s with
    | (Returned a, s') => (Returned a, s')
    | (Threw e, s') => h e s'
    end.

Definition lift {S A} (c : Completion A) : M S A := fun s => (c, s).

Definition get {S} : M S S := fun s => (Returned s, s).

Declare Scope js_scope.
Delimit Scope js_scope with js.
Notation "x <- m ;; k" := (bind m (fun x => k))
  (at level 61, m at next level, right associativity) : js_scope.
Notation "m ;; k" := (bind m (fun _ => k))
  (at level 61, right associativity) : js_scope.

End Js.

Import Js.

(** ** The campaign dispatcher *)

Module Broadcast.

(** The object the transport resolves [sendMessage] with, as CampaignResult
    reads it: [from] and [to] are strings or undefined ([None]). *)
Record Message : Type := { from : option string; to : option string }.

(** An entry of MyProjects. Where a project or a message is passed on, [None]
    is a nullish value ([undefined] or [null]). *)
Record ProjectT : Type := { ProjectName : string }.

(** InputOne, the run configuration; [Agents] is the size of the session pool. *)
Record Input : Type := { Agents : nat }.

(** Modelled from the spec: validateNumberWithCountryCode.js is not among the
    sources; the spec gives the validator the contract
    [normalize(raw) -> CanonicalId | InvalidFormat]. As a JavaScript function it
    either returns one of these two values or throws. *)
Inductive Contact : Type :=
| Canonical (id : string)
| InvalidFormat.

(** What [await findAndCheckChat(...)] resolves with: the code reads it with
    [validatedChatResult?.timestamp], so it is nullish or an object whose
    [timestamp] is absent or a number. *)
Inductive ChatResult : Type :=
| Nullish
| Chat (timestamp : option Z).

(** Truthiness of [validatedChatResult?.timestamp]. *)
Definition has_timestamp (r : ChatResult) : bool :=
  match r with
  | Nullish => false
  | Chat None => false
  | Chat (Some t) => negb (Z.eqb t 0)
  end.

(** The lines written with console.log. Dates are not modelled: the two lines
    that print them carry no payload. *)
Inductive LogLine : Type :=
| LogCampaignStarted
| LogCampaignDay
| LogIteration (i : nat) (remainder : option nat)
| LogSkipping (c : Contact)
| LogError (e : JsError)
| LogFailed (num : string)
| LogSucceededTotal (n : nat)
| LogFailedTotal (n : nat)
| LogResultIteration (i : nat)
| LogResultFromTo (src : option string) (dst : string) (len : Z)
| LogResultProject (name : string) (total : nat)
| LogResultTallies (successes fails : nat)
| LogResultSkippedRemaining (skipped : nat) (remaining : Z).

(** What a run does to the outside, in order. *)
Inductive Event : Type :=
| EClear
| ELog (l : LogLine)
| EShuffle
| ESelect (idx : option nat)
| EValidate (num : string)
| EProbe (c : Contact) (i : nat)
| ESend (c : Contact) (message : string)
| ESleep.

(** The value [sendBroadcast] returns: [{ successes, fails }]. *)
Record BroadcastResult : Type := { result_successes : nat; result_fails : nat }.

(** *** CampaignResult.js

    The function writes five lines and returns [true]. The arguments of a
    console.log are evaluated before the line is written: the second line
    reads [SendReport.from] and [SendReport.to.length], a TypeError when
    [SendReport] or [SendReport.to] is nullish; the third reads
    [Project.ProjectName], a TypeError when [Project] is nullish. The result
    is the lines written and the completion. [parseInt] only changes how the
    two numbers of the second line are printed: the line carries the strings. *)

Definition CampaignResult (SendReport : option Message) (Project : option ProjectT)
    (successes skipped fails : nat) (numbers : list string) (i : nat)
    : list LogLine * Completion bool :=
  match SendReport with
  | None =>
      ([LogResultIteration i],
       Threw (TypeError "Cannot read properties of undefined (reading 'from')"))
  | Some report =>
      match to report with
      | None =>
          ([LogResultIteration i],
           Threw (TypeError "Cannot read properties of undefined (reading 'length')"))
      | Some dst =>
          let second := LogResultFromTo (from report) dst
                          (Z.of_nat (String.length dst) - 5) in
          match Project with
          | None =>
              ([LogResultIteration i; second],
               Threw (TypeError
                        "Cannot read properties of undefined (reading 'ProjectName')"))
          | Some project =>
              ([ LogResultIteration i;
                 second;
                 LogResultProject (ProjectName project) (List.length numbers);
                 LogResultTallies successes fails;
                 LogResultSkippedRemaining skipped
                   (Z.of_nat (List.length numbers)
                    - Z.of_nat (fails + successes + skipped)) ],
               Returned true)
          end
      end
  end.

(** *** Reading a trace *)

(** The calls of the scheduler among the events. *)
Definition sleeps (evs : list Event) : nat :=
  List.length (filter (fun e => match e with ESleep => true | _ => false end) evs).

(** The calls of [sendMessage] among the events. *)
Definition sends (evs : list Event) : list (Contact * string) :=
  flat_map (fun e => match e with ESend c m => [(c, m)] | _ => [] end) evs.

(** The calls of [findAndCheckChat] among the events. *)
Definition probes (evs : list Event) : list (Contact * nat) :=
  flat_map (fun e => match e with EProbe c i => [(c, i)] | _ => [] end) evs.

(** The lines that carry the running tallies: the fourth and the fifth line
    of CampaignResult. No other line written by sendBroadcast inside the loop
    shows a counter. *)
Definition progress_lines (evs : list Event) : list LogLine :=
  flat_map (fun e => match e with
                     | ELog (LogResultTallies s f) => [LogResultTallies s f]
                     | ELog (LogResultSkippedRemaining k r) =>
                         [LogResultSkippedRemaining k r]
                     | _ => []
                     end) evs.

Section Dispatcher.

Context {World Client : Type}.

(** The imports of sendBroadcast that are not among the sources. Those that
    are awaited act on the world and, the shuffle apart, may throw (reject);
    the validator is synchronous. [sendMessage] is the method of the session
    that [SelectingBotForCampaign] hands out. *)
Record Collaborators : Type := {
  AfternoonMessage : string;
  InputOne : Input;
  ShuffleMyArray : list string -> World -> list string * World;
  SelectingBotForCampaign : option nat -> World -> Completion Client * World;
  validateNumberWithCountryCode : string -> Completion Contact;
  findAndCheckChat :
    Contact -> nat -> Input -> Client -> World -> Completion ChatResult * World;
  sendMessage :
    Client -> Contact -> string -> World -> Completion (option Message) * World;
  SleepTimeOfficialHoursWithRandomDelay : Input -> World -> Completion unit * World
}.

(** The local variables of a run, the world and what was observed so far. *)
Record RunState : Type := {
  world : World;
  successes : nat;
  fails : nat;
  skipped : nat;
  trace : list Event
}.

Definition emit (e : Event) : M RunState unit :=
  fun s => (Returned tt,
            {| world := world s; successes := successes s; fails := fails s;
               skipped := skipped s; trace := trace s ++ [e] |}).

Definition console_log (l : LogLine) : M RunState unit := emit (ELog l).

(** An awaited (or synchronous) call of a collaborator that acts on the world. *)
Definition call {A} (f : World -> Completion A * World) : M RunState A :=
  fun s =>
    let (r, w) := f (world s) in
    (r, {| world := w; successes := successes s; fails := fails s;
           skipped := skipped s; trace := trace s |}).

Definition successes_incr : M RunState unit :=
  fun s => (Returned tt,
            {| world := world s; successes := S (successes s); fails := fails s;
               skipped := skipped s; trace := trace s |}).

Definition fails_incr : M RunState unit :=
  fun s => (Returned tt,
            {| world := world s; successes := successes s; fails := S (fails s);
               skipped := skipped s; trace := trace s |}).

Definition skipped_incr : M RunState unit :=
  fun s => (Returned tt,
            {| world := world s; successes := successes s; fails := fails s;
               skipped := S (skipped s); trace := trace s |}).

Fixpoint log_all (ls : list LogLine) : M RunState unit :=
  match ls with
  | [] => ret tt
  | l :: rest => bind (console_log l) (fun _ => log_all rest)
  end.

End Dispatcher.

Arguments Collaborators : clear implicits.
Arguments RunState : clear implicits.

(** How the [try] block of the loop body is left: by falling out of its end,
    or by [continue]. *)
Inductive Flow : Type := FallThrough | Continue.

Section Loop.

Context {World Client : Type} (C : Collaborators World Client).
Local Open Scope js_scope.

(** The [try] block of an iteration (lines 23 to 37). CampaignResult is
    called inside it, after [successes++]: what it throws goes to the [catch]
    block like an error of the probe or of the transport. *)
Definition try_block (Project : option ProjectT) (newChatsOnly : bool)
    (numbers : list string) (i : nat) (WhatsAppBotClient : Client)
    (validatedContact : Contact) : M (RunState World) Flow :=
  console_log LogCampaignStarted ;;
  console_log LogCampaignDay ;;
  console_log (LogIteration i (js_rem i (Agents (InputOne C)))) ;;
  emit (EProbe validatedContact i) ;;
  validatedChatResult <-
    call (findAndCheckChat C validatedContact i (InputOne C) WhatsAppBotClient) ;;
  if newChatsOnly && has_timestamp validatedChatResult then
    console_log (LogSkipping validatedContact) ;;
    skipped_incr ;;
    ret Continue
  else
    emit (ESend validatedContact (AfternoonMessage C)) ;;
    SendReport <-
      call (sendMessage C WhatsAppBotClient validatedContact (AfternoonMessage C)) ;;
    successes_incr ;;
    s <- get ;;
    let report := CampaignResult SendReport Project
                    (successes s) (skipped s) (fails s) numbers i in
    log_all (fst report) ;;
    lift (snd report) ;;
    ret FallThrough.

(** The [catch] block (lines 38 to 42). *)
Definition catch_block (num : string) (error : JsError) : M (RunState World) Flow :=
  console_log (LogError error) ;;
  console_log (LogFailed num) ;;
  fails_incr ;;
  ret FallThrough.

(** One iteration of the [for] loop (lines 19 to 43). *)
Definition iteration (Project : option ProjectT) (newChatsOnly : bool)
    (numbers : list string) (i : nat) (num : string) : M (RunState World) unit :=
  emit (ESelect (js_rem i (Agents (InputOne C)))) ;;
  WhatsAppBotClient <-
    call (SelectingBotForCampaign C (js_rem i (Agents (InputOne C)))) ;;
  emit (EValidate num) ;;
  validatedContact <- lift (validateNumberWithCountryCode C num) ;;
  flow <- try_catch
            (try_block Project newChatsOnly numbers i WhatsAppBotClient validatedContact)
            (catch_block num) ;;
  match flow with
  | Continue => ret tt
  | FallThrough =>
      emit ESleep ;;
      call (SleepTimeOfficialHoursWithRandomDelay C (InputOne C))
  end.

(** [for (const [i, num] of numbers.entries()) body], from index [i]. *)
Fixpoint for_entries (body : nat -> string -> M (RunState World) unit)
    (i : nat) (l : list string) : M (RunState World) unit :=
  match l with
  | [] => ret tt
  | num :: rest => body i num ;; for_entries body (S i) rest
  end.

Definition initial (w : World) : RunState World :=
  {| world := w; successes := 0; fails := 0; skipped := 0; trace := [] |}.

(** The body of sendBroadcast, as a computation on the run state. *)
Definition sendBroadcast_body (MNumbers : list string) (Project : option ProjectT)
    (newChatsOnly : bool) : M (RunState World) BroadcastResult :=
  emit EClear ;;
  emit EShuffle ;;
  numbers <- call (fun w => let (l, w') := ShuffleMyArray C MNumbers w in
                            (Returned l, w')) ;;
  for_entries (iteration Project newChatsOnly numbers) 0 numbers ;;
  s <- get ;;
  console_log (LogSucceededTotal (successes s)) ;;
  console_log (LogFailedTotal (fails s)) ;;
  ret {| result_successes := successes s; result_fails := fails s |}.

(** [sendBroadcast(MNumbers, Project, newChatsOnly)] started in world [w]: what
    the returned promise settles with, and the final run state. The third
    argument defaults to [true] when the caller leaves it out. *)
Definition sendBroadcast (MNumbers : list string) (Project : option ProjectT)
    (newChatsOnly : bool) (w : World)
    : Completion BroadcastResult * RunState World :=
  sendBroadcast_body MNumbers Project newChatsOnly (initial w).

(** Modelled from the spec: ShuffleMyArray.js is not among the sources; the
    spec has the dispatcher shuffle the contact set, so the array it returns
    is a permutation of the one it is given. *)
Definition shuffles : Prop :=
  forall (l : list string) (w : World), Permutation l (fst (ShuffleMyArray C l w)).

End Loop.

(** *** What an iteration does, case by case

    The same iteration as a relation between the state before and the state
    after, one rule per path through the loop body. [iteration] is shown to
    follow these rules below; the properties of the dispatcher are read off
    the rules. *)

(** How the contact of an iteration is counted: as sent, as skipped, as
    failed, or, when the send returned and CampaignResult threw, both as sent
    and as failed. *)
Inductive Outcome : Type :=
| Sent (SendReport : option Message)
| Skipped
| Failed (error : JsError)
| SentAndFailed (SendReport : option Message) (error : JsError).

Section Rules.

Context {World Client : Type} (C : Collaborators World Client).
Variables (Project : option ProjectT) (newChatsOnly : bool) (numbers : list string).

(** The state after a contact was counted as [o], in world [w], having
    observed [evs]. *)
Definition advance (st : RunState World) (w : World) (o : Outcome)
    (evs : list Event) : RunState World :=
  {| world := w;
     successes := match o with
                  | Sent _ | SentAndFailed _ _ => S (successes st)
                  | _ => successes st
                  end;
     fails := match o with
              | Failed _ | SentAndFailed _ _ => S (fails st)
              | _ => fails st
              end;
     skipped := match o with Skipped => S (skipped st) | _ => skipped st end;
     trace := trace st ++ evs |}.

(** The state after an iteration that counted nothing. *)
Definition observe (st : RunState World) (w : World) (evs : list Event)
    : RunState World :=
  {| world := w; successes := successes st; fails := fails st;
     skipped := skipped st; trace := trace st ++ evs |}.

Definition remainder (i : nat) : option nat := js_rem i (Agents (InputOne C)).

Definition select_events (i : nat) (num : string) : list Event :=
  [ESelect (remainder i); EValidate num].

Definition probe_events (i : nat) (v : Contact) : list Event :=
  [ELog LogCampaignStarted; ELog LogCampaignDay; ELog (LogIteration i (remainder i));
   EProbe v i].

Definition caught_events (num : string) (e : JsError) : list Event :=
  [ELog (LogError e); ELog (LogFailed num)].

(** The call of CampaignResult after [successes++] in state [st]. *)
Definition report (SendReport : option Message) (st : RunState World) (i : nat)
    : list LogLine * Completion bool :=
  CampaignResult SendReport Project
    (S (successes st)) (skipped st) (fails st) numbers i.

Definition report_events (SendReport : option Message) (st : RunState World)
    (i : nat) : list Event :=
  map ELog (fst (report SendReport st i)).

(** The [try]/[catch] statement, for the session [client] and the validated
    contact [v]: the events it adds, the world it leaves and the outcome. *)
Inductive attempt (client : Client) (v : Contact) (i : nat) (num : string)
    (st : RunState World) : list Event -> World -> Outcome -> Prop :=
| attempt_probe_threw e w :
    findAndCheckChat C v i (InputOne C) client (world st) = (Threw e, w) ->
    attempt client v i num st
      (probe_events i v ++ caught_events num e) w (Failed e)
| attempt_skipped r w :
    findAndCheckChat C v i (InputOne C) client (world st) = (Returned r, w) ->
    newChatsOnly && has_timestamp r = true ->
    attempt client v i num st
      (probe_events i v ++ [ELog (LogSkipping v)]) w Skipped
| attempt_send_threw r w e w' :
    findAndCheckChat C v i (InputOne C) client (world st) = (Returned r, w) ->
    newChatsOnly && has_timestamp r = false ->
    sendMessage C client v (AfternoonMessage C) w = (Threw e, w') ->
    attempt client v i num st
      (probe_events i v ++ ESend v (AfternoonMessage C) :: caught_events num e)
      w' (Failed e)
| attempt_sent r w SendReport w' b :
    findAndCheckChat C v i (InputOne C) client (world st) = (Returned r, w) ->
    newChatsOnly && has_timestamp r = false ->
    sendMessage C client v (AfternoonMessage C) w = (Returned SendReport, w') ->
    snd (report SendReport st i) = Returned b ->
    attempt client v i num st
      (probe_events i v ++ ESend v (AfternoonMessage C)
         :: report_events SendReport st i)
      w' (Sent SendReport)
| attempt_report_threw r w SendReport w' e :
    findAndCheckChat C v i (InputOne C) client (world st) = (Returned r, w) ->
    newChatsOnly && has_timestamp r = false ->
    sendMessage C client v (AfternoonMessage C) w = (Returned SendReport, w') ->
    snd (report SendReport st i) = Threw e ->
    attempt client v i num st
      (probe_events i v ++ ESend v (AfternoonMessage C)
         :: report_events SendReport st i ++ caught_events num e)
      w' (SentAndFailed SendReport e).

(** One iteration: the completion of the loop body and the state it leaves. *)
Inductive iterates (i : nat) (num : string) (st : RunState World)
    : Completion unit -> RunState World -> Prop :=
| iterates_select_threw e w :
    SelectingBotForCampaign C (remainder i) (world st) = (Threw e, w) ->
    iterates i num st (Threw e) (observe st w [ESelect (remainder i)])
| iterates_validate_threw client w e :
    SelectingBotForCampaign C (remainder i) (world st) = (Returned client, w) ->
    validateNumberWithCountryCode C num = Threw e ->
    iterates i num st (Threw e) (observe st w (select_events i num))
| iterates_skipped client w v evs w' :
    SelectingBotForCampaign C (remainder i) (world st) = (Returned client, w) ->
    validateNumberWithCountryCode C num = Returned v ->
    attempt client v i num (observe st w []) evs w' Skipped ->
    iterates i num st (Returned tt)
      (advance st w' Skipped (select_events i num ++ evs))
| iterates_counted client w v evs w' o r w'' :
    SelectingBotForCampaign C (remainder i) (world st) = (Returned client, w) ->
    validateNumberWithCountryCode C num = Returned v ->
    attempt client v i num (observe st w []) evs w' o ->
    o <> Skipped ->
    SleepTimeOfficialHoursWithRandomDelay C (InputOne C) w' = (r, w'') ->
    iterates i num st r
      (advance st w'' o (select_events i num ++ evs ++ [ESleep])).

(** What an iteration did to the counters. *)
Inductive Tally : Type := Nothing | OneSuccess | OneSkip | OneFail | SuccessAndFail.

Definition tallied (t : Tally) (st st' : RunState World) : Prop :=
  match t with
  | Nothing =>
      successes st' = successes st /\ fails st' = fails st /\ skipped st' = skipped st
  | OneSuccess =>
      successes st' = S (successes st) /\ fails st' = fails st /\ skipped st' = skipped st
  | OneSkip =>
      successes st' = successes st /\ fails st' = fails st /\ skipped st' = S (skipped st)
  | OneFail =>
      successes st' = successes st /\ fails st' = S (fails st) /\ skipped st' = skipped st
  | SuccessAndFail =>
      successes st' = S (successes st) /\ fails st' = S (fails st) /\
      skipped st' = skipped st
  end.

(** The tallies lines of CampaignResult for the counters of [st']. *)
Definition report_of (st' : RunState World) : list LogLine :=
  [LogResultTallies (successes st') (fails st');
   LogResultSkippedRemaining (skipped st')
     (Z.of_nat (List.length numbers)
      - Z.of_nat (fails st' + successes st' + skipped st'))].

End Rules.

End Broadcast.

(** ** The inbound router *)

Module Inbound.

(** The inbound message event, as MessageAnalyzer reads it. *)
Record Msg : Type := {
  type : string;
  from : string;
  body : string;
  hasQuotedMsg : bool
}.

(** An entry of MyProjects. *)
Record ProjectT : Type := { ProjectName : string }.

(** [hay.includes(needle)] on strings. *)
Fixpoint includes (hay needle : string) : bool :=
  String.prefix needle hay ||
  match hay with
  | EmptyString => false
  | String _ rest => includes rest needle
  end.

(** [arr.includes(x)] on an array of strings. *)
Definition Array_includes (arr : list string) (x : string) : bool :=
  existsb (fun y => String.eqb y x) arr.

(** [arr.findIndex(p)]: the first index whose element satisfies [p], or -1. *)
Fixpoint findIndex_from {A} (p : A -> bool) (arr : list A) (i : Z) : Z :=
  match arr with
  | [] => (-1)%Z
  | x :: rest => if p x then i else findIndex_from p rest (i + 1)%Z
  end.

Definition findIndex {A} (p : A -> bool) (arr : list A) : Z :=
  findIndex_from p arr 0%Z.

(** [arr.find(p)]: the first element that satisfies [p], or undefined. *)
Definition Array_find {A} (p : A -> bool) (arr : list A) : option A :=
  List.find p arr.

Definition truthy {A} (o : option A) : bool :=
  match o with Some _ => true | None => false end.

(** How a promise that nobody awaits settles. *)
Inductive Settlement : Type :=
| Fulfilled
| Rejected (e : JsError).

(** The handlers MessageAnalyzer can invoke. *)
Inductive Handler : Type :=
| FindAndShareOwnerNumberOnAgentRequest_
| SharingMobileNumber_
| reply_ (content : option string)
| CreatingNewWhatsAppClientLucy_ (name : string)
| ProjectCampaign_ (Project : ProjectT).

Inductive LogLine : Type :=
| LogFrom (sender : string)
| LogOwnerRequested
| LogIncludesMunicipality
| LogNewObjectCreation
| LogNewAgentResult
| LogFindWord (result : string)
| LogProjectResult (result : string)
| LogProjectNoResult (name : string)
| LogDefault
| LogVideo
| LogOtherType (t : string)
| LogError (e : JsError).

Inductive Event : Type :=
| ELog (l : LogLine)
| EInvoke (h : Handler)
| EFindWord (word sentence : string).

Section Router.

Context {World Agent : Type}.

(** The imports of MessageAnalyzer that are not among the sources, and the
    [reply] method of the message. An awaited handler returns or throws;
    [msg.reply] is called without [await]: it throws at the call, or returns
    a promise that settles later. [ProjectCampaign] resolves with a result
    that is falsy ([None]) or truthy (printed as the string). *)
Record Collaborators : Type := {
  ClientQuestionsArray : list string;
  ClientAnswersArray : list string;
  MyProjects : list ProjectT;
  FindAndShareOwnerNumberOnAgentRequest : Msg -> World -> Completion unit * World;
  SharingMobileNumber : Msg -> World -> Completion unit * World;
  reply : Msg -> option string -> World -> Completion Settlement * World;
  CreatingNewWhatsAppClientLucy : string -> World -> Completion Agent * World;
  findWord : string -> string -> Completion string;
  ProjectCampaign : ProjectT -> World -> Completion (option string) * World
}.

(** The world, what was observed so far, and the rejections of promises that
    were never awaited (they reach no [catch] block). *)
Record RouterState : Type := {
  world : World;
  trace : list Event;
  unhandled : list JsError
}.

Definition emit (e : Event) : M RouterState unit :=
  fun s => (Returned tt,
            {| world := world s; trace := trace s ++ [e];
               unhandled := unhandled s |}).

Definition console_log (l : LogLine) : M RouterState unit := emit (ELog l).

(** [await f(...)] *)
Definition await {A} (f : World -> Completion A * World) : M RouterState A :=
  fun s =>
    let (r, w) := f (world s) in
    (r, {| world := w; trace := trace s; unhandled := unhandled s |}).

(** [f(...);] for an [f] that returns a promise, without [await]: a throw at
    the call is a throw; the promise is dropped, and its rejection is unhandled. *)
Definition call_detached (f : World -> Completion Settlement * World)
    : M RouterState unit :=
  fun s =>
    let (r, w) := f (world s) in
    match r with
    | Threw e => (Threw e, {| world := w; trace := trace s; unhandled := unhandled s |})
    | Returned Fulfilled =>
        (Returned tt, {| world := w; trace := trace s; unhandled := unhandled s |})
    | Returned (Rejected e) =>
        (Returned tt, {| world := w; trace := trace s;
                         unhandled := unhandled s ++ [e] |})
    end.

End Router.

Arguments Collaborators : clear implicits.
Arguments RouterState : clear implicits.

Section Analyzer.

Context {World Agent : Type} (C : Collaborators World Agent).
Local Open Scope js_scope.

Definition is_project (msg : Msg) (x : ProjectT) : bool :=
  String.eqb (ProjectName x) (body msg).

(** The [try] block of MessageAnalyzer (lines 25 to 92). *)
Definition analyze (msg : Msg) : M (RouterState World) unit :=
  if String.eqb (type msg) "chat" then
    console_log (LogFrom (from msg)) ;;
    if String.eqb (body msg) "Kindly share the mobile number of the owner" then
      console_log LogOwnerRequested ;;
      emit (EInvoke FindAndShareOwnerNumberOnAgentRequest_) ;;
      await (FindAndShareOwnerNumberOnAgentRequest C msg)
    else if includes (body msg) "House Number/Municipality Number="
            && hasQuotedMsg msg then
      console_log LogIncludesMunicipality ;;
      emit (EInvoke SharingMobileNumber_) ;;
      await (SharingMobileNumber C msg)
    else if Array_includes (ClientQuestionsArray C) (body msg) then
      let index := findIndex (fun x => String.eqb x (body msg))
                             (ClientQuestionsArray C) in
      emit (EInvoke (reply_ (js_index (ClientAnswersArray C) index))) ;;
      call_detached (reply C msg (js_index (ClientAnswersArray C) index))
    else if String.eqb (body msg) "I want to signup as lucy" then
      console_log LogNewObjectCreation ;;
      emit (EInvoke (CreatingNewWhatsAppClientLucy_ "Lucy")) ;;
      Lucy <- await (CreatingNewWhatsAppClientLucy C "Lucy") ;;
      (* WhatsAppClientFunctions is bound nowhere in the module *)
      throw (A := unit) (ReferenceError "WhatsAppClientFunctions") ;;
      console_log LogNewAgentResult
    else if String.eqb (body msg) "I want to register as agent" then
      console_log LogNewObjectCreation
    else if String.eqb (body msg)
              "Kindly share the secondary mobile number of the owner" then
      console_log LogOwnerRequested
    else if truthy (Array_find (is_project msg) (MyProjects C))
            && includes (body msg) "Mission Speed" then
      ret tt
    else
      match Array_find (is_project msg) (MyProjects C) with
      | Some Project =>
          emit (EFindWord "woo" "How much wood could a wood chip chop") ;;
          result1 <- lift (findWord C "woo" "How much wood could a wood chip chop") ;;
          console_log (LogFindWord result1) ;;
          emit (EInvoke (ProjectCampaign_ Project)) ;;
          result <- await (ProjectCampaign C Project) ;;
          match result with
          | Some r => console_log (LogProjectResult r)
          | None => console_log (LogProjectNoResult (body msg))
          end
      | None => console_log LogDefault
      end
  else if String.eqb (type msg) "video" then
    console_log LogVideo
  else
    console_log (LogOtherType (type msg)).

(** [MessageAnalyzer(msg)]: the whole body is one [try]; the [catch] block
    logs the error. *)
Definition MessageAnalyzer (msg : Msg) : M (RouterState World) unit :=
  try_catch (analyze msg) (fun error => console_log (LogError error)).

(** The handlers invoked, in order, among the events. *)
Fixpoint invoked (evs : list Event) : list Handler :=
  match evs with
  | [] => []
  | EInvoke h :: rest => h :: invoked rest
  | _ :: rest => invoked rest
  end.

(** The world a handler leaves when it is called for [msg] in world [w]. *)
Definition handler_effect (msg : Msg) (h : Handler) (w : World) : World :=
  match h with
  | FindAndShareOwnerNumberOnAgentRequest_ =>
      snd (FindAndShareOwnerNumberOnAgentRequest C msg w)
  | SharingMobileNumber_ => snd (SharingMobileNumber C msg w)
  | reply_ content => snd (reply C msg content w)
  | CreatingNewWhatsAppClientLucy_ name => snd (CreatingNewWhatsAppClientLucy C name w)
  | ProjectCampaign_ Project => snd (ProjectCampaign C Project w)
  end.

End Analyzer.

End Inbound.

(** ** Concrete collaborators

    Small worlds on which the two programs can be run: the world is a clock
    that ticks at every transport call, sessions are numbered. *)

Module Scenarios.

Import Broadcast.

Definition is_digit (c : Ascii.ascii) : bool :=
  Nat.leb 48 (Ascii.nat_of_ascii c) && Nat.leb (Ascii.nat_of_ascii c) 57.

Fixpoint all_digits (s : string) : bool :=
  match s with
  | EmptyString => true
  | String c rest => is_digit c && all_digits rest
  end.

(** A validator that returns the [InvalidFormat] value. *)
Definition validate_returning (num : string) : Completion Contact :=
  Returned (if all_digits num then Canonical num else InvalidFormat).

(** A validator that throws on a malformed number. *)
Definition validate_throwing (num : string) : Completion Contact :=
  if all_digits num then Returned (Canonical num)
  else Threw (Raised "InvalidFormat").

Definition receipt (c : Contact) : Message :=
  {| Broadcast.from := Some "971500000000@c.us";
     to := Some match c with
                | Canonical id => (id ++ "@c.us")%string
                | InvalidFormat => "@c.us"
                end |}.

(** Collaborators over the clock: [validate] and the behaviour of the probe
    and of the transport are given; the shuffle reverses the list, the
    selector hands out the session number, the scheduler returns. *)
Definition collaborators (agents : nat)
    (validate : string -> Completion Contact)
    (probe : Contact -> Completion ChatResult)
    (send : Contact -> Completion (option Message)) : Collaborators nat (option nat) :=
  {| AfternoonMessage := "Good afternoon";
     InputOne := {| Agents := agents |};
     ShuffleMyArray := fun l w => (rev l, w);
     SelectingBotForCampaign := fun idx w => (Returned idx, w);
     validateNumberWithCountryCode := validate;
     findAndCheckChat := fun v _ _ _ w => (probe v, S w);
     sendMessage := fun _ v _ w => (send v, S w);
     SleepTimeOfficialHoursWithRandomDelay := fun _ w => (Returned tt, w) |}.

Definition never_contacted (v : Contact) : Completion ChatResult :=
  Returned Nullish.

Definition already_contacted (v : Contact) : Completion ChatResult :=
  Returned (Chat (Some 1700000000%Z)).


Definition transport_ok (v : Contact) : Completion (option Message) :=
  Returned (Some (receipt v)).

(** A transport that refuses what is not a canonical identifier. *)
Definition transport_strict (v : Contact) : Completion (option Message) :=
  match v with
  | Canonical _ => Returned (Some (receipt v))
  | InvalidFormat => Threw (Raised "invalid wid")
  end.

(** A transport that sends and resolves with [undefined]. *)
Definition transport_without_receipt (v : Contact) : Completion (option Message) :=
  Returned None.

(** A transport that resolves with [undefined] for the contact [lost], and
    with a receipt for every other. *)
Definition transport_losing (lost : string) (v : Contact)
    : Completion (option Message) :=
  match v with
  | Canonical id => if String.eqb id lost then Returned None
                    else Returned (Some (receipt v))
  | InvalidFormat => Returned (Some (receipt v))
  end.

(** A probe that finds a chat for every canonical identifier. *)
Definition contacted_if_canonical (v : Contact) : Completion ChatResult :=
  match v with
  | Canonical _ => Returned (Chat (Some 1700000000%Z))
  | InvalidFormat => Returned Nullish
  end.

Definition WhiteCaves : option ProjectT := Some {| ProjectName := "White Caves" |}.

(** The same collaborators with a selector that refuses a session index that
    is not a number. *)
Definition with_strict_selector (C : Collaborators nat (option nat))
    : Collaborators nat (option nat) :=
  {| AfternoonMessage := AfternoonMessage C;
     InputOne := InputOne C;
     ShuffleMyArray := ShuffleMyArray C;
     SelectingBotForCampaign := fun idx w =>
       match idx with
       | Some k => (Returned (Some k), w)
       | None => (Threw (TypeError "no session for NaN"), w)
       end;
     validateNumberWithCountryCode := validateNumberWithCountryCode C;
     findAndCheckChat := findAndCheckChat C;
     sendMessage := sendMessage C;
     SleepTimeOfficialHoursWithRandomDelay := SleepTimeOfficialHoursWithRandomDelay C |}.

(** Collaborators of the router: two questions with their answers, one
    project, handlers that return, and a [reply] whose promise settles as
    given. *)
Definition router (settles : Inbound.Settlement)
    : Inbound.Collaborators nat unit :=
  {| Inbound.ClientQuestionsArray := ["What is the price?"; "Where is it located?"];
     Inbound.ClientAnswersArray := ["It starts from 1.2M AED."; "In Damac Hills 2."];
     Inbound.MyProjects := [ {| Inbound.ProjectName := "Damac Hills 2" |} ];
     Inbound.FindAndShareOwnerNumberOnAgentRequest := fun _ w => (Returned tt, S w);
     Inbound.SharingMobileNumber := fun _ w => (Returned tt, S w);
     Inbound.reply := fun _ _ w => (Returned settles, S w);
     Inbound.CreatingNewWhatsAppClientLucy := fun _ w => (Returned tt, S w);
     Inbound.findWord := fun _ _ => Returned "true";
     Inbound.ProjectCampaign := fun _ w => (Returned (Some "3"), S w) |}.

(** The same collaborators on a world that keeps what was sent with
    [msg.reply], in order. *)
Definition outbox (settles : Inbound.Settlement)
    : Inbound.Collaborators (list (option string)) unit :=
  {| Inbound.ClientQuestionsArray := Inbound.ClientQuestionsArray (router settles);
     Inbound.ClientAnswersArray := Inbound.ClientAnswersArray (router settles);
     Inbound.MyProjects := Inbound.MyProjects (router settles);
     Inbound.FindAndShareOwnerNumberOnAgentRequest := fun _ w => (Returned tt, w);
     Inbound.SharingMobileNumber := fun _ w => (Returned tt, w);
     Inbound.reply := fun _ content w => (Returned settles, w ++ [content]);
     Inbound.CreatingNewWhatsAppClientLucy := fun _ w => (Returned tt, w);
     Inbound.findWord := fun _ _ => Returned "true";
     Inbound.ProjectCampaign := fun _ w => (Returned (Some "3"), w) |}.

Definition text (b : string) : Inbound.Msg :=
  {| Inbound.type := "chat"; Inbound.from := "971501112222@c.us";
     Inbound.body := b; Inbound.hasQuotedMsg := false |}.

Definition start : Inbound.RouterState nat :=
  {| Inbound.world := 0; Inbound.trace := []; Inbound.unhandled := [] |}.

End Scenarios.

(** ** More readings of the dispatcher's trace *)

Module BroadcastTrace.

Import Broadcast.

(** The session indices handed to [SelectingBotForCampaign], in order. *)
Definition selections (evs : list Event) : list (option nat) :=
  flat_map (fun e => match e with ESelect idx => [idx] | _ => [] end) evs.

(** The raw numbers handed to the validator, in order. *)
Definition validations (evs : list Event) : list string :=
  flat_map (fun e => match e with EValidate num => [num] | _ => [] end) evs.

(** The run state sendBroadcast enters its loop with, in world [w]. *)
Definition loop_start {World : Type} (w : World) : RunState World :=
  {| world := w; successes := 0; fails := 0; skipped := 0;
     trace := [EClear; EShuffle] |}.

(** Every call of sendMessage among [evs] carries the AfternoonMessage and
    directly follows the selection of a session, the validation of a number
    of [numbers] and the probe, at the index of that number, of the contact
    the validator returned for it; that contact is the one sent to. *)
Definition sends_follow_probes {World Client : Type} (C : Collaborators World Client)
    (numbers : list string) (evs : list Event) : Prop :=
  forall before c m after,
    evs = before ++ ESend c m :: after ->
    m = AfternoonMessage C /\
    exists i num a,
      nth_error numbers i = Some num /\
      validateNumberWithCountryCode C num = Returned c /\
      before = a ++ select_events C i num ++ probe_events C i c.

End BroadcastTrace.

(** ** Clock helpers (unnamed/part_005) *)

Module Time.

Local Open Scope Z_scope.

(** The numbers of these helpers are integers; up to MAX_SAFE_INTEGER the
    arithmetic of JavaScript on them is exact. *)
Definition MAX_SAFE_INTEGER : Z := 9007199254740991.

(** [(hrs, min, sec) => (hrs*60*60 + min*60 + sec) * 1000] *)
Definition toMilliseconds (hrs min sec : Z) : Z :=
  (hrs * 60 * 60 + min * 60 + sec) * 1000.

(** [num.toString()] of an integer: decimal digits, with a sign when negative. *)
Definition toString (num : Z) : string :=
  NilZero.string_of_int (Z.to_int num).

(** The first [k] characters of [padString] repeated; [rest] is what is left
    of the copy being written. *)
Fixpoint fill (k : nat) (padString rest : string) : string :=
  match k with
  | O => EmptyString
  | S k' =>
      match rest with
      | String c rest' => String c (fill k' padString rest')
      | EmptyString =>
          match padString with
          | String c rest' => String c (fill k' padString rest')
          | EmptyString => EmptyString
          end
      end
  end.

(** [s.padStart(targetLength, padString)] *)
Definition padStart (targetLength : nat) (padString s : string) : string :=
  if Nat.leb targetLength (String.length s) then s
  else (fill (targetLength - String.length s) padString padString ++ s)%string.

Definition padTo2Digits (num : Z) : string :=
  padStart 2 "0" (toString num).

(** [Math.floor(a / b)] for integers and [b > 0] is [a / b]; [a % b] is
    the remainder with the sign of [a], [Z.rem]. *)
Definition convertMsToTime (milliseconds : Z) : string :=
  let seconds := milliseconds / 1000 in
  let minutes := seconds / 60 in
  let hours := minutes / 60 in
  let seconds := Z.rem seconds 60 in
  let minutes := Z.rem minutes 60 in
  let hours := Z.rem hours 24 in
  (padTo2Digits hours ++ ":" ++ padTo2Digits minutes ++ ":"
   ++ padTo2Digits seconds)%string.

Definition convertMsToHM (milliseconds : Z) : string :=
  let seconds := milliseconds / 1000 in
  let minutes := seconds / 60 in
  let hours := minutes / 60 in
  let seconds := Z.rem seconds 60 in
  let minutes := if Z.geb seconds 30 then minutes + 1 else minutes in
  let minutes := Z.rem minutes 60 in
  let hours := Z.rem hours 24 in
  (padTo2Digits hours ++ ":" ++ padTo2Digits minutes)%string.

(** The decimal digit [d] (0 to 9) as a character, and a number below 100
    written with two digits. *)
Definition digit (d : Z) : Ascii.ascii := Ascii.ascii_of_nat (48 + Z.to_nat d).

Definition two_digits (n : Z) : string :=
  String (digit (n / 10)) (String (digit (n mod 10)) EmptyString).

End Time.

(** ** Reading the contacts of a project from its sheet
       (whatsapp-bot-lion/code/Contacts/FindBastardsInContacts.js) *)

Module Contacts.

(** What [await getSheet(Project)] resolves with, as far as the code reads
    it: [data.data.values]. The response or its [data] may be missing; the
    rows are passed on as they are. *)
Inductive SheetResponse (Rows : Type) : Type :=
| NoResponse
| Response (data : option (option Rows)).

Arguments NoResponse {Rows}.
Arguments Response {Rows} data.

(** What [await getNumbersArrayFromRows(rows)] resolves with: nullish, or an
    object whose [CorrectNumbers] is read ([None]: undefined). *)
Inductive Numbers : Type :=
| NoNumbers
| NumbersOf (CorrectNumbers : option (list string)).

Inductive LogLine : Type :=
| LogFound (n : Numbers)
| LogError (e : JsError).

Inductive Event : Type :=
| EGetSheet
| EGetNumbers
| ELog (l : LogLine).

Section Sheet.

Context {World Project Rows : Type}.

Record Collaborators : Type := {
  getSheet : Project -> World -> Completion (SheetResponse Rows) * World;
  getNumbersArrayFromRows : option Rows -> World -> Completion Numbers * World
}.

(** The world, the variable [ListOfBastards] and what was observed. *)
Record SheetState : Type := {
  world : World;
  ListOfBastards : option (list string);
  trace : list Event
}.

Definition emit (e : Event) : M SheetState unit :=
  fun s => (Returned tt,
            {| world := world s; ListOfBastards := ListOfBastards s;
               trace := trace s ++ [e] |}).

Definition await {A} (f : World -> Completion A * World) : M SheetState A :=
  fun s =>
    let (r, w) := f (world s) in
    (r, {| world := w; ListOfBastards := ListOfBastards s; trace := trace s |}).

Definition assign (l : option (list string)) : M SheetState unit :=
  fun s => (Returned tt,
            {| world := world s; ListOfBastards := l; trace := trace s |}).

(** [data.data.values]: a TypeError when [data] or [data.data] is nullish. *)
Definition data_data_values (data : SheetResponse Rows) : Completion (option Rows) :=
  match data with
  | NoResponse => Threw (TypeError "Cannot read properties of undefined (reading 'data')")
  | Response None =>
      Threw (TypeError "Cannot read properties of undefined (reading 'values')")
  | Response (Some values) => Returned values
  end.

(** [NumbersOfBastards.CorrectNumbers] *)
Definition CorrectNumbers_of (n : Numbers) : Completion (option (list string)) :=
  match n with
  | NoNumbers =>
      Threw (TypeError "Cannot read properties of undefined (reading 'CorrectNumbers')")
  | NumbersOf l => Returned l
  end.

Variable C : Collaborators.
Local Open Scope js_scope.

Definition FindBastardsInContacts (Project0 : Project)
    : M SheetState (option (list string)) :=
  assign (Some []) ;;
  try_catch
    (emit EGetSheet ;;
     data <- await (getSheet C Project0) ;;
     values <- lift (data_data_values data) ;;
     emit EGetNumbers ;;
     NumbersOfBastards <- await (getNumbersArrayFromRows C values) ;;
     emit (ELog (LogFound NumbersOfBastards)) ;;
     l <- lift (CorrectNumbers_of NumbersOfBastards) ;;
     assign l)
    (fun error => emit (ELog (LogError error))) ;;
  s <- get ;;
  ret (ListOfBastards s).

End Sheet.

Arguments Collaborators : clear implicits.
Arguments SheetState : clear implicits.

End Contacts.

(** ** Setting up the database
       (createIndexes, unnamed/part_007; setupDatabase, unnamed/part_004) *)

Module Setup.

(** The value of an index key: 1, -1, 'text' or '2dsphere'. *)
Inductive KeyKind : Type := Asc | Desc | TextKey | Sphere2d.

Definition Key : Type := list (string * KeyKind).

(** An entry of the table [indexes]; a field that is not written is [None]. *)
Record Index : Type := {
  key : Key;
  unique : option bool;
  sparse : option bool;
  weights : option (list (string * nat))
}.

Definition plain (k : Key) : Index :=
  {| key := k; unique := None; sparse := None; weights := None |}.

Definition unique_index (k : Key) : Index :=
  {| key := k; unique := Some true; sparse := None; weights := None |}.

Definition indexes_properties : list Index :=
  [ unique_index [("propertyId", Asc)];
    plain [("status", Asc)];
    plain [("type", Asc)];
    plain [("transactionType", Asc)];
    plain [("location.area", Asc)];
    plain [("location.city", Asc)];
    plain [("price.amount", Asc)];
    plain [("agent.agentId", Asc)];
    plain [("owner.ownerId", Asc)];
    plain [("createdAt", Desc)];
    plain [("updatedAt", Desc)];
    plain [("status", Asc); ("type", Asc)];
    plain [("location.area", Asc); ("type", Asc); ("status", Asc)];
    plain [("status", Asc); ("price.amount", Asc)];
    plain [("transactionType", Asc); ("status", Asc); ("price.amount", Asc)];
    plain [("type", Asc); ("specifications.bedrooms", Asc); ("status", Asc)];
    plain [("location.coordinates", Sphere2d)];
    {| key := [("title", TextKey); ("description", TextKey);
               ("location.area", TextKey); ("location.address", TextKey)];
       unique := None; sparse := None;
       weights := Some [("title", 10); ("location.area", 5); ("description", 3);
                        ("location.address", 2)] |} ].

Definition indexes_users : list Index :=
  [ unique_index [("userId", Asc)];
    unique_index [("email", Asc)];
    plain [("role", Asc)];
    plain [("phone.number", Asc)];
    {| key := [("agentDetails.licenseNumber", Asc)];
       unique := None; sparse := Some true; weights := None |};
    plain [("createdAt", Desc)];
    plain [("isActive", Asc)];
    plain [("role", Asc); ("isActive", Asc)];
    plain [("role", Asc); ("agentDetails.rating", Desc)];
    plain [("name.firstName", TextKey); ("name.lastName", TextKey);
           ("email", TextKey)] ].

Definition indexes_transactions : list Index :=
  [ unique_index [("transactionId", Asc)];
    plain [("propertyId", Asc)];
    plain [("type", Asc)];
    plain [("status", Asc)];
    plain [("buyer.userId", Asc)];
    plain [("seller.userId", Asc)];
    plain [("agent.agentId", Asc)];
    plain [("createdAt", Desc)];
    plain [("completedAt", Desc)];
    plain [("status", Asc); ("type", Asc)];
    plain [("agent.agentId", Asc); ("status", Asc); ("createdAt", Desc)];
    plain [("propertyId", Asc); ("status", Asc)];
    plain [("status", Asc); ("createdAt", Desc)];
    plain [("financialDetails.agreedPrice", Asc)] ].

(** The options object of a [createIndex] call. *)
Record IndexOptions : Type := {
  option_unique : bool;
  option_sparse : bool;
  option_weights : option (list (string * nat))
}.

(** [x || false] *)
Definition or_false (x : option bool) : bool :=
  match x with Some b => b | None => false end.

(** [{ unique: index.unique || false, sparse: index.sparse || false,
       weights: index.weights || undefined }] *)
Definition options_with_weights (index : Index) : IndexOptions :=
  {| option_unique := or_false (unique index);
     option_sparse := or_false (sparse index);
     option_weights := weights index |}.

(** [{ unique: index.unique || false, sparse: index.sparse || false }] *)
Definition options_without_weights (index : Index) : IndexOptions :=
  {| option_unique := or_false (unique index);
     option_sparse := or_false (sparse index);
     option_weights := None |}.

(** config/database.config.js *)
Definition config_database : string := "white_caves_real_estate".

Definition config_collections : list (string * string) :=
  [("properties", "properties"); ("users", "users");
   ("transactions", "transactions")].

Definition default_uri : string :=
  "mongodb://localhost:27017/white_caves_real_estate".

(** [a || b] on a string that may be undefined: the empty string is falsy. *)
Definition or_string (a : option string) (b : string) : string :=
  match a with
  | Some s => if String.eqb s "" then b else s
  | None => b
  end.

(** The calls made on the driver. *)
Inductive DbCall : Type :=
| NewMongoClient (uri : string)
| Connect
| ListCollections
| CreateCollection (name : string)
| CreateIndex (collection : string) (k : Key) (options : IndexOptions)
| CountDocuments (collection : string)
| InsertMany (collection : string) (documents : nat)
| Close.

Inductive LogLine : Type :=
| LogStarting
| LogConnecting
| LogConnected
| LogCreatingCollections
| LogCreatedCollection (name : string)
| LogCollectionExists (name : string)
| LogBlank
| LogCreatingIndexes
| LogCreatedIndexes (n : nat) (collection : string)
| LogAllIndexesCreated
| LogInsertingSeedData
| LogInserted (n : nat) (what : string)
| LogAlreadyHas (Which : string) (n : nat)
| LogCompleted
| LogSummary
| LogDatabase (name : string)
| LogDocuments (what : string) (n : nat)
| LogConnectionClosed
| LogErrorCreatingIndexes (e : JsError)
| LogErrorSettingUp (e : JsError).

(** console.log, console.error and the driver. *)
Inductive Event : Type :=
| ELog (l : LogLine)
| EError (l : LogLine)
| EDb (c : DbCall).

(** The driver calls among the events. *)
Definition calls (evs : list Event) : list DbCall :=
  flat_map (fun e => match e with EDb c => [c] | _ => [] end) evs.

Section Database.

Context {World Client Doc : Type}.

(** The environment variable, the seed modules and the driver. *)
Record Driver : Type := {
  MONGODB_URI : option string;
  sampleProperties : list Doc;
  sampleUsers : list Doc;
  sampleTransactions : list Doc;
  newMongoClient : string -> World -> Completion Client * World;
  connect : Client -> World -> Completion unit * World;
  listCollections : World -> Completion (list string) * World;
  createCollection : string -> World -> Completion unit * World;
  createIndex : string -> Key -> IndexOptions -> World -> Completion unit * World;
  countDocuments : string -> World -> Completion nat * World;
  insertMany : string -> list Doc -> World -> Completion unit * World;
  close : Client -> World -> Completion unit * World
}.

(** The world, the variable [client] of setupDatabase, what was observed. *)
Record DbState : Type := {
  world : World;
  client : option Client;
  trace : list Event
}.

Definition emit (e : Event) : M DbState unit :=
  fun s => (Returned tt,
            {| world := world s; client := client s; trace := trace s ++ [e] |}).

Definition console_log (l : LogLine) : M DbState unit := emit (ELog l).

Definition console_error (l : LogLine) : M DbState unit := emit (EError l).

(** A call of the driver: it is observed, then made. *)
Definition driver {A} (c : DbCall) (f : World -> Completion A * World) : M DbState A :=
  fun s =>
    let (r, w) := f (world s) in
    (r, {| world := w; client := client s; trace := trace s ++ [EDb c] |}).

Definition set_client (c : Client) : M DbState unit :=
  fun s => (Returned tt,
            {| world := world s; client := Some c; trace := trace s |}).

(** [try { m } finally { f }]: [f] runs whatever the completion of [m]; when
    [f] throws, its error is the completion. *)
Definition try_finally {A} (m : M DbState A) (f : M DbState unit) : M DbState A :=
  fun s =>
    let (r, s1) := m s in
    match f s1 with
    | (Returned _, s2) => (r, s2)
    | (Threw e, s2) => (Threw e, s2)
    end.

Fixpoint for_of {A} (l : list A) (body : A -> M DbState unit) : M DbState unit :=
  match l with
  | [] => ret tt
  | x :: rest => bind (body x) (fun _ => for_of rest body)
  end.

Variable D : Driver.
Local Open Scope js_scope.

(** *** createIndexes *)

Definition createIndexes : M DbState unit :=
  try_catch
    (console_log LogCreatingIndexes ;;
     for_of indexes_properties (fun index =>
       driver (CreateIndex "properties" (key index) (options_with_weights index))
         (createIndex D "properties" (key index) (options_with_weights index))) ;;
     console_log (LogCreatedIndexes (List.length indexes_properties) "properties") ;;
     for_of indexes_users (fun index =>
       driver (CreateIndex "users" (key index) (options_with_weights index))
         (createIndex D "users" (key index) (options_with_weights index))) ;;
     console_log (LogCreatedIndexes (List.length indexes_users) "users") ;;
     for_of indexes_transactions (fun index =>
       driver (CreateIndex "transactions" (key index) (options_without_weights index))
         (createIndex D "transactions" (key index) (options_without_weights index))) ;;
     console_log (LogCreatedIndexes (List.length indexes_transactions) "transactions") ;;
     console_log LogAllIndexesCreated)
    (fun error =>
       console_error (LogErrorCreatingIndexes error) ;;
       throw error).

(** The createIndex calls among [l] made on the driver one after the
    other from world [w], up to the first that throws: the completion, the
    world left, and the number of calls made. *)
Fixpoint create_in_order (l : list DbCall) (w : World)
    : Completion unit * World * nat :=
  match l with
  | [] => (Returned tt, w, 0)
  | CreateIndex collection k options :: rest =>
      match createIndex D collection k options w with
      | (Returned _, w') =>
          let '(r, w'', n) := create_in_order rest w' in (r, w'', S n)
      | (Threw e, w') => (Threw e, w', 1)
      end
  | _ :: rest => create_in_order rest w
  end.

(** *** setupDatabase, block by block *)

Definition uri : string :=
  or_string (MONGODB_URI D) (or_string (MONGODB_URI D) default_uri).

(** Lines 15 to 22: connect. *)
Definition connecting : M DbState unit :=
  console_log LogStarting ;;
  console_log LogConnecting ;;
  c <- driver (NewMongoClient uri) (newMongoClient D uri) ;;
  set_client c ;;
  driver Connect (connect D c) ;;
  console_log LogConnected.

(** Lines 28 to 40: create the collections that are missing. *)
Definition creating_collections : M DbState unit :=
  console_log LogCreatingCollections ;;
  collectionNames <- driver ListCollections (listCollections D) ;;
  for_of config_collections (fun entry =>
    let collectionName := snd entry in
    if negb (existsb (String.eqb collectionName) collectionNames) then
      driver (CreateCollection collectionName) (createCollection D collectionName) ;;
      console_log (LogCreatedCollection collectionName)
    else
      console_log (LogCollectionExists collectionName)) ;;
  console_log LogBlank.

(** Lines 50 to 57 (and 60 to 67, 70 to 77): seed a collection that is empty.
    The line of an insertion names the documents ([sample properties]), the
    other line the collection ([Properties collection already has]). *)
Definition seeding (collection what Which : string) (sample : list Doc)
    : M DbState unit :=
  existing <- driver (CountDocuments collection) (countDocuments D collection) ;;
  if Nat.eqb existing 0 then
    driver (InsertMany collection (List.length sample))
      (insertMany D collection sample) ;;
    console_log (LogInserted (List.length sample) what)
  else
    console_log (LogAlreadyHas Which existing).

(** One line of the summary: the count is awaited, then the line written. *)
Definition counting (collection what : string) : M DbState unit :=
  n <- driver (CountDocuments collection) (countDocuments D collection) ;;
  console_log (LogDocuments what n).

(** Lines 79 to 84. *)
Definition summary : M DbState unit :=
  console_log LogCompleted ;;
  console_log LogSummary ;;
  console_log (LogDatabase config_database) ;;
  counting "properties" "Properties" ;;
  counting "users" "Users" ;;
  counting "transactions" "Transactions".

(** The [try] block. *)
Definition setting_up : M DbState unit :=
  connecting ;;
  creating_collections ;;
  createIndexes ;;
  console_log LogBlank ;;
  console_log LogInsertingSeedData ;;
  seeding "properties" "properties" "Properties" (sampleProperties D) ;;
  seeding "users" "users" "Users" (sampleUsers D) ;;
  seeding "transactions" "transactions" "Transactions" (sampleTransactions D) ;;
  summary.

(** The [finally] block. *)
Definition closing : M DbState unit :=
  s <- get ;;
  match client s with
  | Some c => driver Close (close D c) ;; console_log LogConnectionClosed
  | None => ret tt
  end.

Definition setupDatabase : M DbState unit :=
  try_finally
    (try_catch setting_up
       (fun error => console_error (LogErrorSettingUp error) ;; throw error))
    closing.

(** The state setupDatabase is called in: [client] is not assigned yet. *)
Definition fresh (w : World) : DbState :=
  {| world := w; client := None; trace := [] |}.

End Database.

Arguments Driver : clear implicits.
Arguments DbState : clear implicits.

(** The calls createIndexes makes when none fails, in order. *)
Definition all_index_calls : list DbCall :=
  map (fun index => CreateIndex "properties" (key index) (options_with_weights index))
      indexes_properties
  ++ map (fun index => CreateIndex "users" (key index) (options_with_weights index))
         indexes_users
  ++ map (fun index =>
            CreateIndex "transactions" (key index) (options_without_weights index))
         indexes_transactions.

(** *** What a run of setupDatabase may call

    The shapes of the driver calls of each block, used to state what
    setupDatabase does as a whole. *)

(** The names of the configured collections that a listing lacks. *)
Definition missing (collectionNames : list string) : list string :=
  filter (fun name => negb (existsb (String.eqb name) collectionNames))
         (map snd config_collections).

Section Shapes.

Context {World Client Doc : Type} (D : Driver World Client Doc).

(** The calls of the block that creates the collections: nothing (the block
    was not reached), or one listing followed by the creation of missing
    collections, in the order of the configuration. *)
Definition collection_calls (l : list DbCall) : Prop :=
  l = [] \/
  exists created w,
    l = ListCollections :: map CreateCollection created /\
    match listCollections D w with
    | (Returned collectionNames, _) =>
        exists k, created = firstn k (missing collectionNames)
    | (Threw _, _) => created = []
    end.

(** The calls of the seeding and of the summary: counts, and inserts that
    directly follow a count of the same collection that answered 0. *)
Inductive count_calls : list DbCall -> Prop :=
| count_calls_nil : count_calls []
| count_calls_count collection rest :
    count_calls rest -> count_calls (CountDocuments collection :: rest)
| count_calls_insert collection n w w' rest :
    countDocuments D collection w = (Returned 0, w') ->
    count_calls rest ->
    count_calls (CountDocuments collection :: InsertMany collection n :: rest).

(** A computation that leaves [client] alone and calls nothing but such
    counts and inserts. *)
Definition counts_only {A} (m : M (DbState World Client) A) : Prop :=
  forall st r st',
    m st = (r, st') ->
    client st' = client st /\
    exists evs, trace st' = trace st ++ evs /\ count_calls (calls evs).

End Shapes.

End Setup.

(** ** A database in memory

    A driver to run setupDatabase on: the collections with their number of
    documents, and the number of indexes built so far. *)

Module Memory.

Import Setup.

Record Store : Type := {
  documents : list (string * nat);
  index_count : nat
}.

Definition empty : Store := {| documents := []; index_count := 0 |}.

Definition holds (name : string) (p : string * nat) : bool := String.eqb (fst p) name.

Definition count_of (name : string) (s : Store) : nat :=
  match find (holds name) (documents s) with
  | Some p => snd p
  | None => 0
  end.

(** Inserting into a collection that does not exist creates it. *)
Definition add_documents (name : string) (n : nat) (s : Store) : Store :=
  {| documents :=
       if existsb (holds name) (documents s) then
         map (fun p => if holds name p then (fst p, snd p + n) else p) (documents s)
       else documents s ++ [(name, n)];
     index_count := index_count s |}.

Definition sample_properties : list string := ["PROP001"; "PROP002"; "PROP003"].

Definition sample_users : list string :=
  ["AGT001"; "AGT002"; "BUY001"; "TNT001"; "ADM001"].

Definition sample_transactions : list string := ["TXN001"; "TXN002"].

(** A server that may be unreachable and that builds at most [index_limit]
    indexes. *)
Definition server (reachable : bool) (index_limit : nat) : Driver Store unit string :=
  {| MONGODB_URI := None;
     sampleProperties := sample_properties;
     sampleUsers := sample_users;
     sampleTransactions := sample_transactions;
     newMongoClient := fun _ s => (Returned tt, s);
     connect := fun _ s =>
       if reachable then (Returned tt, s)
       else (Threw (Raised "ECONNREFUSED"), s);
     listCollections := fun s => (Returned (map fst (documents s)), s);
     createCollection := fun name s => (Returned tt, add_documents name 0 s);
     createIndex := fun _ _ _ s =>
       if Nat.ltb (index_count s) index_limit then
         (Returned tt,
          {| documents := documents s; index_count := S (index_count s) |})
       else (Threw (Raised "index build failed"), s);
     countDocuments := fun name s => (Returned (count_of name s), s);
     insertMany := fun name docs s =>
       (Returned tt, add_documents name (List.length docs) s);
     close := fun _ s => (Returned tt, s) |}.

(** A server every collection of which holds [n + 1] documents, and that
    takes no more. *)
Definition populated (n : nat) : Driver Store unit string :=
  {| MONGODB_URI := Some "mongodb://db.example:27017/white_caves_real_estate";
     sampleProperties := sample_properties;
     sampleUsers := sample_users;
     sampleTransactions := sample_transactions;
     newMongoClient := fun _ s => (Returned tt, s);
     connect := fun _ s => (Returned tt, s);
     listCollections := fun s => (Returned (map snd config_collections), s);
     createCollection := fun _ s => (Threw (Raised "NamespaceExists"), s);
     createIndex := fun _ _ _ s => (Returned tt, s);
     countDocuments := fun _ s => (Returned (S n), s);
     insertMany := fun _ _ s => (Threw (Raised "read only"), s);
     close := fun _ s => (Returned tt, s) |}.

(** A database in which only the users exist. *)
Definition with_users : Store :=
  {| documents := [("users", 2)]; index_count := 0 |}.

End Memory.

(** ** The dispatcher follows its rules *)

Module BroadcastFacts.

Import Broadcast Scenarios BroadcastTrace.

(** *** CampaignResult *)

(** CampaignResult returns on a message with a recipient and a project, and
    then it has written the tallies; in every other case it throws a
    TypeError before the tallies lines. *)
Lemma CampaignResult_cases SendReport Project s k f numbers i :
  (exists src dst p lines,
     SendReport = Some {| from := src; to := Some dst |} /\ Project = Some p /\
     CampaignResult SendReport Project s k f numbers i = (lines, Returned true) /\
     progress_lines (map ELog lines)
     = [LogResultTallies s f;
        LogResultSkippedRemaining k
          (Z.of_nat (List.length numbers) - Z.of_nat (f + s + k))]) \/
  (exists lines msg,
     (SendReport = None \/ (exists m, SendReport = Some m /\ to m = None)
      \/ Project = None) /\
     CampaignResult SendReport Project s k f numbers i = (lines, Threw (TypeError msg)) /\
     progress_lines (map ELog lines) = []).
Proof.
  destruct SendReport as [[src [dst|]]|]; [destruct Project as [p|]| |].
  - left. eexists _, _, _, _. repeat split; reflexivity.
  - right. eexists _, _. split; [auto|]. split; reflexivity.
  - right. eexists _, _. split; [eauto|]. split; reflexivity.
  - right. eexists _, _. split; [auto|]. split; reflexivity.
Qed.

Lemma sleeps_app a b : sleeps (a ++ b) = sleeps a + sleeps b.
Proof. unfold sleeps. now rewrite filter_app, length_app. Qed.

Lemma progress_lines_app a b :
  progress_lines (a ++ b) = progress_lines a ++ progress_lines b.
Proof. apply flat_map_app. Qed.

Lemma selections_app a b : selections (a ++ b) = selections a ++ selections b.
Proof. apply flat_map_app. Qed.

Lemma validations_app a b : validations (a ++ b) = validations a ++ validations b.
Proof. apply flat_map_app. Qed.

Lemma probes_app a b : probes (a ++ b) = probes a ++ probes b.
Proof. apply flat_map_app. Qed.

Lemma sends_app a b : sends (a ++ b) = sends a ++ sends b.
Proof. apply flat_map_app. Qed.

(** Log lines are no calls. *)
Lemma log_lines_are_no_calls (lines : list LogLine) :
  sleeps (map ELog lines) = 0 /\ sends (map ELog lines) = [] /\
  probes (map ELog lines) = [] /\ selections (map ELog lines) = [] /\
  validations (map ELog lines) = [].
Proof.
  induction lines as [|l rest (Hz & Hs & Hp & Hsel & Hv)]; cbn; auto.
Qed.

Section Facts.

Context {World Client : Type} (C : Collaborators World Client).
Variables (Project : option ProjectT) (newChatsOnly : bool).

Lemma state_eq (w : World) s f k t t' :
  t = t' ->
  {| world := w; successes := s; fails := f; skipped := k; trace := t |} =
  {| world := w; successes := s; fails := f; skipped := k; trace := t' |}.
Proof. intros ->; reflexivity. Qed.

Ltac flatten_trace :=
  apply state_eq; cbn [app map fst trace]; repeat rewrite <- app_assoc; reflexivity.

Lemma log_all_emits (lines : list LogLine) : forall st : RunState World,
  log_all lines st
  = (Returned tt,
     {| world := world st; successes := successes st; fails := fails st;
        skipped := skipped st; trace := trace st ++ map ELog lines |}).
Proof.
  induction lines as [|l rest IH]; intros st.
  - cbn. rewrite app_nil_r. now destruct st.
  - cbn [log_all map]. unfold bind, console_log, emit. rewrite IH.
    cbn [world successes fails skipped trace]. f_equal.
    apply state_eq. now rewrite <- app_assoc.
Qed.

(** The [try]/[catch] statement never throws, and follows the rules of [attempt]. *)
Lemma try_catch_attempt numbers client v i num st :
  exists evs w o,
    attempt C Project newChatsOnly numbers client v i num st evs w o /\
    try_catch (try_block C Project newChatsOnly numbers i client v) (catch_block num) st
    = (Returned (match o with Skipped => Continue | _ => FallThrough end),
       advance st w o evs).
Proof.
  unfold try_catch, try_block, catch_block, bind, console_log, emit, call,
    skipped_incr, successes_incr, fails_incr, get, ret, lift;
    cbn [world trace successes fails skipped].
  destruct (findAndCheckChat C v i (InputOne C) client (world st)) as [[r|e] w] eqn:Hp.
  - destruct (newChatsOnly && has_timestamp r) eqn:Hskip.
    + exists (probe_events C i v ++ [ELog (LogSkipping v)]), w, Skipped. split.
      * eapply attempt_skipped; eassumption.
      * cbn. f_equal. unfold advance. flatten_trace.
    + cbn [world trace successes fails skipped].
      destruct (sendMessage C client v (AfternoonMessage C) w) as [[rep|e] w'] eqn:Hs.
      * cbn [world trace successes fails skipped]. rewrite log_all_emits.
        cbn [world trace successes fails skipped].
        change (CampaignResult rep Project (S (successes st)) (skipped st) (fails st)
                  numbers i) with (report Project numbers rep st i).
        destruct (snd (report Project numbers rep st i)) as [b|e] eqn:Hrep.
        -- eexists _, w', (Sent rep). split.
           ++ eapply attempt_sent; eassumption.
           ++ f_equal. unfold advance, report_events. flatten_trace.
        -- eexists _, w', (SentAndFailed rep e). split.
           ++ eapply attempt_report_threw; eassumption.
           ++ f_equal. unfold advance, report_events, caught_events. flatten_trace.
      * eexists _, w', (Failed e). split.
        -- eapply attempt_send_threw; eassumption.
        -- cbn. f_equal. unfold advance. flatten_trace.
  - eexists _, w, (Failed e). split.
    + eapply attempt_probe_threw; eassumption.
    + cbn. f_equal. unfold advance. flatten_trace.
Qed.

(** [iteration] follows the rules of [iterates]. *)
Lemma iteration_iterates numbers i num st r st' :
  iteration C Project newChatsOnly numbers i num st = (r, st') ->
  iterates C Project newChatsOnly numbers i num st r st'.
Proof.
  unfold iteration.
  unfold bind at 1. cbn [emit].
  unfold bind at 1. unfold call at 1. cbn [world trace successes fails skipped].
  fold (remainder C i).
  destruct (SelectingBotForCampaign C (remainder C i) (world st)) as [[client|e] w] eqn:Hsel.
  2:{ intros [= <- <-]. apply iterates_select_threw. exact Hsel. }
  unfold bind at 1. cbn [emit world trace successes fails skipped].
  unfold bind at 1. unfold lift at 1.
  destruct (validateNumberWithCountryCode C num) as [v|e] eqn:Hval.
  2:{ intros [= <- <-].
      match goal with |- iterates _ _ _ _ _ _ _ _ ?s =>
        replace s with (observe st w (select_events C i num)) end.
      - eapply iterates_validate_threw; eassumption.
      - unfold observe. flatten_trace. }
  unfold bind at 1.
  match goal with |- context [try_catch _ _ ?s] => set (st1 := s) end.
  destruct (try_catch_attempt numbers client v i num st1) as (evs & w' & o & Hatt & Heq).
  rewrite Heq.
  assert (Hst1 : st1 = observe st w (select_events C i num)).
  { unfold st1, observe. flatten_trace. }
  assert (Hatt' : attempt C Project newChatsOnly numbers client v i num
                    (observe st w []) evs w' o).
  { destruct Hatt.
    - eapply attempt_probe_threw; eassumption.
    - eapply attempt_skipped; eassumption.
    - eapply attempt_send_threw; eassumption.
    - change (report_events Project numbers SendReport st1 i)
        with (report_events Project numbers SendReport (observe st w []) i).
      eapply attempt_sent; eassumption.
    - change (report_events Project numbers SendReport st1 i)
        with (report_events Project numbers SendReport (observe st w []) i).
      eapply attempt_report_threw; eassumption. }
  assert (Hdelay : forall o0, o0 <> Skipped -> o = o0 ->
            (let flow := match o with Skipped => Continue | _ => FallThrough end in
             match flow with
             | Continue => ret tt
             | FallThrough =>
                 bind (emit ESleep)
                   (fun _ => call (SleepTimeOfficialHoursWithRandomDelay C (InputOne C)))
             end) (advance st1 w' o evs) = (r, st') ->
            iterates C Project newChatsOnly numbers i num st r st').
  { intros o0 Ho0 ->. assert (Hflow : match o0 with Skipped => Continue
                                                   | _ => FallThrough end = FallThrough)
      by (destruct o0; congruence).
    cbv zeta. rewrite Hflow.
    unfold bind, emit, call; cbn [world trace successes fails skipped advance].
    destruct (SleepTimeOfficialHoursWithRandomDelay C (InputOne C) w') as [rz w''] eqn:Hz.
    intros [= <- <-].
    match goal with |- iterates _ _ _ _ _ _ _ _ ?s =>
      replace s
        with (advance st w'' o0 (select_events C i num ++ evs ++ [ESleep])) end.
    + eapply iterates_counted; try eassumption.
    + unfold advance, st1. cbn [world trace successes fails skipped]. flatten_trace. }
  destruct o as [rep| |e|rep e].
  - apply (Hdelay (Sent rep)); [discriminate|reflexivity].
  - unfold ret. intros [= <- <-].
    replace (advance st1 w' Skipped evs)
      with (advance st w' Skipped (select_events C i num ++ evs)).
    + eapply iterates_skipped; eassumption.
    + unfold advance, st1. cbn [world trace successes fails skipped]. flatten_trace.
  - apply (Hdelay (Failed e)); [discriminate|reflexivity].
  - apply (Hdelay (SentAndFailed rep e)); [discriminate|reflexivity].
Qed.

(** The events of a [try] block whose send returned, read piece by piece:
    [lines] are the lines of CampaignResult, [tail] what follows them. *)
Lemma try_events_read i v lines tail :
  let evs := (probe_events C i v
              ++ ESend v (AfternoonMessage C) :: map ELog lines) ++ tail in
  sleeps evs = sleeps tail /\
  sends evs = (v, AfternoonMessage C) :: sends tail /\
  probes evs = (v, i) :: probes tail /\
  selections evs = selections tail /\
  validations evs = validations tail /\
  progress_lines evs = progress_lines (map ELog lines) ++ progress_lines tail.
Proof.
  destruct (log_lines_are_no_calls lines) as (Hz & Hs & Hp & Hsel & Hv).
  cbv zeta.
  change (ESend v (AfternoonMessage C) :: map ELog lines)
    with ([ESend v (AfternoonMessage C)] ++ map ELog lines).
  rewrite !sleeps_app, !sends_app, !probes_app, !selections_app, !validations_app,
    !progress_lines_app, Hz, Hs, Hp, Hsel, Hv.
  repeat split; reflexivity.
Qed.

(** The same with the selection and the validation before them. *)
Lemma sent_events_read i num v lines tail :
  let evs := select_events C i num
             ++ (probe_events C i v
                 ++ ESend v (AfternoonMessage C) :: map ELog lines) ++ tail in
  sleeps evs = sleeps tail /\
  sends evs = (v, AfternoonMessage C) :: sends tail /\
  probes evs = (v, i) :: probes tail /\
  selections evs = remainder C i :: selections tail /\
  validations evs = num :: validations tail /\
  progress_lines evs = progress_lines (map ELog lines) ++ progress_lines tail.
Proof.
  destruct (try_events_read i v lines tail) as (Hz & Hs & Hp & Hsel & Hv & Hpl).
  cbv zeta in *.
  rewrite sleeps_app, sends_app, probes_app, selections_app, validations_app,
    progress_lines_app, Hz, Hs, Hp, Hsel, Hv, Hpl.
  repeat split; reflexivity.
Qed.

(** Every iteration stops before the [try] statement and counts nothing, or
    counts its contact: in one counter, or, when the report throws after the
    send, as a success and as a failure. *)
Lemma iterates_summary numbers i num st r st' :
  iterates C Project newChatsOnly numbers i num st r st' ->
  exists t evs,
    trace st' = trace st ++ evs /\ tallied t st st' /\
    match t with
    | Nothing =>
        (exists e, r = Threw e) /\ sleeps evs = 0 /\ sends evs = [] /\
        probes evs = [] /\ progress_lines evs = []
    | OneSuccess =>
        (exists evs0, evs = evs0 ++ [ESleep] /\ sleeps evs0 = 0) /\
        (exists v, sends evs = [(v, AfternoonMessage C)]) /\
        progress_lines evs = report_of numbers st'
    | OneSkip =>
        r = Returned tt /\ sleeps evs = 0 /\ sends evs = [] /\ progress_lines evs = []
    | OneFail =>
        (exists evs0, evs = evs0 ++ [ESleep] /\ sleeps evs0 = 0) /\
        progress_lines evs = []
    | SuccessAndFail =>
        (exists evs0, evs = evs0 ++ [ESleep] /\ sleeps evs0 = 0) /\
        (exists v, sends evs = [(v, AfternoonMessage C)]) /\
        progress_lines evs = []
    end.
Proof.
  intros H. destruct H as [e w Hsel | client w e Hsel Hval
                          | client w v evs w' Hsel Hval Hatt
                          | client w v evs w' o rz w'' Hsel Hval Hatt Ho Hz].
  - exists Nothing, [ESelect (remainder C i)]. cbn. repeat split; eauto.
  - exists Nothing, (select_events C i num). cbn. repeat split; eauto.
  - exists OneSkip, (select_events C i num ++ evs). inversion Hatt; subst.
    cbn. repeat split; eauto.
  - destruct Hatt as [e w' Hp | cr w' Hp Hskip | cr w1 e w' Hp Hskip Hs
                     | cr w1 rep w' b Hp Hskip Hs Hrep
                     | cr w1 rep w' e Hp Hskip Hs Hrep].
    + exists OneFail. eexists. split; [reflexivity|].
      split; [cbn; auto|]. split; [|reflexivity].
      eexists (select_events C i num ++ _). split; [now rewrite app_assoc|reflexivity].
    + congruence.
    + exists OneFail. eexists. split; [reflexivity|].
      split; [cbn; auto|]. split; [|reflexivity].
      eexists (select_events C i num ++ _). split; [now rewrite app_assoc|reflexivity].
    + exists OneSuccess. eexists. split; [reflexivity|].
      split; [cbn; auto|].
      unfold report_events, report in *. cbn [successes fails skipped observe] in *.
      set (lines := fst (CampaignResult rep Project (S (successes st)) (skipped st)
                           (fails st) numbers i)).
      destruct (sent_events_read i num v lines []) as (Hz0 & Hs0 & _ & _ & _ & Hpl).
      destruct (sent_events_read i num v lines [ESleep]) as (_ & Hs1 & _ & _ & _ & Hpl1).
      split; [|split].
      * eexists. split; [now rewrite app_assoc|].
        rewrite app_nil_r in Hz0. exact Hz0.
      * exists v. exact Hs1.
      * rewrite Hpl1. unfold lines.
        destruct (CampaignResult_cases rep Project (S (successes st)) (skipped st)
                    (fails st) numbers i)
          as [(src & dst & p & ls & _ & _ & Heq & Hlines)
             |(ls & msg & _ & Heq & _)];
          rewrite Heq in *; cbn [fst snd] in *; [|discriminate].
        rewrite Hlines. reflexivity.
    + exists SuccessAndFail. eexists. split; [reflexivity|].
      split; [cbn; auto|].
      unfold report_events, report in *. cbn [successes fails skipped observe] in *.
      set (lines := fst (CampaignResult rep Project (S (successes st)) (skipped st)
                           (fails st) numbers i)).
      assert (Hevs : select_events C i num
                     ++ (probe_events C i v
                         ++ ESend v (AfternoonMessage C)
                            :: map ELog lines ++ caught_events num e) ++ [ESleep]
                     = select_events C i num
                       ++ (probe_events C i v
                           ++ ESend v (AfternoonMessage C) :: map ELog lines)
                       ++ caught_events num e ++ [ESleep])
        by (repeat (rewrite <- app_assoc || rewrite <- app_comm_cons); reflexivity).
      rewrite Hevs.
      destruct (sent_events_read i num v lines (caught_events num e))
        as (Hz0 & _).
      destruct (sent_events_read i num v lines (caught_events num e ++ [ESleep]))
        as (_ & Hs1 & _ & _ & _ & Hpl1).
      split; [|split].
      * exists (select_events C i num
                ++ (probe_events C i v
                    ++ ESend v (AfternoonMessage C) :: map ELog lines)
                ++ caught_events num e).
        split; [now rewrite <- !app_assoc|]. exact Hz0.
      * exists v. exact Hs1.
      * rewrite Hpl1. unfold lines.
        destruct (CampaignResult_cases rep Project (S (successes st)) (skipped st)
                    (fails st) numbers i)
          as [(src & dst & p & ls & _ & _ & Heq & Hlines)
             |(ls & msg & _ & Heq & Hlines)];
          rewrite Heq in *; cbn [fst snd] in *; [discriminate|].
        rewrite Hlines. reflexivity.
Qed.

(** What the [try]/[catch] statement calls and writes, outcome by outcome. *)
Lemma attempt_reads numbers client v i num st evs w o :
  attempt C Project newChatsOnly numbers client v i num st evs w o ->
  probes evs = [(v, i)] /\ sleeps evs = 0 /\ selections evs = [] /\
  validations evs = [] /\
  (exists evs', evs = probe_events C i v ++ evs') /\
  match o with
  | Sent _ =>
      sends evs = [(v, AfternoonMessage C)] /\
      progress_lines evs
      = [LogResultTallies (S (successes st)) (fails st);
         LogResultSkippedRemaining (skipped st)
           (Z.of_nat (List.length numbers)
            - Z.of_nat (fails st + S (successes st) + skipped st))]
  | Skipped => sends evs = [] /\ progress_lines evs = []
  | Failed e =>
      (sends evs = [] \/ sends evs = [(v, AfternoonMessage C)]) /\
      progress_lines evs = [] /\ In (ELog (LogError e)) evs
  | SentAndFailed _ e =>
      sends evs = [(v, AfternoonMessage C)] /\
      progress_lines evs = [] /\ In (ELog (LogError e)) evs
  end.
Proof.
  intros Hatt.
  destruct Hatt as [e w' Hp | cr w' Hp Hskip | cr w1 e w' Hp Hskip Hs
                   | cr w1 rep w' b Hp Hskip Hs Hrep
                   | cr w1 rep w' e Hp Hskip Hs Hrep].
  - do 4 (split; [reflexivity|]). split; [eexists; reflexivity|].
    split; [left; reflexivity|]. split; [reflexivity|].
    apply in_or_app. right. left. reflexivity.
  - do 4 (split; [reflexivity|]). split; [eexists; reflexivity|].
    split; reflexivity.
  - do 4 (split; [reflexivity|]). split; [eexists; reflexivity|].
    split; [right; reflexivity|]. split; [reflexivity|].
    apply in_or_app. right. right. left. reflexivity.
  - unfold report_events, report in *.
    set (lines := fst (CampaignResult rep Project (S (successes st)) (skipped st)
                         (fails st) numbers i)).
    destruct (try_events_read i v lines []) as (Hz & Hs0 & Hp0 & Hsel & Hv & Hpl).
    cbv zeta in *. rewrite app_nil_r in *.
    do 4 (split; [assumption|]). split; [eexists; reflexivity|].
    split; [assumption|]. rewrite Hpl. unfold lines.
    destruct (CampaignResult_cases rep Project (S (successes st)) (skipped st)
                (fails st) numbers i)
      as [(src & dst & p & ls & _ & _ & Heq & Hlines)|(ls & msg & _ & Heq & _)];
      rewrite Heq in *; cbn [fst snd] in *; [|discriminate].
    rewrite Hlines. reflexivity.
  - unfold report_events, report in *.
    set (lines := fst (CampaignResult rep Project (S (successes st)) (skipped st)
                         (fails st) numbers i)).
    assert (Hevs : probe_events C i v
                   ++ ESend v (AfternoonMessage C)
                      :: map ELog lines ++ caught_events num e
                   = (probe_events C i v
                      ++ ESend v (AfternoonMessage C) :: map ELog lines)
                     ++ caught_events num e)
      by (repeat (rewrite <- app_assoc || rewrite <- app_comm_cons); reflexivity).
    rewrite Hevs.
    destruct (try_events_read i v lines (caught_events num e))
      as (Hz & Hs0 & Hp0 & Hsel & Hv & Hpl).
    cbv zeta in *.
    do 4 (split; [assumption|]).
    split; [eexists; rewrite <- app_assoc; reflexivity|].
    split; [assumption|]. split.
    + rewrite Hpl. unfold lines.
      destruct (CampaignResult_cases rep Project (S (successes st)) (skipped st)
                  (fails st) numbers i)
        as [(src & dst & p & ls & _ & _ & Heq & Hlines)|(ls & msg & _ & Heq & Hlines)];
        rewrite Heq in *; cbn [fst snd] in *; [discriminate|].
      rewrite Hlines. reflexivity.
    + apply in_or_app. right. left. reflexivity.
Qed.

(** *** The loop *)

Lemma for_entries_fold (body : nat -> string -> M (RunState World) unit)
    (P : nat -> RunState World -> RunState World -> Prop) :
  (forall st, P 0 st st) ->
  (forall n a b c, P 1 a b -> P n b c -> P (S n) a c) ->
  (forall i num st st', body i num st = (Returned tt, st') -> P 1 st st') ->
  forall l i st st',
    for_entries body i l st = (Returned tt, st') -> P (List.length l) st st'.
Proof.
  intros H0 Hcons Hstep. induction l as [|num rest IH]; intros i st st'.
  - cbn. intros [= <-]. apply H0.
  - cbn [for_entries List.length]. unfold bind.
    destruct (body i num st) as [[[]|e] st1] eqn:Hb; [|discriminate].
    intros Hrest. eapply Hcons; eauto.
Qed.

(** The loop, whatever its completion. *)
Lemma for_entries_fold_any (body : nat -> string -> M (RunState World) unit)
    (P : RunState World -> RunState World -> Prop) :
  (forall st, P st st) ->
  (forall a b c, P a b -> P b c -> P a c) ->
  (forall i num st r st', body i num st = (r, st') -> P st st') ->
  forall l i st r st', for_entries body i l st = (r, st') -> P st st'.
Proof.
  intros Hrefl Htrans Hstep. induction l as [|num rest IH]; intros i st r st'.
  - cbn. intros [= <- <-]. apply Hrefl.
  - cbn [for_entries]. unfold bind.
    destruct (body i num st) as [[[]|e] st1] eqn:Hb.
    + intros Hrest. eapply Htrans; eauto.
    + intros [= <- <-]. eauto.
Qed.

(** The loop over [l1 ++ l2] is the loop over [l1] followed, when it
    returns, by the loop over [l2] at the indices that follow. *)
Lemma for_entries_app (body : nat -> string -> M (RunState World) unit) l1 l2 :
  forall i st,
    for_entries body i (l1 ++ l2) st =
    match for_entries body i l1 st with
    | (Returned _, st1) => for_entries body (i + List.length l1) l2 st1
    | (Threw e, st1) => (Threw e, st1)
    end.
Proof.
  induction l1 as [|num rest IH]; intros i st.
  - cbn. now rewrite Nat.add_0_r.
  - cbn [for_entries app List.length]. unfold bind.
    destruct (body i num st) as [[[]|e] st1]; [|reflexivity].
    rewrite IH. now rewrite Nat.add_succ_r.
Qed.

(** Every contact of the array is processed by one iteration, at its index,
    from the state the contacts before it have left. *)
Lemma for_entries_at (body : nat -> string -> M (RunState World) unit) pre num post st :
  for_entries body 0 (pre ++ num :: post) st =
  match for_entries body 0 pre st with
  | (Returned _, st1) =>
      match body (List.length pre) num st1 with
      | (Returned _, st2) => for_entries body (S (List.length pre)) post st2
      | (Threw e, st2) => (Threw e, st2)
      end
  | (Threw e, st1) => (Threw e, st1)
  end.
Proof.
  rewrite for_entries_app. destruct (for_entries body 0 pre st) as [[[]|e] st1];
    [|reflexivity].
  cbn [for_entries Nat.add]. unfold bind.
  destruct (body (List.length pre) num st1) as [[[]|e] st2]; reflexivity.
Qed.

(** sendBroadcast, unfolded: shuffle, loop, the two closing lines, return. *)
Lemma sendBroadcast_unfold MNumbers w :
  sendBroadcast C MNumbers Project newChatsOnly w =
  let (shuffled, w1) := ShuffleMyArray C MNumbers w in
  match for_entries (iteration C Project newChatsOnly shuffled) 0 shuffled
          {| world := w1; successes := 0; fails := 0; skipped := 0;
             trace := [EClear; EShuffle] |} with
  | (Returned _, st1) =>
      (Returned {| result_successes := successes st1; result_fails := fails st1 |},
       {| world := world st1; successes := successes st1; fails := fails st1;
          skipped := skipped st1;
          trace := trace st1 ++ [ELog (LogSucceededTotal (successes st1));
                                 ELog (LogFailedTotal (fails st1))] |})
  | (Threw e, st1) => (Threw e, st1)
  end.
Proof.
  unfold sendBroadcast, sendBroadcast_body, initial.
  unfold bind at 1. cbn [emit]. unfold bind at 1. cbn [emit world trace successes fails skipped].
  unfold bind at 1. unfold call at 1. cbn [world trace successes fails skipped].
  destruct (ShuffleMyArray C MNumbers w) as [shuffled w1].
  cbn [app]. unfold bind at 1.
  destruct (for_entries _ 0 shuffled _) as [[[]|e] st1]; [|reflexivity].
  unfold bind, get, console_log, emit, ret. cbn [world trace successes fails skipped].
  f_equal. apply state_eq. now rewrite <- app_assoc.
Qed.

(** *** Properties of the dispatcher *)

(** C10. For every run of sendBroadcast that completes normally, the value
    returned is the record of the success count and the failure count; the
    skipped count, tracked in the run state, is no field of it. *)
Theorem sendBroadcast_returns_successes_and_fails MNumbers w r st :
  sendBroadcast C MNumbers Project newChatsOnly w = (Returned r, st) ->
  r = {| result_successes := successes st; result_fails := fails st |}.
Proof.
  rewrite sendBroadcast_unfold.
  destruct (ShuffleMyArray C MNumbers w) as [shuffled w1].
  destruct (for_entries _ 0 shuffled _) as [[[]|e] st1]; [|discriminate].
  intros [= <- <-]. reflexivity.
Qed.

(** Once the session is selected and the validator has returned, the
    iteration is its [try]/[catch] statement followed, unless the contact was
    skipped, by the delay. *)
Lemma iteration_after_validation numbers i num st client w v :
  SelectingBotForCampaign C (remainder C i) (world st) = (Returned client, w) ->
  validateNumberWithCountryCode C num = Returned v ->
  exists evs w' o,
    attempt C Project newChatsOnly numbers client v i num (observe st w []) evs w' o /\
    iteration C Project newChatsOnly numbers i num st =
    match o with
    | Skipped => (Returned tt, advance st w' Skipped (select_events C i num ++ evs))
    | _ =>
        (fst (SleepTimeOfficialHoursWithRandomDelay C (InputOne C) w'),
         advance st (snd (SleepTimeOfficialHoursWithRandomDelay C (InputOne C) w')) o
           (select_events C i num ++ evs ++ [ESleep]))
    end.
Proof.
  intros Hsel Hval.
  destruct (iteration C Project newChatsOnly numbers i num st) as [r st'] eqn:Hit.
  apply iteration_iterates in Hit.
  destruct Hit as [e w0 Hsel' | client0 w0 e Hsel' Hval'
                  | client0 w0 v0 evs w' Hsel' Hval' Hatt
                  | client0 w0 v0 evs w' o rz w'' Hsel' Hval' Hatt Ho Hz];
    rewrite Hsel in Hsel'; try discriminate;
    injection Hsel' as <- <-; rewrite Hval in Hval'; try discriminate;
    injection Hval' as <-.
  - exists evs, w', Skipped. split; [exact Hatt|reflexivity].
  - exists evs, w', o. split; [exact Hatt|].
    rewrite Hz. destruct o; [reflexivity|congruence|reflexivity|reflexivity].
Qed.

(** What an iteration that got past the validator has done, whatever its
    completion: the events of the selection and of the validation, those of
    the [try]/[catch] statement, and the delay unless the contact was
    skipped. *)
Lemma iteration_events numbers i num st r st' :
  iteration C Project newChatsOnly numbers i num st = (r, st') ->
  exists evs,
    trace st' = trace st ++ evs /\
    selections evs = [remainder C i] /\
    ((exists e w, r = Threw e /\
                  SelectingBotForCampaign C (remainder C i) (world st) = (Threw e, w) /\
                  evs = [ESelect (remainder C i)] /\
                  successes st' = successes st /\ fails st' = fails st /\
                  skipped st' = skipped st) \/
     (exists e, r = Threw e /\ validateNumberWithCountryCode C num = Threw e /\
                evs = select_events C i num /\
                successes st' = successes st /\ fails st' = fails st /\
                skipped st' = skipped st) \/
     (exists client w v att w' o,
        SelectingBotForCampaign C (remainder C i) (world st) = (Returned client, w) /\
        validateNumberWithCountryCode C num = Returned v /\
        attempt C Project newChatsOnly numbers client v i num (observe st w [])
          att w' o /\
        evs = select_events C i num ++ att
              ++ match o with Skipped => [] | _ => [ESleep] end /\
        successes st' = successes (advance st w' o []) /\
        fails st' = fails (advance st w' o []) /\
        skipped st' = skipped (advance st w' o []) /\
        match o with
        | Skipped => r = Returned tt /\ world st' = w'
        | _ => (r, world st') = SleepTimeOfficialHoursWithRandomDelay C (InputOne C) w'
        end)).
Proof.
  intros H. apply iteration_iterates in H.
  destruct H as [e w Hsel | client w e Hsel Hval
                | client w v evs w' Hsel Hval Hatt
                | client w v evs w' o rz w'' Hsel Hval Hatt Ho Hz].
  - exists [ESelect (remainder C i)]. split; [reflexivity|]. split; [reflexivity|].
    left. exists e, w. cbn. auto 10.
  - exists (select_events C i num). split; [reflexivity|]. split; [reflexivity|].
    right. left. exists e. cbn. auto 10.
  - exists (select_events C i num ++ evs). split; [reflexivity|].
    destruct (attempt_reads _ _ _ _ _ _ _ _ _ Hatt) as (_ & _ & Hs & _).
    split; [rewrite selections_app, Hs; reflexivity|].
    right. right. exists client, w, v, evs, w', Skipped.
    rewrite app_nil_r. cbn. auto 10.
  - exists (select_events C i num ++ evs ++ [ESleep]). split; [reflexivity|].
    destruct (attempt_reads _ _ _ _ _ _ _ _ _ Hatt) as (_ & _ & Hs & _).
    split; [rewrite !selections_app, Hs; reflexivity|].
    right. right. exists client, w, v, evs, w', o.
    destruct o; try congruence; cbn; auto 10.
Qed.

(** An iteration that returns has counted its contact once, or twice. *)
Lemma iteration_counts numbers i num st st' :
  iteration C Project newChatsOnly numbers i num st = (Returned tt, st') ->
  exists d, d <= 1 /\
    successes st' + fails st' + skipped st'
    = S (successes st + fails st + skipped st) + d.
Proof.
  intros H. apply iteration_iterates, iterates_summary in H.
  destruct H as (t & evs & _ & Ht & Hcase).
  destruct t; cbn in Ht.
  - destruct Hcase as [[e He] _]. discriminate.
  - exists 0. lia.
  - exists 0. lia.
  - exists 0. lia.
  - exists 1. lia.
Qed.

Lemma iteration_progress numbers i num st r st' :
  iteration C Project newChatsOnly numbers i num st = (r, st') ->
  exists evs,
    trace st' = trace st ++ evs /\
    (successes st' = S (successes st) -> fails st' = fails st ->
     progress_lines evs = report_of numbers st') /\
    (successes st' = successes st -> progress_lines evs = []).
Proof.
  intros H. apply iteration_iterates, iterates_summary in H.
  destruct H as (t & evs & Htr & Ht & Hcase). exists evs. split; [exact Htr|].
  destruct t; cbn in Ht; destruct Ht as (Hs & Hf & Hk).
  - destruct Hcase as (_ & _ & _ & _ & Hp). split; [lia|auto].
  - destruct Hcase as (_ & _ & Hp). split; [auto|lia].
  - destruct Hcase as (_ & _ & _ & Hp). split; [lia|auto].
  - destruct Hcase as (_ & Hp). split; [lia|auto].
  - split; lia.
Qed.


(** In a run that completes over k contacts, the delay was called once for
    every contact that was not skipped, and the tallies were written (two
    lines) once for every contact that was neither skipped nor counted as
    failed; no counter is below what a single count per contact gives. *)
Lemma completed_run_delays_and_reports MNumbers w r st :
  shuffles C ->
  sendBroadcast C MNumbers Project newChatsOnly w = (Returned r, st) ->
  sleeps (trace st) + skipped st = List.length MNumbers /\
  List.length (progress_lines (trace st)) + 2 * (fails st + skipped st)
  = 2 * List.length MNumbers /\
  List.length MNumbers <= successes st + fails st + skipped st.
Proof.
  intros Hperm. rewrite sendBroadcast_unfold.
  pose proof (Hperm MNumbers w) as Hlen. apply Permutation_length in Hlen.
  destruct (ShuffleMyArray C MNumbers w) as [shuffled w1]. cbn [fst] in Hlen.
  destruct (for_entries _ 0 shuffled _) as [[[]|e] st1] eqn:Hloop; [|discriminate].
  intros [= _ <-]. cbn [trace successes fails skipped].
  rewrite sleeps_app, progress_lines_app, length_app. cbn.
  apply (for_entries_fold (iteration C Project newChatsOnly shuffled)
           (fun n a b =>
              sleeps (trace b) + skipped b = sleeps (trace a) + skipped a + n /\
              List.length (progress_lines (trace b)) + 2 * (fails b + skipped b)
              = List.length (progress_lines (trace a)) + 2 * (fails a + skipped a)
                + 2 * n /\
              successes a + fails a + skipped a + n
              <= successes b + fails b + skipped b)) in Hloop.
  - cbn in Hloop. lia.
  - intros; lia.
  - intros; lia.
  - intros i num a b Hit. apply iteration_iterates, iterates_summary in Hit.
    destruct Hit as (t & evs & -> & Ht & Hcase).
    rewrite sleeps_app, progress_lines_app, length_app.
    destruct t; cbn in Ht; destruct Ht as (Hs & Hf & Hk).
    + destruct Hcase as [[e He] _]. discriminate.
    + destruct Hcase as ((evs0 & -> & Hz) & _ & Hp).
      rewrite sleeps_app, Hz, Hp. cbn. lia.
    + destruct Hcase as (_ & Hz & _ & Hp). rewrite Hz, Hp. cbn. lia.
    + destruct Hcase as ((evs0 & -> & Hz) & Hp).
      rewrite sleeps_app, Hz, Hp. cbn. lia.
    + destruct Hcase as ((evs0 & -> & Hz) & _ & Hp).
      rewrite sleeps_app, Hz, Hp. cbn. lia.
Qed.

(** C2 (as the code has it). A progress observation, the tallies lines of
    CampaignResult with the counters after the contact and
    remaining = total - (fails + successes + skipped), is written for a
    contact counted as sent and not as failed; for a contact that is not
    counted as sent (skipped, or failed before the send returned) no line
    with the tallies is written. A completed run over k contacts has written
    the two tallies lines k - fails - skipped times. *)
Theorem progress_is_reported_for_sent_contacts_only :
  (forall numbers i num st r st',
     iteration C Project newChatsOnly numbers i num st = (r, st') ->
     exists evs,
       trace st' = trace st ++ evs /\
       (successes st' = S (successes st) -> fails st' = fails st ->
        progress_lines evs = report_of numbers st') /\
       (successes st' = successes st -> progress_lines evs = [])) /\
  (forall MNumbers w r st,
     shuffles C ->
     sendBroadcast C MNumbers Project newChatsOnly w = (Returned r, st) ->
     List.length (progress_lines (trace st)) + 2 * (fails st + skipped st)
     = 2 * List.length MNumbers).
Proof.
  split.
  - apply iteration_progress.
  - intros MNumbers w r st Hperm H.
    now apply completed_run_delays_and_reports in H.
Qed.


(** C4. In a run with newChatsOnly = true, for every contact whose probe
    resolves with a chat that carries a timestamp, sendMessage is not called
    for that contact and the skipped counter, and only it, goes up by one. *)
Theorem found_contact_is_skipped_and_never_sent numbers i num st client w v cr w' :
  newChatsOnly = true ->
  SelectingBotForCampaign C (remainder C i) (world st) = (Returned client, w) ->
  validateNumberWithCountryCode C num = Returned v ->
  findAndCheckChat C v i (InputOne C) client w = (Returned cr, w') ->
  has_timestamp cr = true ->
  exists st' evs,
    iteration C Project newChatsOnly numbers i num st = (Returned tt, st') /\
    trace st' = trace st ++ evs /\
    sends evs = [] /\
    skipped st' = S (skipped st) /\
    successes st' = successes st /\ fails st' = fails st.
Proof.
  intros Hnew Hsel Hval Hprobe Hts.
  destruct (iteration_after_validation numbers i num st client w v Hsel Hval)
    as (evs & w1 & o & Hatt & Heq).
  destruct Hatt as [e w1 Hp | cr1 w1 Hp Hskip | cr1 w0 e w1 Hp Hskip Hs
                   | cr1 w0 rep w1 b Hp Hskip Hs Hrep
                   | cr1 w0 rep w1 e Hp Hskip Hs Hrep];
    cbn [world observe] in Hp; rewrite Hprobe in Hp; try discriminate;
    injection Hp as <- <-; try (rewrite Hnew, Hts in Hskip; discriminate).
  eexists _, _. split; [exact Heq|]. cbn. auto.
Qed.


(** C7 (as the code has it). sendBroadcast does not look at what the
    validator returns. A contact for which it returns InvalidFormat is
    probed like any other; it is counted as failed, and not as sent, exactly
    when the probe throws, or the probe lets it through and sendMessage
    throws. When it is counted as failed the delay is called once and the
    iteration completes as the delay does; when the iteration returns, the
    loop goes on with the contacts after it. *)
Theorem invalid_contact_fails_only_if_probe_or_transport_throws :
  (forall numbers i num st client w,
     SelectingBotForCampaign C (remainder C i) (world st) = (Returned client, w) ->
     validateNumberWithCountryCode C num = Returned InvalidFormat ->
     exists r st' evs,
       iteration C Project newChatsOnly numbers i num st = (r, st') /\
       trace st' = trace st ++ evs /\
       probes evs = [(InvalidFormat, i)] /\
       (fails st' = S (fails st) /\ successes st' = successes st <->
          (exists e w', findAndCheckChat C InvalidFormat i (InputOne C) client w
                        = (Threw e, w')) \/
          (exists cr w' e w'',
             findAndCheckChat C InvalidFormat i (InputOne C) client w
               = (Returned cr, w') /\
             newChatsOnly && has_timestamp cr = false /\
             sendMessage C client InvalidFormat (AfternoonMessage C) w'
               = (Threw e, w''))) /\
       (fails st' = S (fails st) ->
          sleeps evs = 1 /\
          exists w', (r, world st')
                     = SleepTimeOfficialHoursWithRandomDelay C (InputOne C) w')) /\
  (forall MNumbers w pre num post st1 r st2,
     fst (ShuffleMyArray C MNumbers w) = pre ++ num :: post ->
     for_entries (iteration C Project newChatsOnly (pre ++ num :: post)) 0 pre
       (loop_start (snd (ShuffleMyArray C MNumbers w))) = (Returned tt, st1) ->
     validateNumberWithCountryCode C num = Returned InvalidFormat ->
     iteration C Project newChatsOnly (pre ++ num :: post) (List.length pre) num st1
       = (r, st2) ->
     match r with
     | Returned _ =>
         for_entries (iteration C Project newChatsOnly (pre ++ num :: post)) 0
           (pre ++ num :: post) (loop_start (snd (ShuffleMyArray C MNumbers w)))
         = for_entries (iteration C Project newChatsOnly (pre ++ num :: post))
             (S (List.length pre)) post st2
     | Threw e =>
         sendBroadcast C MNumbers Project newChatsOnly w = (Threw e, st2) /\
         ((exists w', SelectingBotForCampaign C (remainder C (List.length pre))
                        (world st1) = (Threw e, w')) \/
          (exists w', SleepTimeOfficialHoursWithRandomDelay C (InputOne C) w'
                      = (Threw e, world st2)))
     end).
Proof.
  split.
  - intros numbers i num st client w Hsel Hval.
    destruct (iteration_after_validation numbers i num st client w InvalidFormat
                Hsel Hval) as (evs & w1 & o & Hatt & Heq).
    pose proof (attempt_reads _ _ _ _ _ _ _ _ _ Hatt) as (Hpr & Hz & _).
    assert (Hdelay : o <> Skipped ->
              sleeps (select_events C i num ++ evs ++ [ESleep]) = 1 /\
              exists w',
                (fst (SleepTimeOfficialHoursWithRandomDelay C (InputOne C) w1),
                 snd (SleepTimeOfficialHoursWithRandomDelay C (InputOne C) w1))
                = SleepTimeOfficialHoursWithRandomDelay C (InputOne C) w').
    { intros _. split; [rewrite !sleeps_app, Hz; reflexivity|].
      exists w1. now destruct (SleepTimeOfficialHoursWithRandomDelay _ _ _). }
    assert (Hpr1 : probes (select_events C i num ++ evs) = [(InvalidFormat, i)])
      by (rewrite probes_app, Hpr; reflexivity).
    assert (Hpr2 : probes (select_events C i num ++ evs ++ [ESleep])
                   = [(InvalidFormat, i)])
      by (rewrite !probes_app, Hpr; reflexivity).
    clear Hpr Hz.
    destruct Hatt as [e w1 Hp | cr1 w1 Hp Hskip | cr1 w0 e w1 Hp Hskip Hs
                     | cr1 w0 rep w1 b Hp Hskip Hs Hrep
                     | cr1 w0 rep w1 e Hp Hskip Hs Hrep];
      cbn [world observe] in Hp; eexists _, _, _; (split; [exact Heq|]);
      cbn [trace advance fails successes world]; (split; [reflexivity|]);
      (split; [assumption|]).
    + split.
      * split; [intros _; left; eauto|auto].
      * intros _. apply Hdelay. discriminate.
    + split.
      * split; [intros [H _]; exfalso; lia|].
        intros [(e & w' & H)|(cr & w' & e & w'' & H & Hk & _)];
          rewrite Hp in H; [discriminate|]. injection H as <- <-. congruence.
      * intros H; exfalso; lia.
    + split.
      * split; [intros _; right; eauto 8|auto].
      * intros _. apply Hdelay. discriminate.
    + split.
      * split; [intros [_ H]; exfalso; lia|].
        intros [(e & w' & H)|(cr & w' & e & w'' & H & Hk & Hs')];
          rewrite Hp in H; [discriminate|]. injection H as <- <-.
        rewrite Hs in Hs'. discriminate.
      * intros H; exfalso; lia.
    + split.
      * split; [intros [_ H]; exfalso; lia|].
        intros [(e0 & w' & H)|(cr & w' & e0 & w'' & H & Hk & Hs')];
          rewrite Hp in H; [discriminate|]. injection H as <- <-.
        rewrite Hs in Hs'. discriminate.
      * intros _. apply Hdelay. discriminate.
  - intros MNumbers w pre num post st1 r st2 Hsh Hpre Hval Hit.
    destruct r as [[]|e].
    + rewrite for_entries_at, Hpre, Hit. reflexivity.
    + split.
      * rewrite sendBroadcast_unfold.
        destruct (ShuffleMyArray C MNumbers w) as [shuffled w1]. cbn [fst snd] in *.
        subst shuffled. rewrite for_entries_at.
        unfold loop_start in Hpre. rewrite Hpre, Hit. reflexivity.
      * apply iteration_iterates in Hit.
        inversion Hit as [e0 w0 Hsel | client w0 e0 Hsel Hval'
                         | | client w0 v evs w' o rz w'' Hsel Hval' Hatt Ho Hz]; subst.
        -- left. eauto.
        -- congruence.
        -- right. exists w'. cbn. assumption.
Qed.

Lemma iteration_select_threw numbers i num st e w :
  SelectingBotForCampaign C (remainder C i) (world st) = (Threw e, w) ->
  iteration C Project newChatsOnly numbers i num st
  = (Threw e, observe st w [ESelect (remainder C i)]).
Proof.
  intros Hsel.
  destruct (iteration C Project newChatsOnly numbers i num st) as [r st'] eqn:Hit.
  apply iteration_iterates in Hit.
  destruct Hit as [e0 w0 Hsel' | client0 w0 e0 Hsel' Hval'
                  | client0 w0 v0 evs w' Hsel' Hval' Hatt
                  | client0 w0 v0 evs w' o rz w'' Hsel' Hval' Hatt Ho Hz];
    rewrite Hsel in Hsel'; try discriminate.
  injection Hsel' as <- <-. reflexivity.
Qed.

Lemma iteration_validate_threw numbers i num st client w e :
  SelectingBotForCampaign C (remainder C i) (world st) = (Returned client, w) ->
  validateNumberWithCountryCode C num = Threw e ->
  iteration C Project newChatsOnly numbers i num st
  = (Threw e, observe st w (select_events C i num)).
Proof.
  intros Hsel Hval.
  destruct (iteration C Project newChatsOnly numbers i num st) as [r st'] eqn:Hit.
  apply iteration_iterates in Hit.
  destruct Hit as [e0 w0 Hsel' | client0 w0 e0 Hsel' Hval'
                  | client0 w0 v0 evs w' Hsel' Hval' Hatt
                  | client0 w0 v0 evs w' o rz w'' Hsel' Hval' Hatt Ho Hz];
    rewrite Hsel in Hsel'; try discriminate;
    injection Hsel' as <- <-; rewrite Hval in Hval'; try discriminate.
  injection Hval' as <-. reflexivity.
Qed.

(** The loop only adds to the trace, and every session index it hands to
    the selector is the remainder of an index of the array. *)
Lemma for_entries_selections numbers l i st r st' :
  for_entries (iteration C Project newChatsOnly numbers) i l st = (r, st') ->
  exists evs,
    trace st' = trace st ++ evs /\
    Forall (fun idx => exists j, idx = remainder C j) (selections evs).
Proof.
  apply (for_entries_fold_any (iteration C Project newChatsOnly numbers)
           (fun a b => exists evs,
              trace b = trace a ++ evs /\
              Forall (fun idx => exists j, idx = remainder C j) (selections evs))).
  - intros a. exists []. rewrite app_nil_r. split; [reflexivity|constructor].
  - intros a b c (evs1 & H1 & F1) (evs2 & H2 & F2). exists (evs1 ++ evs2).
    rewrite H2, H1, <- app_assoc, selections_app. split; [reflexivity|].
    apply Forall_app. auto.
  - intros j num a rr b Hit. apply iteration_events in Hit.
    destruct Hit as (evs & Htr & Hs & _). exists evs. split; [exact Htr|].
    rewrite Hs. repeat constructor. eauto.
Qed.

(** C9 (as the code has it). sendBroadcast checks neither the contact list
    nor the pool size when it starts. Over an empty contact list the run
    completes normally with zero successes and zero failures, and no contact
    is probed or sent. With an empty pool every session index handed to
    SelectingBotForCampaign is NaN, and what happens is up to the selector:
    when it throws on NaN the run is rejected with its error at the first
    contact, before anything is validated, probed or sent; when it returns,
    the first contact is validated and, if the validator returns, probed. *)
Theorem sendBroadcast_has_no_startup_check :
  shuffles C ->
  (forall w, exists st,
     sendBroadcast C [] Project newChatsOnly w
       = (Returned {| result_successes := 0; result_fails := 0 |}, st) /\
     skipped st = 0 /\
     trace st = [EClear; EShuffle; ELog (LogSucceededTotal 0);
                 ELog (LogFailedTotal 0)]) /\
  (Agents (InputOne C) = 0 ->
   (forall MNumbers w r st,
      sendBroadcast C MNumbers Project newChatsOnly w = (r, st) ->
      Forall (fun idx => idx = None) (selections (trace st))) /\
   (forall MNumbers w e w',
      MNumbers <> [] ->
      SelectingBotForCampaign C None (snd (ShuffleMyArray C MNumbers w))
        = (Threw e, w') ->
      exists st,
        sendBroadcast C MNumbers Project newChatsOnly w = (Threw e, st) /\
        trace st = [EClear; EShuffle; ESelect None]) /\
   (forall MNumbers w client w',
      MNumbers <> [] ->
      SelectingBotForCampaign C None (snd (ShuffleMyArray C MNumbers w))
        = (Returned client, w') ->
      exists num rest r st evs,
        fst (ShuffleMyArray C MNumbers w) = num :: rest /\
        sendBroadcast C MNumbers Project newChatsOnly w = (r, st) /\
        trace st = [EClear; EShuffle; ESelect None; EValidate num] ++ evs /\
        forall v, validateNumberWithCountryCode C num = Returned v ->
                  exists evs', evs = probe_events C 0 v ++ evs')).
Proof.
  intros Hperm. split.
  - intros w. rewrite sendBroadcast_unfold.
    pose proof (Hperm [] w) as Hnil. apply Permutation_nil in Hnil.
    destruct (ShuffleMyArray C [] w) as [shuffled w1]. cbn [fst] in Hnil. subst shuffled.
    cbn. eexists. split; [reflexivity|]. cbn. auto.
  - intros Hpool.
    assert (Hrem : forall j, remainder C j = None).
    { intros j. unfold remainder, js_rem. now rewrite Hpool. }
    split; [|split].
    + intros MNumbers w r st. rewrite sendBroadcast_unfold.
      destruct (ShuffleMyArray C MNumbers w) as [shuffled w1].
      destruct (for_entries _ 0 shuffled _) as [r1 st1] eqn:Hloop.
      apply for_entries_selections in Hloop. destruct Hloop as (evs & Htr & Hall).
      assert (Hnone : Forall (fun idx => idx = None) (selections evs)).
      { eapply Forall_impl; [|exact Hall]. intros idx [j ->]. apply Hrem. }
      cbn [trace] in Htr.
      destruct r1 as [[]|e]; intros [= _ <-]; cbn [trace]; rewrite Htr;
        rewrite ?selections_app; cbn [selections flat_map app];
        rewrite ?app_nil_r; exact Hnone.
    + intros MNumbers w e w' Hne Hsel. rewrite sendBroadcast_unfold.
      pose proof (Hperm MNumbers w) as Hp.
      destruct (ShuffleMyArray C MNumbers w) as [shuffled w1]. cbn [fst snd] in *.
      destruct shuffled as [|num rest].
      * apply Permutation_sym, Permutation_nil in Hp. contradiction.
      * cbn [for_entries]. unfold bind at 1.
        rewrite (iteration_select_threw (num :: rest) 0 num _ e w')
          by (rewrite Hrem; exact Hsel).
        rewrite Hrem. eexists. split; reflexivity.
    + intros MNumbers w client w' Hne Hsel.
      pose proof (Hperm MNumbers w) as Hp.
      destruct (sendBroadcast C MNumbers Project newChatsOnly w) as [r st] eqn:Hrun.
      rewrite sendBroadcast_unfold in Hrun.
      destruct (ShuffleMyArray C MNumbers w) as [shuffled w1]. cbn [fst snd] in *.
      destruct shuffled as [|num rest].
      { apply Permutation_sym, Permutation_nil in Hp. contradiction. }
      cbn [for_entries] in Hrun. unfold bind at 1 in Hrun.
      destruct (iteration C Project newChatsOnly (num :: rest) 0 num _)
        as [r0 st0] eqn:Hit in Hrun.
      assert (Hfirst : exists evs0,
                trace st0 = [EClear; EShuffle; ESelect None; EValidate num] ++ evs0 /\
                forall v, validateNumberWithCountryCode C num = Returned v ->
                          exists evs', evs0 = probe_events C 0 v ++ evs').
      { apply iteration_events in Hit. cbn [world trace] in Hit.
        rewrite Hrem in Hit.
        destruct Hit as (evs & Htr & _ & [(e & w0 & _ & Hsel' & _)
                                          |[(e & _ & Hval & -> & _)
                                           |(cl & w0 & v & att & w'' & o & _ & Hval & Hatt
                                             & -> & _)]]).
        - rewrite Hsel in Hsel'. discriminate.
        - exists []. rewrite Htr. unfold select_events. rewrite Hrem.
          split; [reflexivity|]. intros v Hv. congruence.
        - apply attempt_reads in Hatt.
          destruct Hatt as (_ & _ & _ & _ & (evs' & ->) & _).
          eexists. rewrite Htr. unfold select_events. rewrite Hrem.
          split; [reflexivity|]. intros v' Hv. rewrite Hval in Hv.
          injection Hv as <-. eexists. rewrite <- app_assoc. reflexivity. }
      destruct Hfirst as (evs0 & Htr0 & Hprobe).
      exists num, rest, r, st.
      destruct r0 as [[]|e].
      * destruct (for_entries _ 1 rest st0) as [r1 st1] eqn:Hrest.
        apply for_entries_selections in Hrest. destruct Hrest as (evs1 & Htr1 & _).
        destruct r1 as [[]|e]; injection Hrun as <- <-; cbn [trace];
          eexists; (split; [reflexivity|]); (split; [reflexivity|]);
          rewrite Htr1, Htr0;
          (split; [rewrite <- ?app_assoc; reflexivity|]);
          intros v Hv; destruct (Hprobe v Hv) as (evs' & ->);
          eexists; rewrite <- ?app_assoc; reflexivity.
      * injection Hrun as <- <-. eexists. split; [reflexivity|].
        split; [reflexivity|]. split; [exact Htr0|exact Hprobe].
Qed.

End Facts.

(** *** The dispatcher on concrete collaborators *)

(** Two contacts, one malformed, a pool of one session, every contact new,
    a transport that refuses the malformed one: one success, one failure,
    nothing skipped. *)
Example run_one_success_one_failure :
  let run := sendBroadcast
               (collaborators 1 validate_returning never_contacted transport_strict)
               ["971501112222"; "971501112222-malformed"] WhiteCaves false 0 in
  fst run = Returned {| result_successes := 1; result_fails := 1 |} /\
  skipped (snd run) = 0.
Proof. vm_compute. split; reflexivity. Qed.

(** One contact already contacted, new contacts only: one skip. *)
Example run_one_skip :
  let run := sendBroadcast
               (collaborators 1 validate_returning already_contacted transport_ok)
               ["971501112222"] WhiteCaves true 0 in
  fst run = Returned {| result_successes := 0; result_fails := 0 |} /\
  skipped (snd run) = 1.
Proof. vm_compute. split; reflexivity. Qed.

(** The same contact when the run is not restricted to new contacts: sent. *)
Example run_already_contacted_is_sent_again :
  let run := sendBroadcast
               (collaborators 1 validate_returning already_contacted transport_ok)
               ["971501112222"] WhiteCaves false 0 in
  fst run = Returned {| result_successes := 1; result_fails := 0 |} /\
  skipped (snd run) = 0.
Proof. vm_compute. split; reflexivity. Qed.

(** The value returned does not determine the skipped count. *)
Example skipped_is_not_returned :
  let C := collaborators 1 validate_returning already_contacted transport_ok in
  fst (sendBroadcast C ["971501112222"] WhiteCaves true 0)
  = fst (sendBroadcast C [] WhiteCaves true 0) /\
  skipped (snd (sendBroadcast C ["971501112222"] WhiteCaves true 0))
  <> skipped (snd (sendBroadcast C [] WhiteCaves true 0)).
Proof. vm_compute. split; [reflexivity|discriminate]. Qed.

Lemma collaborators_shuffle agents validate probe send :
  shuffles (collaborators agents validate probe send).
Proof. intros l w. cbn. apply Permutation_rev. Qed.

(** C1, where the code departs from it. CampaignResult is called inside the
    [try] block, after [successes++]. One contact, never contacted, on a
    transport whose sendMessage resolves with [undefined]: the message is
    sent and counted as a success, CampaignResult throws a TypeError on
    [SendReport.from], and the [catch] block counts the same contact as a
    failure. The run completes with successes = 1 and fails = 1 for one
    contact. The same happens, one line later, with a receipt and no
    project. The trace is everything the run does. *)
Theorem report_error_counts_a_sent_contact_twice :
  let lost := collaborators 1 validate_returning never_contacted
                transport_without_receipt in
  let kept := collaborators 1 validate_returning never_contacted transport_ok in
  exists st st',
    sendBroadcast lost ["971501112222"] WhiteCaves true 0
      = (Returned {| result_successes := 1; result_fails := 1 |}, st) /\
    skipped st = 0 /\
    successes st + fails st + skipped st = 2 /\
    trace st =
      [EClear; EShuffle;
       ESelect (Some 0); EValidate "971501112222";
       ELog LogCampaignStarted; ELog LogCampaignDay; ELog (LogIteration 0 (Some 0));
       EProbe (Canonical "971501112222") 0;
       ESend (Canonical "971501112222") "Good afternoon";
       ELog (LogResultIteration 0);
       ELog (LogError
               (TypeError "Cannot read properties of undefined (reading 'from')"));
       ELog (LogFailed "971501112222"); ESleep;
       ELog (LogSucceededTotal 1); ELog (LogFailedTotal 1)] /\
    sendBroadcast kept ["971501112222"] None true 0
      = (Returned {| result_successes := 1; result_fails := 1 |}, st') /\
    skipped st' = 0 /\
    sends (trace st') = [(Canonical "971501112222", "Good afternoon")].
Proof.
  cbv zeta. eexists _, _. split; [vm_compute; reflexivity|].
  split; [reflexivity|]. split; [reflexivity|]. split; [reflexivity|].
  split; [vm_compute; reflexivity|]. split; reflexivity.
Qed.

Lemma sendBroadcast_returns_successes_and_fails_witness :
  let C := collaborators 1 validate_returning contacted_if_canonical transport_strict in
  let run := sendBroadcast C ["971501112222"; "971501112222-malformed"] WhiteCaves true 0 in
  run = (Returned {| result_successes := 0; result_fails := 1 |}, snd run) /\
  skipped (snd run) = 1 /\
  {| result_successes := 0; result_fails := 1 |}
  = {| result_successes := successes (snd run); result_fails := fails (snd run) |}.
Proof.
  intros C run.
  assert (Hr : run = (Returned {| result_successes := 0; result_fails := 1 |}, snd run))
    by (vm_compute; reflexivity).
  split; [exact Hr|]. split; [vm_compute; reflexivity|].
  exact (sendBroadcast_returns_successes_and_fails C WhiteCaves true
           ["971501112222"; "971501112222-malformed"] 0 _ _ Hr).
Defined.

(** The claim C2 fails on a skipped and on a failed contact: in this run of
    two contacts one fails and one is skipped, both are probed, and no line
    with the tallies is written for either; the trace is everything the run
    does. *)
Lemma skipped_and_failed_contacts_get_no_progress_report :
  let C := collaborators 1 validate_returning contacted_if_canonical transport_strict in
  exists st,
    sendBroadcast C ["971501112222"; "971501112222-malformed"] WhiteCaves true 0
      = (Returned {| result_successes := 0; result_fails := 1 |}, st) /\
    skipped st = 1 /\ fails st = 1 /\
    trace st =
      [EClear; EShuffle;
       ESelect (Some 0); EValidate "971501112222-malformed";
       ELog LogCampaignStarted; ELog LogCampaignDay; ELog (LogIteration 0 (Some 0));
       EProbe InvalidFormat 0; ESend InvalidFormat "Good afternoon";
       ELog (LogError (Raised "invalid wid"));
       ELog (LogFailed "971501112222-malformed"); ESleep;
       ESelect (Some 0); EValidate "971501112222";
       ELog LogCampaignStarted; ELog LogCampaignDay; ELog (LogIteration 1 (Some 0));
       EProbe (Canonical "971501112222") 1;
       ELog (LogSkipping (Canonical "971501112222"));
       ELog (LogSucceededTotal 0); ELog (LogFailedTotal 1)] /\
    progress_lines (trace st) = [].
Proof. cbv zeta. eexists. split; [vm_compute; reflexivity|]. vm_compute. auto. Qed.

Lemma progress_is_reported_for_sent_contacts_only_witness :
  let C := collaborators 1 validate_returning never_contacted transport_strict in
  let numbers := ["971501112222"] in
  let MNumbers := ["971501112222"; "971501112222-malformed"] in
  let st := initial 0 in
  let st' := snd (iteration C WhiteCaves false numbers 0 "971501112222" st) in
  let run := sendBroadcast C MNumbers WhiteCaves false 0 in
  iteration C WhiteCaves false numbers 0 "971501112222" st = (Returned tt, st') /\
  successes st' = S (successes st) /\ fails st' = fails st /\
  shuffles C /\
  run = (Returned {| result_successes := 1; result_fails := 1 |}, snd run) /\
  (exists evs,
     trace st' = trace st ++ evs /\
     (successes st' = S (successes st) -> fails st' = fails st ->
      progress_lines evs = report_of numbers st') /\
     (successes st' = successes st -> progress_lines evs = [])) /\
  List.length (progress_lines (trace (snd run)))
  + 2 * (fails (snd run) + skipped (snd run)) = 2 * List.length MNumbers.
Proof.
  intros C numbers MNumbers st st' run.
  assert (Hit : iteration C WhiteCaves false numbers 0 "971501112222" st = (Returned tt, st'))
    by (vm_compute; reflexivity).
  assert (Hs : shuffles C) by apply collaborators_shuffle.
  assert (Hr : run = (Returned {| result_successes := 1; result_fails := 1 |}, snd run))
    by (vm_compute; reflexivity).
  split; [exact Hit|]. split; [vm_compute; reflexivity|].
  split; [vm_compute; reflexivity|]. split; [exact Hs|]. split; [exact Hr|].
  destruct (progress_is_reported_for_sent_contacts_only C WhiteCaves false)
    as [Hiter Hrun].
  split.
  - exact (Hiter numbers 0 "971501112222" st _ _ Hit).
  - exact (Hrun MNumbers 0 _ _ Hs Hr).
Defined.



Lemma found_contact_is_skipped_and_never_sent_witness :
  let C := collaborators 2 validate_returning already_contacted transport_ok in
  let st := initial 0 in
  let v := Canonical "971501112222" in
  SelectingBotForCampaign C (remainder C 3) (world st) = (Returned (Some 1), 0) /\
  validateNumberWithCountryCode C "971501112222" = Returned v /\
  findAndCheckChat C v 3 (InputOne C) (Some 1) 0
    = (Returned (Chat (Some 1700000000%Z)), 1) /\
  has_timestamp (Chat (Some 1700000000%Z)) = true /\
  exists st' evs,
    iteration C WhiteCaves true ["971501112222"] 3 "971501112222" st = (Returned tt, st') /\
    trace st' = trace st ++ evs /\
    sends evs = [] /\
    skipped st' = S (skipped st) /\
    successes st' = successes st /\ fails st' = fails st.
Proof.
  intros C st v.
  repeat (split; [reflexivity|]).
  apply (found_contact_is_skipped_and_never_sent C WhiteCaves true ["971501112222"] 3
           "971501112222" st (Some 1) 0 v (Chat (Some 1700000000%Z)) 1);
    reflexivity.
Defined.



(** The claim C7 fails whichever way the validator signals InvalidFormat.
    When it throws, the error leaves the loop: the run is aborted, no
    failure is counted and the contact that follows is never processed.
    When it returns InvalidFormat and the transport accepts what it is
    given, the malformed contact is counted as a success. *)
Lemma invalid_contact_aborts_the_run_or_is_sent :
  let throwing := collaborators 1 validate_throwing never_contacted transport_ok in
  let returning := collaborators 1 validate_returning never_contacted transport_ok in
  let MNumbers := ["971501112222"; "971501112222-malformed"] in
  exists st st',
    sendBroadcast throwing MNumbers WhiteCaves false 0
      = (Threw (Raised "InvalidFormat"), st) /\
    fails st = 0 /\ probes (trace st) = [] /\
    validateNumberWithCountryCode returning "971501112222-malformed"
      = Returned InvalidFormat /\
    sendBroadcast returning MNumbers WhiteCaves false 0
      = (Returned {| result_successes := 2; result_fails := 0 |}, st') /\
    sends (trace st')
      = [(InvalidFormat, "Good afternoon"); (Canonical "971501112222", "Good afternoon")].
Proof.
  cbv zeta. eexists _, _. split; [vm_compute; reflexivity|].
  split; [vm_compute; reflexivity|]. split; [vm_compute; reflexivity|].
  split; [vm_compute; reflexivity|]. split; vm_compute; reflexivity.
Qed.

Lemma invalid_contact_fails_only_if_probe_or_transport_throws_witness :
  let C := collaborators 1 validate_returning never_contacted transport_strict in
  let MNumbers := ["971501112222"; "971501112222-malformed"] in
  let num := "971501112222-malformed" in
  let post := ["971501112222"] in
  let st := loop_start 0 in
  let st2 := snd (iteration C WhiteCaves false (num :: post) 0 num st) in
  SelectingBotForCampaign C (remainder C 0) (world st) = (Returned (Some 0), 0) /\
  validateNumberWithCountryCode C num = Returned InvalidFormat /\
  fst (ShuffleMyArray C MNumbers 0) = [] ++ num :: post /\
  iteration C WhiteCaves false ([] ++ num :: post) (List.length (@nil string)) num st
    = (Returned tt, st2) /\
  fails st2 = 1 /\
  (exists r st' evs,
     iteration C WhiteCaves false (num :: post) 0 num st = (r, st') /\
     trace st' = trace st ++ evs /\
     probes evs = [(InvalidFormat, 0)] /\
     (fails st' = S (fails st) /\ successes st' = successes st <->
        (exists e w', findAndCheckChat C InvalidFormat 0 (InputOne C) (Some 0) 0
                      = (Threw e, w')) \/
        (exists cr w' e w'',
           findAndCheckChat C InvalidFormat 0 (InputOne C) (Some 0) 0
             = (Returned cr, w') /\
           false && has_timestamp cr = false /\
           sendMessage C (Some 0) InvalidFormat (AfternoonMessage C) w'
             = (Threw e, w''))) /\
     (fails st' = S (fails st) ->
        sleeps evs = 1 /\
        exists w', (r, world st')
                   = SleepTimeOfficialHoursWithRandomDelay C (InputOne C) w')) /\
  for_entries (iteration C WhiteCaves false ([] ++ num :: post)) 0
    ([] ++ num :: post) (loop_start (snd (ShuffleMyArray C MNumbers 0)))
  = for_entries (iteration C WhiteCaves false ([] ++ num :: post)) 1 post st2.
Proof.
  intros C MNumbers num post st st2.
  assert (Hsel : SelectingBotForCampaign C (remainder C 0) (world st)
                 = (Returned (Some 0), 0)) by reflexivity.
  assert (Hval : validateNumberWithCountryCode C num = Returned InvalidFormat)
    by reflexivity.
  assert (Hsh : fst (ShuffleMyArray C MNumbers 0) = [] ++ num :: post) by reflexivity.
  assert (Hpre : for_entries (iteration C WhiteCaves false ([] ++ num :: post)) 0 []
                   (loop_start (snd (ShuffleMyArray C MNumbers 0)))
                 = (Returned tt, st)) by reflexivity.
  assert (Hit : iteration C WhiteCaves false ([] ++ num :: post)
                  (List.length (@nil string)) num st = (Returned tt, st2))
    by (vm_compute; reflexivity).
  split; [exact Hsel|]. split; [exact Hval|]. split; [exact Hsh|].
  split; [exact Hit|]. split; [vm_compute; reflexivity|].
  destruct (invalid_contact_fails_only_if_probe_or_transport_throws C WhiteCaves false)
    as [Hiter Hrun].
  split.
  - exact (Hiter (num :: post) 0 num st (Some 0) 0 Hsel Hval).
  - exact (Hrun MNumbers 0 [] num post st (Returned tt) st2 Hsh Hpre Hval Hit).
Defined.

(** The claim C9 fails: with an empty pool and an empty contact list the run
    completes normally; with an empty pool, one contact and a selector that
    returns for NaN, the contact is probed and sent. *)
Lemma empty_pool_and_empty_list_complete_normally :
  let C := collaborators 0 validate_returning never_contacted transport_ok in
  exists st st',
    Agents (InputOne C) = 0 /\
    sendBroadcast C [] WhiteCaves true 0
      = (Returned {| result_successes := 0; result_fails := 0 |}, st) /\
    sendBroadcast C ["971501112222"] WhiteCaves true 0
      = (Returned {| result_successes := 1; result_fails := 0 |}, st') /\
    probes (trace st') = [(Canonical "971501112222", 0)] /\
    sends (trace st') = [(Canonical "971501112222", "Good afternoon")].
Proof.
  cbv zeta. eexists _, _. split; [reflexivity|].
  split; [vm_compute; reflexivity|]. split; [vm_compute; reflexivity|].
  split; vm_compute; reflexivity.
Qed.

Lemma sendBroadcast_has_no_startup_check_witness :
  let lenient := collaborators 0 validate_returning never_contacted transport_ok in
  let C := with_strict_selector lenient in
  let e := TypeError "no session for NaN" in
  let run := sendBroadcast lenient ["971501112222"] WhiteCaves true 0 in
  shuffles C /\ shuffles lenient /\
  Agents (InputOne C) = 0 /\
  ["971501112222"] <> [] /\
  SelectingBotForCampaign C None (snd (ShuffleMyArray C ["971501112222"] 0)) = (Threw e, 0) /\
  SelectingBotForCampaign lenient None (snd (ShuffleMyArray lenient ["971501112222"] 0))
    = (Returned None, 0) /\
  (exists st,
     sendBroadcast C [] WhiteCaves true 0
       = (Returned {| result_successes := 0; result_fails := 0 |}, st) /\
     skipped st = 0 /\
     trace st = [EClear; EShuffle; ELog (LogSucceededTotal 0);
                 ELog (LogFailedTotal 0)]) /\
  (exists st,
     sendBroadcast C ["971501112222"] WhiteCaves true 0 = (Threw e, st) /\
     trace st = [EClear; EShuffle; ESelect None]) /\
  Forall (fun idx => idx = None) (selections (trace (snd run))) /\
  selections (trace (snd run)) = [None] /\
  exists num rest r st evs,
    fst (ShuffleMyArray lenient ["971501112222"] 0) = num :: rest /\
    sendBroadcast lenient ["971501112222"] WhiteCaves true 0 = (r, st) /\
    trace st = [EClear; EShuffle; ESelect None; EValidate num] ++ evs /\
    forall v, validateNumberWithCountryCode lenient num = Returned v ->
              exists evs', evs = probe_events lenient 0 v ++ evs'.
Proof.
  intros lenient C e run.
  assert (Hs : shuffles C) by (intros l w; cbn; apply Permutation_rev).
  assert (Hs' : shuffles lenient) by apply collaborators_shuffle.
  assert (Hne : ["971501112222"] <> []) by discriminate.
  split; [exact Hs|]. split; [exact Hs'|]. split; [reflexivity|]. split; [exact Hne|].
  split; [reflexivity|]. split; [reflexivity|].
  destruct (sendBroadcast_has_no_startup_check C WhiteCaves true Hs)
    as [Hempty Hpool].
  destruct (Hpool eq_refl) as (_ & Hthrows & _).
  destruct (sendBroadcast_has_no_startup_check lenient WhiteCaves true Hs')
    as [_ Hpool'].
  destruct (Hpool' eq_refl) as (Hnan & _ & Hreturns).
  split; [exact (Hempty 0)|].
  split; [exact (Hthrows ["971501112222"] 0 e 0 Hne eq_refl)|].
  split; [exact (Hnan ["971501112222"] 0 (fst run) (snd run) (surjective_pairing run))|].
  split; [vm_compute; reflexivity|].
  exact (Hreturns ["971501112222"] 0 None 0 Hne eq_refl).
Defined.

End BroadcastFacts.

(** ** The router follows its branches *)

Module InboundFacts.

Import Inbound Scenarios.

(** *** Arrays *)

Lemma Array_includes_In arr x : Array_includes arr x = true <-> In x arr.
Proof.
  unfold Array_includes. rewrite existsb_exists. split.
  - intros (y & Hy & Heq). apply String.eqb_eq in Heq. now subst.
  - intros H. exists x. split; [exact H|apply String.eqb_refl].
Qed.

(** [findIndex] returns the first index that holds the element looked for. *)
Lemma findIndex_from_first (b : string) arr : forall k,
  In b arr ->
  exists j0,
    nth_error arr j0 = Some b /\
    (forall j', j' < j0 -> nth_error arr j' <> Some b) /\
    findIndex_from (fun x => String.eqb x b) arr k = (k + Z.of_nat j0)%Z.
Proof.
  induction arr as [|x rest IH]; intros k Hin; [contradiction|].
  cbn [findIndex_from]. destruct (String.eqb_spec x b) as [->|Hne].
  - exists 0. split; [reflexivity|]. split; [lia|]. cbn. lia.
  - destruct Hin as [Heq|Hin]; [contradiction|].
    destruct (IH (k + 1)%Z Hin) as (j0 & Hnth & Hfirst & Hidx).
    exists (S j0). split; [exact Hnth|]. split.
    + intros [|j'] Hlt; cbn; [congruence|]. apply Hfirst. lia.
    + rewrite Hidx. lia.
Qed.

Lemma js_index_of_nat {A} (arr : list A) (j : nat) :
  js_index arr (Z.of_nat j) = nth_error arr j.
Proof.
  unfold js_index. destruct (Z.ltb_spec (Z.of_nat j) 0); [lia|].
  now rewrite Nat2Z.id.
Qed.

Section RouterFacts.

Context {World Agent : Type} (C : Collaborators World Agent).

Lemma router_state_eq (w : World) t t' u :
  t = t' ->
  {| world := w; trace := t; unhandled := u |}
  = {| world := w; trace := t'; unhandled := u |}.
Proof. intros ->; reflexivity. Qed.

(** The promise MessageAnalyzer returns is never rejected. *)
Lemma MessageAnalyzer_returns msg st :
  fst (MessageAnalyzer C msg st) = Returned tt.
Proof.
  unfold MessageAnalyzer, try_catch.
  destruct (analyze C msg st) as [[[]|e] st']; reflexivity.
Qed.

(** What is thrown inside the [try] block is logged by the [catch] block. *)
Lemma MessageAnalyzer_logs_what_is_thrown msg st e st' :
  analyze C msg st = (Threw e, st') ->
  MessageAnalyzer C msg st
  = (Returned tt, {| world := world st'; trace := trace st' ++ [ELog (LogError e)];
                     unhandled := unhandled st' |}).
Proof. intros H. unfold MessageAnalyzer, try_catch. rewrite H. reflexivity. Qed.

Ltac open_router :=
  unfold MessageAnalyzer, analyze, try_catch, bind, console_log, emit, await,
    call_detached, lift, throw, ret;
  cbn [world trace unhandled].

Ltac split_cases :=
  repeat match goal with
         | |- context [String.eqb ?a ?b] => destruct (String.eqb a b) eqn:?
         | |- context [andb ?a ?b] => destruct (andb a b) eqn:?
         | |- context [Array_includes ?a ?b] => destruct (Array_includes a b) eqn:?
         | |- context [Array_find ?p ?l] => destruct (Array_find p l) eqn:?
         | |- context [FindAndShareOwnerNumberOnAgentRequest ?c ?m ?w] =>
             destruct (FindAndShareOwnerNumberOnAgentRequest c m w) as [[[]|?] ?] eqn:?
         | |- context [SharingMobileNumber ?c ?m ?w] =>
             destruct (SharingMobileNumber c m w) as [[[]|?] ?] eqn:?
         | |- context [reply ?c ?m ?a ?w] =>
             destruct (reply c m a w) as [[[|?]|?] ?] eqn:?
         | |- context [CreatingNewWhatsAppClientLucy ?c ?n ?w] =>
             destruct (CreatingNewWhatsAppClientLucy c n w) as [[?|?] ?] eqn:?
         | |- context [findWord ?c ?a ?b] => destruct (findWord c a b) eqn:?
         | |- context [ProjectCampaign ?c ?p ?w] =>
             destruct (ProjectCampaign c p w) as [[[?|]|?] ?] eqn:?
         end.

Ltac close_trace :=
  cbn [snd trace]; repeat rewrite <- app_assoc; reflexivity.

Lemma at_most_one_handler msg st :
  exists evs,
    trace (snd (MessageAnalyzer C msg st)) = trace st ++ evs /\
    List.length (invoked evs) <= 1.
Proof.
  open_router. split_cases;
    cbn [world trace unhandled snd];
    (eexists; split; [close_trace|cbn; lia]).
Qed.

(** The handler invoked is the one thing MessageAnalyzer does to the world:
    the world it leaves is the one that handler leaves, called for this
    message in the world MessageAnalyzer started in. *)
Lemma one_handler_effect msg st :
  exists evs,
    trace (snd (MessageAnalyzer C msg st)) = trace st ++ evs /\
    List.length (invoked evs) <= 1 /\
    world (snd (MessageAnalyzer C msg st))
    = match invoked evs with
      | [] => world st
      | h :: _ => handler_effect C msg h (world st)
      end.
Proof.
  open_router. split_cases;
    cbn [world trace unhandled snd];
    (eexists; split; [close_trace|split; [cbn; lia|]]);
    cbn [invoked app handler_effect]; cbn [world trace unhandled] in *;
    repeat match goal with
           | H : _ = (_, _) |- _ => rewrite H; clear H
           end;
    reflexivity.
Qed.

(** The FAQ branch, when it is reached: the one thing MessageAnalyzer does
    after logging the sender is to call [msg.reply], without [await], with
    the answer at the index [findIndex] returns. *)
Lemma faq_branch msg st :
  type msg = "chat" ->
  body msg <> "Kindly share the mobile number of the owner" ->
  includes (body msg) "House Number/Municipality Number=" && hasQuotedMsg msg = false ->
  In (body msg) (ClientQuestionsArray C) ->
  let answer := js_index (ClientAnswersArray C)
                  (findIndex (fun x => String.eqb x (body msg))
                     (ClientQuestionsArray C)) in
  analyze C msg st =
  call_detached (reply C msg answer)
    {| world := world st;
       trace := trace st ++ [ELog (LogFrom (from msg)); EInvoke (reply_ answer)];
       unhandled := unhandled st |}.
Proof.
  intros Htype Hbody Hmarker Hin answer. unfold analyze.
  rewrite Htype. cbn [String.eqb Ascii.eqb Bool.eqb].
  apply String.eqb_neq in Hbody. rewrite Hbody, Hmarker.
  apply Array_includes_In in Hin. rewrite Hin.
  fold answer. unfold bind, console_log, emit. cbn [world trace unhandled].
  rewrite <- app_assoc. reflexivity.
Qed.

(** C5. For every inbound message MessageAnalyzer invokes at most one
    handler, and the world it leaves is the one that handler leaves. For a
    text message that matches no earlier rule and whose body is the question
    at index j of ClientQuestionsArray, the only handler invoked is
    [msg.reply]: it is called, in the world MessageAnalyzer started in, with
    the answer of ClientAnswersArray at the first index j0 whose question
    equals the body, and the world after MessageAnalyzer is the one that
    call leaves; j0 is j when no earlier question equals the body. *)
Theorem router_invokes_one_handler_and_answers_faq_by_index :
  (forall msg st, exists evs,
     trace (snd (MessageAnalyzer C msg st)) = trace st ++ evs /\
     List.length (invoked evs) <= 1 /\
     world (snd (MessageAnalyzer C msg st))
     = match invoked evs with
       | [] => world st
       | h :: _ => handler_effect C msg h (world st)
       end) /\
  (forall msg st j,
     type msg = "chat" ->
     body msg <> "Kindly share the mobile number of the owner" ->
     includes (body msg) "House Number/Municipality Number=" && hasQuotedMsg msg
       = false ->
     nth_error (ClientQuestionsArray C) j = Some (body msg) ->
     exists j0 evs,
       j0 <= j /\
       nth_error (ClientQuestionsArray C) j0 = Some (body msg) /\
       (forall j', j' < j0 ->
          nth_error (ClientQuestionsArray C) j' <> Some (body msg)) /\
       ((forall j', j' < j ->
           nth_error (ClientQuestionsArray C) j' <> Some (body msg)) -> j0 = j) /\
       trace (snd (MessageAnalyzer C msg st)) = trace st ++ evs /\
       invoked evs = [reply_ (nth_error (ClientAnswersArray C) j0)] /\
       world (snd (MessageAnalyzer C msg st))
       = snd (reply C msg (nth_error (ClientAnswersArray C) j0) (world st)) /\
       match fst (reply C msg (nth_error (ClientAnswersArray C) j0) (world st)) with
       | Returned Fulfilled =>
           unhandled (snd (MessageAnalyzer C msg st)) = unhandled st /\
           evs = [ELog (LogFrom (from msg));
                  EInvoke (reply_ (nth_error (ClientAnswersArray C) j0))]
       | Returned (Rejected e) =>
           unhandled (snd (MessageAnalyzer C msg st)) = unhandled st ++ [e] /\
           evs = [ELog (LogFrom (from msg));
                  EInvoke (reply_ (nth_error (ClientAnswersArray C) j0))]
       | Threw e =>
           unhandled (snd (MessageAnalyzer C msg st)) = unhandled st /\
           evs = [ELog (LogFrom (from msg));
                  EInvoke (reply_ (nth_error (ClientAnswersArray C) j0));
                  ELog (LogError e)]
       end).
Proof.
  split; [apply one_handler_effect|].
  intros msg st j Htype Hbody Hmarker Hj.
  assert (Hin : In (body msg) (ClientQuestionsArray C)) by (eapply nth_error_In; eauto).
  destruct (findIndex_from_first (body msg) (ClientQuestionsArray C) 0%Z Hin)
    as (j0 & Hj0 & Hfirst & Hidx).
  assert (Hle : j0 <= j).
  { destruct (Nat.le_gt_cases j0 j) as [|Hlt]; [assumption|].
    exfalso. exact (Hfirst j Hlt Hj). }
  assert (Hjj : (forall j', j' < j ->
                   nth_error (ClientQuestionsArray C) j' <> Some (body msg)) -> j0 = j).
  { intros Hjfirst. destruct (Nat.eq_dec j0 j) as [|Hne]; [assumption|].
    exfalso. apply (Hjfirst j0); [lia|exact Hj0]. }
  exists j0.
  unfold MessageAnalyzer, try_catch.
  rewrite (faq_branch msg st Htype Hbody Hmarker Hin).
  unfold findIndex. rewrite Hidx, Z.add_0_l, js_index_of_nat.
  unfold call_detached. cbn [world trace unhandled].
  destruct (reply C msg (nth_error (ClientAnswersArray C) j0) (world st))
    as [[[|e]|e] w]; cbn [fst snd world trace unhandled console_log emit];
    eexists; (split; [exact Hle|]); (split; [exact Hj0|]); (split; [exact Hfirst|]);
    (split; [exact Hjj|]);
    (split; [rewrite <- ?app_assoc; reflexivity|]); auto.
Qed.

(** The rejection of the promise [msg.reply] returns reaches no [catch]
    block: MessageAnalyzer returns normally, writes no error line, and the
    error is left unhandled. *)
Lemma rejected_reply_is_unhandled msg st e w :
  type msg = "chat" ->
  body msg <> "Kindly share the mobile number of the owner" ->
  includes (body msg) "House Number/Municipality Number=" && hasQuotedMsg msg = false ->
  In (body msg) (ClientQuestionsArray C) ->
  let answer := js_index (ClientAnswersArray C)
                  (findIndex (fun x => String.eqb x (body msg))
                     (ClientQuestionsArray C)) in
  reply C msg answer (world st) = (Returned (Rejected e), w) ->
  MessageAnalyzer C msg st =
  (Returned tt,
   {| world := w;
      trace := trace st ++ [ELog (LogFrom (from msg)); EInvoke (reply_ answer)];
      unhandled := unhandled st ++ [e] |}).
Proof.
  intros Htype Hbody Hmarker Hin answer Hreply.
  unfold MessageAnalyzer, try_catch.
  rewrite (faq_branch msg st Htype Hbody Hmarker Hin). fold answer.
  unfold call_detached. cbn [world trace unhandled]. rewrite Hreply. reflexivity.
Qed.

(** An awaited handler that throws is caught: its error is logged. *)
Lemma awaited_handler_error_is_logged msg st e w :
  type msg = "chat" ->
  body msg = "Kindly share the mobile number of the owner" ->
  FindAndShareOwnerNumberOnAgentRequest C msg (world st) = (Threw e, w) ->
  MessageAnalyzer C msg st =
  (Returned tt,
   {| world := w;
      trace := trace st ++ [ELog (LogFrom (from msg)); ELog LogOwnerRequested;
                            EInvoke FindAndShareOwnerNumberOnAgentRequest_;
                            ELog (LogError e)];
      unhandled := unhandled st |}).
Proof.
  intros Htype Hbody Hthrow. open_router.
  rewrite Htype, Hbody, !String.eqb_refl. cbn [world trace unhandled].
  rewrite Hthrow. cbn [world trace unhandled]. f_equal.
  apply router_state_eq. repeat rewrite <- app_assoc. reflexivity.
Qed.

End RouterFacts.

(** *** The router on concrete collaborators *)

(** A request for the owner's number: the owner lookup and nothing else. *)
Example owner_request_invokes_owner_lookup :
  invoked (trace (snd (MessageAnalyzer (router Fulfilled)
                         (text "Kindly share the mobile number of the owner") start)))
  = [FindAndShareOwnerNumberOnAgentRequest_].
Proof. reflexivity. Qed.

(** A video: no handler. *)
Example video_invokes_nothing :
  MessageAnalyzer (router Fulfilled)
    {| type := "video"; from := "971501112222@c.us"; body := "";
       hasQuotedMsg := false |} start
  = (Returned tt, {| world := 0; trace := [ELog LogVideo]; unhandled := [] |}).
Proof. reflexivity. Qed.

(** The sign-up phrase: the client is created, then the call of the unbound
    WhatsAppClientFunctions throws inside the [try] block and is logged. *)
Example signup_ends_in_reference_error :
  trace (snd (MessageAnalyzer (router Fulfilled) (text "I want to signup as lucy") start))
  = [ELog (LogFrom "971501112222@c.us"); ELog LogNewObjectCreation;
     EInvoke (CreatingNewWhatsAppClientLucy_ "Lucy");
     ELog (LogError (ReferenceError "WhatsAppClientFunctions"))].
Proof. reflexivity. Qed.

(** With a question listed twice, the answer is the one of the first entry. *)
Example duplicate_question_gets_first_answer :
  let C := {| ClientQuestionsArray := ["Price?"; "Price?"];
              ClientAnswersArray := ["first"; "second"];
              MyProjects := MyProjects (router Fulfilled);
              FindAndShareOwnerNumberOnAgentRequest :=
                FindAndShareOwnerNumberOnAgentRequest (router Fulfilled);
              SharingMobileNumber := SharingMobileNumber (router Fulfilled);
              reply := reply (router Fulfilled);
              CreatingNewWhatsAppClientLucy :=
                CreatingNewWhatsAppClientLucy (router Fulfilled);
              findWord := findWord (router Fulfilled);
              ProjectCampaign := ProjectCampaign (router Fulfilled) |} in
  invoked (trace (snd (MessageAnalyzer C (text "Price?") start)))
  = [reply_ (Some "first")].
Proof. reflexivity. Qed.

Lemma router_invokes_one_handler_and_answers_faq_by_index_witness :
  let C := outbox Fulfilled in
  let msg := text "Where is it located?" in
  let other := text "Damac Hills 2" in
  let st := {| world := [Some "It starts from 1.2M AED."]; trace := [];
               unhandled := [] |} in
  type msg = "chat" /\
  body msg <> "Kindly share the mobile number of the owner" /\
  includes (body msg) "House Number/Municipality Number=" && hasQuotedMsg msg = false /\
  nth_error (ClientQuestionsArray C) 1 = Some (body msg) /\
  world (snd (MessageAnalyzer C msg st))
  = [Some "It starts from 1.2M AED."; Some "In Damac Hills 2."] /\
  (exists evs,
     trace (snd (MessageAnalyzer C other st)) = trace st ++ evs /\
     List.length (invoked evs) <= 1 /\
     world (snd (MessageAnalyzer C other st))
     = match invoked evs with
       | [] => world st
       | h :: _ => handler_effect C other h (world st)
       end) /\
  exists j0 evs,
    j0 <= 1 /\
    nth_error (ClientQuestionsArray C) j0 = Some (body msg) /\
    (forall j', j' < j0 -> nth_error (ClientQuestionsArray C) j' <> Some (body msg)) /\
    ((forall j', j' < 1 -> nth_error (ClientQuestionsArray C) j' <> Some (body msg)) ->
     j0 = 1) /\
    trace (snd (MessageAnalyzer C msg st)) = trace st ++ evs /\
    invoked evs = [reply_ (nth_error (ClientAnswersArray C) j0)] /\
    world (snd (MessageAnalyzer C msg st))
    = world st ++ [nth_error (ClientAnswersArray C) j0] /\
    unhandled (snd (MessageAnalyzer C msg st)) = unhandled st /\
    evs = [ELog (LogFrom (from msg));
           EInvoke (reply_ (nth_error (ClientAnswersArray C) j0))].
Proof.
  intros C msg other st.
  assert (H1 : type msg = "chat") by reflexivity.
  assert (H2 : body msg <> "Kindly share the mobile number of the owner")
    by discriminate.
  assert (H3 : includes (body msg) "House Number/Municipality Number="
               && hasQuotedMsg msg = false) by reflexivity.
  assert (H4 : nth_error (ClientQuestionsArray C) 1 = Some (body msg)) by reflexivity.
  repeat (split; [assumption|]).
  split; [reflexivity|].
  destruct (router_invokes_one_handler_and_answers_faq_by_index C) as [Hone Hfaq].
  split.
  - exact (Hone other st).
  - destruct (Hfaq msg st 1 H1 H2 H3 H4)
      as (j0 & evs & Hle & Hj0 & Hfirst & Hjj & Htr & Hinv & Hworld & Hsettle).
    exists j0, evs. cbn [outbox reply fst snd] in Hworld, Hsettle.
    destruct Hsettle as [Hun Hevs].
    repeat (split; [assumption|]). exact Hevs.
Defined.

(** C8, where the code departs from it. A text message that asks a known
    question, on a transport whose [reply] promise is rejected:
    MessageAnalyzer returns normally, but the error is not caught and no
    error line is written; it stays an unhandled rejection. The handlers of
    the sibling branches are awaited inside the [try] block; [msg.reply] is
    not. *)
Theorem rejected_reply_escapes_the_catch_block :
  MessageAnalyzer (router (Rejected (Raised "disconnected")))
    (text "Where is it located?") start
  = (Returned tt,
     {| world := 1;
        trace := [ELog (LogFrom "971501112222@c.us");
                  EInvoke (reply_ (Some "In Damac Hills 2."))];
        unhandled := [Raised "disconnected"] |}).
Proof. reflexivity. Qed.

End InboundFacts.

(** ** More on the dispatcher *)

Module BroadcastMore.

Import Broadcast Scenarios BroadcastFacts BroadcastTrace.

(** A call of sendMessage among events is found where it is. *)
Lemma sends_split before c m after :
  sends (before ++ ESend c m :: after) = sends before ++ (c, m) :: sends after.
Proof. now rewrite sends_app. Qed.

Lemma send_position l1 c' m' l2 : forall before c m after,
  sends l1 = [] -> sends l2 = [] ->
  l1 ++ ESend c' m' :: l2 = before ++ ESend c m :: after ->
  before = l1 /\ c = c' /\ m = m'.
Proof.
  induction l1 as [|x l1 IH]; intros before c m after H1 H2 Heq.
  - destruct before as [|y before]; cbn in Heq.
    + injection Heq as <- <- _. auto.
    + injection Heq as <- Heq. rewrite Heq, sends_split in H2.
      now destruct (sends before).
  - destruct before as [|y before]; cbn in Heq.
    + injection Heq as -> _. discriminate H1.
    + injection Heq as <- Heq.
      assert (H1' : sends l1 = []).
      { change (x :: l1) with ([x] ++ l1) in H1. rewrite sends_app in H1.
        now apply app_eq_nil in H1. }
      destruct (IH _ _ _ _ H1' H2 Heq) as (-> & -> & ->). auto.
Qed.

Lemma no_send before c m after l :
  sends l = [] -> l <> before ++ ESend c m :: after.
Proof.
  intros H ->. rewrite sends_split in H. now destruct (sends before).
Qed.

Section More.

Context {World Client : Type} (C : Collaborators World Client).
Variables (Project : option ProjectT) (newChatsOnly : bool).

(** What an iteration that returns has done: one selection, one validation,
    one probe of the validated contact, at most one send, to that contact. *)
Lemma iteration_returned_events numbers i num st st' :
  iteration C Project newChatsOnly numbers i num st = (Returned tt, st') ->
  exists evs v,
    trace st' = trace st ++ evs /\
    validateNumberWithCountryCode C num = Returned v /\
    selections evs = [remainder C i] /\
    validations evs = [num] /\
    probes evs = [(v, i)] /\
    (sends evs = [] \/ sends evs = [(v, AfternoonMessage C)]).
Proof.
  intros H. apply iteration_events in H.
  destruct H as (evs & Htr & Hsel & [(e & w & Hr & _)|[(e & Hr & _)
                 |(client & w & v & att & w' & o & _ & Hval & Hatt & Hevs & _)]]);
    try discriminate.
  exists evs, v. split; [exact Htr|]. split; [exact Hval|]. split; [exact Hsel|].
  apply attempt_reads in Hatt. destruct Hatt as (Hp & _ & _ & Hv & _ & Hread).
  assert (Htail : forall o0 : Outcome,
            validations (match o0 with Skipped => [] | _ => [ESleep] end) = []
            /\ probes (match o0 with Skipped => [] | _ => [ESleep] end) = []
            /\ sends (match o0 with Skipped => [] | _ => [ESleep] end) = [])
    by (intros []; auto).
  destruct (Htail o) as (Hv0 & Hp0 & Hs0).
  rewrite Hevs, !validations_app, !probes_app, !sends_app, Hv, Hp, Hv0, Hp0, Hs0.
  rewrite !app_nil_r. split; [reflexivity|]. split; [reflexivity|].
  destruct o; cbn; tauto.
Qed.

(** The loop over [l] from index [i], when it returns. *)
Lemma for_entries_returned_events numbers l : forall i st st',
  for_entries (iteration C Project newChatsOnly numbers) i l st = (Returned tt, st') ->
  exists evs,
    trace st' = trace st ++ evs /\
    selections evs = map (remainder C) (seq i (List.length l)) /\
    validations evs = l /\
    map snd (probes evs) = seq i (List.length l) /\
    map (fun p => Returned (fst p)) (probes evs)
      = map (validateNumberWithCountryCode C) l /\
    List.length (sends evs) <= List.length l.
Proof.
  induction l as [|num rest IH]; intros i st st'.
  - cbn. intros [= <-]. exists []. rewrite app_nil_r. cbn.
    repeat split; auto.
  - cbn [for_entries]. unfold bind.
    destruct (iteration C Project newChatsOnly numbers i num st) as [[[]|e] st1] eqn:Hit;
      [|discriminate].
    intros Hrest. apply iteration_returned_events in Hit.
    destruct Hit as (evs1 & v & Htr1 & Hval & Hsel1 & Hv1 & Hp1 & Hs1).
    destruct (IH _ _ _ Hrest) as (evs2 & Htr2 & Hsel2 & Hv2 & Hp2 & Hpv2 & Hlen2).
    exists (evs1 ++ evs2). rewrite Htr2, Htr1, <- app_assoc.
    rewrite selections_app, validations_app, probes_app, sends_app, !map_app, length_app.
    rewrite Hsel1, Hsel2, Hv1, Hv2, Hp1, Hp2, Hpv2. cbn. rewrite Hval.
    repeat split; auto.
    destruct Hs1 as [Hs1|Hs1]; rewrite Hs1; cbn; lia.
Qed.

(** X5. Every contact once, in order. In a run that completes, the numbers
    handed to the validator are the shuffled array, in its order; each is
    probed once, the i-th with index i, as the contact the validator returned
    for it. With a shuffle that permutes, every contact of the list given to
    sendBroadcast is validated and probed exactly once. *)
Theorem completed_run_processes_each_contact_once MNumbers w r st :
  shuffles C ->
  sendBroadcast C MNumbers Project newChatsOnly w = (Returned r, st) ->
  validations (trace st) = fst (ShuffleMyArray C MNumbers w) /\
  Permutation MNumbers (validations (trace st)) /\
  map snd (probes (trace st)) = seq 0 (List.length MNumbers) /\
  map (fun p => Returned (fst p)) (probes (trace st))
    = map (validateNumberWithCountryCode C) (validations (trace st)).
Proof.
  intros Hperm. rewrite sendBroadcast_unfold.
  pose proof (Hperm MNumbers w) as Hp.
  destruct (ShuffleMyArray C MNumbers w) as [shuffled w1]. cbn [fst] in *.
  destruct (for_entries _ 0 shuffled _) as [[[]|e] st1] eqn:Hloop; [|discriminate].
  intros [= _ <-]. cbn [trace].
  apply for_entries_returned_events in Hloop.
  destruct Hloop as (evs & -> & _ & Hv & Hpi & Hpv & _). cbn [trace].
  assert (Hvs : validations (([EClear; EShuffle] ++ evs)
                  ++ [ELog (LogSucceededTotal (successes st1));
                      ELog (LogFailedTotal (fails st1))]) = shuffled).
  { rewrite !validations_app, Hv. cbn. now rewrite app_nil_r. }
  rewrite Hvs, !probes_app. cbn [probes flat_map app]. rewrite app_nil_r.
  repeat split; auto.
  rewrite Hpi. now rewrite (Permutation_length Hp).
Qed.

(** X6. Round robin. In a run that completes, the session index of the i-th
    iteration is i % Agents: the indices go 0, 1, ..., Agents - 1 and start
    again, whatever the contacts and their outcomes. *)
Theorem completed_run_selects_sessions_round_robin MNumbers w r st :
  shuffles C ->
  sendBroadcast C MNumbers Project newChatsOnly w = (Returned r, st) ->
  selections (trace st)
  = map (fun i => js_rem i (Agents (InputOne C))) (seq 0 (List.length MNumbers)) /\
  (0 < Agents (InputOne C) ->
   forall i, i < List.length MNumbers ->
     nth_error (selections (trace st)) i = Some (Some (i mod Agents (InputOne C))) /\
     nth_error (selections (trace st)) (i + Agents (InputOne C))
     = (if Nat.ltb (i + Agents (InputOne C)) (List.length MNumbers)
        then nth_error (selections (trace st)) i else None)).
Proof.
  intros Hperm Hrun.
  assert (Hsel : selections (trace st)
                 = map (fun i => js_rem i (Agents (InputOne C)))
                       (seq 0 (List.length MNumbers))).
  { rewrite sendBroadcast_unfold in Hrun.
    pose proof (Hperm MNumbers w) as Hp. apply Permutation_length in Hp.
    destruct (ShuffleMyArray C MNumbers w) as [shuffled w1]. cbn [fst] in *.
    destruct (for_entries _ 0 shuffled _) as [[[]|e] st1] eqn:Hloop; [|discriminate].
    injection Hrun as _ <-. cbn [trace].
    apply for_entries_returned_events in Hloop.
    destruct Hloop as (evs & -> & Hs & _). cbn [trace].
    rewrite !selections_app, Hs. cbn. rewrite app_nil_r, Hp. reflexivity. }
  split; [exact Hsel|].
  intros Hpos i Hi. rewrite Hsel.
  assert (Hnth : forall j, j < List.length MNumbers ->
            nth_error (map (fun i => js_rem i (Agents (InputOne C)))
                         (seq 0 (List.length MNumbers))) j
            = Some (Some (j mod Agents (InputOne C)))).
  { intros j Hj. rewrite nth_error_map, nth_error_seq.
    destruct (Nat.ltb_spec j (List.length MNumbers)); [|lia].
    cbn. unfold js_rem. destruct (Nat.eqb_spec (Agents (InputOne C)) 0); [lia|reflexivity]. }
  split; [now apply Hnth|].
  destruct (Nat.ltb_spec (i + Agents (InputOne C)) (List.length MNumbers)) as [Hlt|Hge].
  - rewrite !Hnth by lia. do 2 f_equal.
    rewrite <- (Nat.mul_1_l (Agents (InputOne C))) at 1.
    now rewrite Nat.Div0.mod_add.
  - apply nth_error_None. rewrite length_map, length_seq. exact Hge.
Qed.

(** Where a send stands among the events of a [try]/[catch] statement:
    right after the probe. *)
Lemma attempt_send_position numbers client v i num st evs w o :
  attempt C Project newChatsOnly numbers client v i num st evs w o ->
  forall before c m after,
    evs = before ++ ESend c m :: after ->
    before = probe_events C i v /\ c = v /\ m = AfternoonMessage C.
Proof.
  intros Hatt before c m after Heq.
  destruct Hatt as [e w' Hp | cr w' Hp Hskip | cr w1 e w' Hp Hskip Hs
                   | cr w1 rep w' b Hp Hskip Hs Hrep
                   | cr w1 rep w' e Hp Hskip Hs Hrep].
  - exfalso. revert Heq. now apply no_send.
  - exfalso. revert Heq. now apply no_send.
  - apply (send_position (probe_events C i v) _ _ (caught_events num e) _ _ _ _
             eq_refl eq_refl Heq).
  - refine (send_position (probe_events C i v) _ _ _ _ _ _ _ eq_refl _ Heq).
    apply log_lines_are_no_calls.
  - refine (send_position (probe_events C i v) _ _ _ _ _ _ _ eq_refl _ Heq).
    rewrite sends_app.
    destruct (log_lines_are_no_calls
                (fst (report Project numbers rep st i))) as (_ & Hs0 & _).
    unfold report_events. rewrite Hs0. reflexivity.
Qed.

Lemma follow_nothing numbers evs :
  sends evs = [] -> sends_follow_probes C numbers evs.
Proof.
  intros H before c m after Heq. exfalso. revert Heq. now apply no_send.
Qed.

Lemma follow_app numbers evs1 evs2 :
  sends_follow_probes C numbers evs1 -> sends_follow_probes C numbers evs2 ->
  sends_follow_probes C numbers (evs1 ++ evs2).
Proof.
  intros H1 H2 before c m after Heq.
  apply app_eq_app in Heq. destruct Heq as (l & [[-> Hl]|[-> Hl]]).
  - destruct l as [|x l].
    + cbn in Hl. symmetry in Hl.
      destruct (H2 [] c m after Hl) as (_ & i & num & a & _ & _ & Ha).
      exfalso. unfold select_events in Ha. destruct a; discriminate Ha.
    + injection Hl as <- _. apply (H1 before c m l). reflexivity.
  - destruct (H2 l c m after Hl) as (Hm & i & num & a & Hn & Hv & Ha).
    split; [exact Hm|]. exists i, num, (evs1 ++ a).
    split; [exact Hn|]. split; [exact Hv|]. rewrite <- app_assoc, <- Ha. reflexivity.
Qed.

(** In one iteration on the number at index [i] of the array. *)
Lemma iteration_sends_follow numbers i num st r st' :
  nth_error numbers i = Some num ->
  iteration C Project newChatsOnly numbers i num st = (r, st') ->
  exists evs,
    trace st' = trace st ++ evs /\ sends_follow_probes C numbers evs.
Proof.
  intros Hnth H. apply iteration_events in H.
  destruct H as (evs & Htr & _ & [(e & w & _ & _ & Hevs & _)|[(e & _ & _ & Hevs & _)
                 |(client & w & v & att & w' & o & _ & Hval & Hatt & Hevs & _)]]);
    exists evs; (split; [exact Htr|]); subst evs.
  - now apply follow_nothing.
  - now apply follow_nothing.
  - intros before c m after Heq.
    assert (Htail : sends (match o with Skipped => [] | _ => [ESleep] end) = [])
      by (now destruct o).
    rewrite app_assoc in Heq. apply app_eq_app in Heq.
    destruct Heq as (l & [[Hb Hl]|[-> Hl]]).
    + destruct l as [|x l].
      * cbn in Hl. symmetry in Hl. exfalso.
        exact (no_send [] c m after _ Htail Hl).
      * injection Hl as <- _.
        assert (Hpos : exists b', before = select_events C i num ++ b' /\
                                  att = b' ++ ESend c m :: l).
        { apply app_eq_app in Hb. destruct Hb as (l' & [[Hsel Hl']|[-> Hl']]).
          - exfalso. destruct l' as [|y l'].
            + cbn in Hl'. apply attempt_reads in Hatt.
              destruct Hatt as (_ & _ & _ & _ & (evs' & Hevs') & _).
              rewrite Hevs' in Hl'. discriminate Hl'.
            + injection Hl' as <- _.
              exact (no_send before c m l' (select_events C i num) eq_refl Hsel).
          - eauto. }
        destruct Hpos as (b' & -> & Hatt').
        destruct (attempt_send_position _ _ _ _ _ _ _ _ _ Hatt _ _ _ _ Hatt')
          as (-> & -> & ->).
        split; [reflexivity|]. exists i, num, []. auto.
    + exfalso. revert Hl. now apply no_send.
Qed.

(** In the loop over a suffix of the array. *)
Lemma for_entries_sends_follow numbers l : forall pre st r st',
  numbers = pre ++ l ->
  for_entries (iteration C Project newChatsOnly numbers) (List.length pre) l st
    = (r, st') ->
  exists evs,
    trace st' = trace st ++ evs /\ sends_follow_probes C numbers evs.
Proof.
  induction l as [|num rest IH]; intros pre st r st' Hnum.
  - cbn. intros [= <- <-]. exists []. rewrite app_nil_r.
    split; [reflexivity|now apply follow_nothing].
  - cbn [for_entries]. unfold bind.
    destruct (iteration C Project newChatsOnly numbers (List.length pre) num st)
      as [r1 st1] eqn:Hit.
    apply iteration_sends_follow in Hit.
    2:{ rewrite Hnum, nth_error_app2, Nat.sub_diag by lia. reflexivity. }
    destruct Hit as (evs1 & Htr1 & Hf1).
    destruct r1 as [[]|e].
    + intros Hrest.
      destruct (IH (pre ++ [num]) st1 r st') as (evs2 & Htr2 & Hf2).
      * now rewrite <- app_assoc.
      * rewrite length_app, Nat.add_1_r. exact Hrest.
      * exists (evs1 ++ evs2). rewrite Htr2, Htr1, <- app_assoc.
        split; [reflexivity|]. now apply follow_app.
    + intros [= <- <-]. eauto.
Qed.

(** X7. Sends. In a run that completes, every call of sendMessage carries
    the AfternoonMessage and directly follows the selection of a session, the
    validation of a number of the shuffled array and the probe, at the index
    of that number, of the contact the validator returned for it; that
    contact is the one sent to. Every success is one send, and there are no
    more sends than contacts counted as sent or failed. *)
Theorem completed_run_sends_only_probed_contacts MNumbers w r st :
  sendBroadcast C MNumbers Project newChatsOnly w = (Returned r, st) ->
  (forall before c m after,
     trace st = before ++ ESend c m :: after ->
     m = AfternoonMessage C /\
     exists i num a,
       nth_error (fst (ShuffleMyArray C MNumbers w)) i = Some num /\
       validateNumberWithCountryCode C num = Returned c /\
       before = a ++ select_events C i num ++ probe_events C i c) /\
  successes st <= List.length (sends (trace st)) <= successes st + fails st.
Proof.
  rewrite sendBroadcast_unfold.
  destruct (ShuffleMyArray C MNumbers w) as [shuffled w1]. cbn [fst].
  destruct (for_entries _ 0 shuffled _) as [[[]|e] st1] eqn:Hloop; [|discriminate].
  intros [= _ <-]. cbn [trace successes fails]. split.
  - apply (for_entries_sends_follow shuffled shuffled [] _ _ _ eq_refl) in Hloop.
    destruct Hloop as (evs & -> & Hf). cbn [trace].
    change (sends_follow_probes C shuffled
              (([EClear; EShuffle] ++ evs)
               ++ [ELog (LogSucceededTotal (successes st1));
                   ELog (LogFailedTotal (fails st1))])).
    apply follow_app; [apply follow_app|]; try assumption;
      now apply follow_nothing.
  - rewrite sends_app. cbn [sends flat_map app]. rewrite app_nil_r.
    apply (for_entries_fold (iteration C Project newChatsOnly shuffled)
             (fun _ a b =>
                successes b + List.length (sends (trace a))
                <= successes a + List.length (sends (trace b)) /\
                List.length (sends (trace b)) + successes a + fails a
                <= List.length (sends (trace a)) + successes b + fails b)) in Hloop.
    + cbn in Hloop. lia.
    + intros; lia.
    + intros; lia.
    + intros i num a b Hit.
      pose proof (iteration_returned_events _ _ _ _ _ Hit)
        as (evs & v & Htr & _ & _ & _ & _ & Hs).
      apply iteration_iterates, iterates_summary in Hit.
      destruct Hit as (t & evs' & Htr' & Ht & Hcase).
      assert (evs' = evs) by (rewrite Htr in Htr'; now apply app_inv_head in Htr').
      subst evs'. rewrite Htr, sends_app, length_app.
      destruct t; cbn in Ht; destruct Ht as (Hsu & Hf & Hk).
      * destruct Hcase as [[e He] _]. discriminate.
      * destruct Hcase as (_ & (v' & Hs') & _). rewrite Hs'. cbn. lia.
      * destruct Hcase as (_ & _ & Hs' & _). rewrite Hs'. cbn. lia.
      * destruct Hs as [Hs|Hs]; rewrite Hs; cbn; lia.
      * destruct Hcase as (_ & (v' & Hs') & _). rewrite Hs'. cbn. lia.
Qed.


(** X9. The session selector, the validator and the delay are called outside
    the [try] block. An error of the selector or of the validator is the
    completion of the iteration, before anything is probed; after the
    [try]/[catch] statement, unless the contact was skipped, the completion
    of the delay is the completion of the iteration. An iteration that
    throws rejects the whole run with that error, in the state of that
    iteration: the contacts after it are not processed and the counters are
    neither logged nor returned. Only these three calls make an iteration
    throw. *)
Theorem error_outside_try_aborts_the_run :
  (forall numbers i num st e w,
     SelectingBotForCampaign C (remainder C i) (world st) = (Threw e, w) ->
     iteration C Project newChatsOnly numbers i num st
     = (Threw e, observe st w [ESelect (remainder C i)])) /\
  (forall numbers i num st client w e,
     SelectingBotForCampaign C (remainder C i) (world st) = (Returned client, w) ->
     validateNumberWithCountryCode C num = Threw e ->
     iteration C Project newChatsOnly numbers i num st
     = (Threw e, observe st w (select_events C i num))) /\
  (forall numbers i num st client w v,
     SelectingBotForCampaign C (remainder C i) (world st) = (Returned client, w) ->
     validateNumberWithCountryCode C num = Returned v ->
     exists evs w' o,
       attempt C Project newChatsOnly numbers client v i num (observe st w [])
         evs w' o /\
       iteration C Project newChatsOnly numbers i num st =
       match o with
       | Skipped => (Returned tt, advance st w' Skipped (select_events C i num ++ evs))
       | _ =>
           (fst (SleepTimeOfficialHoursWithRandomDelay C (InputOne C) w'),
            advance st (snd (SleepTimeOfficialHoursWithRandomDelay C (InputOne C) w'))
              o (select_events C i num ++ evs ++ [ESleep]))
       end) /\
  (forall MNumbers w pre num post st1 e st2,
     fst (ShuffleMyArray C MNumbers w) = pre ++ num :: post ->
     for_entries (iteration C Project newChatsOnly (pre ++ num :: post)) 0 pre
       (loop_start (snd (ShuffleMyArray C MNumbers w))) = (Returned tt, st1) ->
     iteration C Project newChatsOnly (pre ++ num :: post) (List.length pre) num st1
       = (Threw e, st2) ->
     sendBroadcast C MNumbers Project newChatsOnly w = (Threw e, st2)) /\
  (forall numbers i num st e st',
     iteration C Project newChatsOnly numbers i num st = (Threw e, st') ->
     (exists w, SelectingBotForCampaign C (remainder C i) (world st) = (Threw e, w)) \/
     validateNumberWithCountryCode C num = Threw e \/
     (exists w, SleepTimeOfficialHoursWithRandomDelay C (InputOne C) w
                = (Threw e, world st'))).
Proof.
  split; [|split; [|split; [|split]]].
  - intros numbers i num st e w. apply iteration_select_threw.
  - intros numbers i num st client w e. apply iteration_validate_threw.
  - intros numbers i num st client w v. apply iteration_after_validation.
  - intros MNumbers w pre num post st1 e st2 Hsh Hpre Hit.
    rewrite sendBroadcast_unfold.
    destruct (ShuffleMyArray C MNumbers w) as [shuffled w1]. cbn [fst snd] in *.
    subst shuffled. rewrite for_entries_at.
    unfold loop_start in Hpre. rewrite Hpre, Hit. reflexivity.
  - intros numbers i num st e st' Hit. apply iteration_iterates in Hit.
    inversion Hit as [e0 w0 Hsel | client w0 e0 Hsel Hval
                     | | client w0 v evs w' o rz w'' Hsel Hval Hatt Ho Hz]; subst.
    + left. eauto.
    + right. left. assumption.
    + right. right. exists w'. cbn. assumption.
Qed.

(** X10. What CampaignResult shows as remaining. When the contact at
    position [length pre] of the array is counted as sent and not as failed,
    the tallies lines show the counters after it, and the remaining count is
    the number of contacts after it minus [twice], the amount by which
    successes + fails + skipped before it exceed its position: the contacts
    before it that were counted both as sent and as failed. *)
Theorem report_shows_contacts_left w pre num post st1 r st2 :
  for_entries (iteration C Project newChatsOnly (pre ++ num :: post)) 0 pre
    (loop_start w) = (Returned tt, st1) ->
  iteration C Project newChatsOnly (pre ++ num :: post) (List.length pre) num st1
    = (r, st2) ->
  successes st2 = S (successes st1) -> fails st2 = fails st1 ->
  exists evs twice,
    trace st2 = trace st1 ++ evs /\
    successes st1 + fails st1 + skipped st1 = List.length pre + twice /\
    progress_lines evs
    = [LogResultTallies (successes st2) (fails st2);
       LogResultSkippedRemaining (skipped st2)
         (Z.of_nat (List.length post) - Z.of_nat twice)].
Proof.
  intros Hpre Hit Hsent Hfail.
  apply (for_entries_fold (iteration C Project newChatsOnly (pre ++ num :: post))
           (fun n a b => exists d,
              successes b + fails b + skipped b
              = successes a + fails a + skipped a + n + d)) in Hpre.
  2:{ intros st. exists 0. lia. }
  2:{ intros n a b c [d1 H1] [d2 H2]. exists (d1 + d2). lia. }
  2:{ intros i n a b H. apply iteration_counts in H. destruct H as (d & _ & H).
      exists d. lia. }
  cbn in Hpre. destruct Hpre as [twice Htwice].
  apply iteration_iterates, iterates_summary in Hit.
  destruct Hit as (t & evs & Htr & Ht & Hcase). exists evs, twice.
  split; [exact Htr|]. split; [lia|].
  destruct t; cbn in Ht; destruct Ht as (Hs & Hf & Hk); try lia.
  destruct Hcase as (_ & _ & Hp). rewrite Hp. unfold report_of.
  rewrite length_app. cbn [List.length].
  replace (Z.of_nat (List.length pre + S (List.length post))
           - Z.of_nat (fails st2 + successes st2 + skipped st2))%Z
    with (Z.of_nat (List.length post) - Z.of_nat twice)%Z by lia.
  reflexivity.
Qed.

End More.

(** *** On concrete collaborators *)

Lemma completed_run_processes_each_contact_once_witness :
  let C := collaborators 2 validate_returning never_contacted transport_strict in
  let MNumbers := ["971501112222"; "971501112222-malformed"; "971503334444"] in
  let run := sendBroadcast C MNumbers WhiteCaves false 0 in
  shuffles C /\
  run = (Returned {| result_successes := 2; result_fails := 1 |}, snd run) /\
  validations (trace (snd run)) = fst (ShuffleMyArray C MNumbers 0) /\
  Permutation MNumbers (validations (trace (snd run))) /\
  map snd (probes (trace (snd run))) = seq 0 (List.length MNumbers) /\
  map (fun p => Returned (fst p)) (probes (trace (snd run)))
    = map (validateNumberWithCountryCode C) (validations (trace (snd run))).
Proof.
  intros C MNumbers run.
  assert (Hs : shuffles C) by (intros l w; cbn; apply Permutation_rev).
  assert (Hr : run = (Returned {| result_successes := 2; result_fails := 1 |}, snd run))
    by (vm_compute; reflexivity).
  split; [exact Hs|]. split; [exact Hr|].
  exact (completed_run_processes_each_contact_once C WhiteCaves false MNumbers 0 _ _
           Hs Hr).
Defined.

Lemma completed_run_selects_sessions_round_robin_witness :
  let C := collaborators 2 validate_returning never_contacted transport_strict in
  let MNumbers := ["971501112222"; "971501112222-malformed"; "971503334444"] in
  let run := sendBroadcast C MNumbers WhiteCaves false 0 in
  shuffles C /\
  run = (Returned {| result_successes := 2; result_fails := 1 |}, snd run) /\
  0 < Agents (InputOne C) /\
  selections (trace (snd run)) = [Some 0; Some 1; Some 0] /\
  nth_error (selections (trace (snd run))) 0 = Some (Some (0 mod 2)) /\
  nth_error (selections (trace (snd run))) (0 + 2)
  = nth_error (selections (trace (snd run))) 0.
Proof.
  intros C MNumbers run.
  assert (Hs : shuffles C) by (intros l w; cbn; apply Permutation_rev).
  assert (Hr : run = (Returned {| result_successes := 2; result_fails := 1 |}, snd run))
    by (vm_compute; reflexivity).
  assert (Hpos : 0 < Agents (InputOne C)) by (cbn; lia).
  split; [exact Hs|]. split; [exact Hr|]. split; [exact Hpos|].
  destruct (completed_run_selects_sessions_round_robin C WhiteCaves false MNumbers 0
              _ _ Hs Hr) as [Hsel Hper].
  split; [exact Hsel|].
  exact (Hper Hpos 0 ltac:(cbn; lia)).
Defined.

Lemma completed_run_sends_only_probed_contacts_witness :
  let C := collaborators 1 validate_returning contacted_if_canonical transport_strict in
  let MNumbers := ["971501112222"; "971501112222-malformed"] in
  let run := sendBroadcast C MNumbers WhiteCaves true 0 in
  let before := [EClear; EShuffle] ++ select_events C 0 "971501112222-malformed"
                ++ probe_events C 0 InvalidFormat in
  let after := skipn (S (List.length before)) (trace (snd run)) in
  run = (Returned {| result_successes := 0; result_fails := 1 |}, snd run) /\
  trace (snd run) = before ++ ESend InvalidFormat "Good afternoon" :: after /\
  ("Good afternoon" = AfternoonMessage C /\
   exists i num a,
     nth_error (fst (ShuffleMyArray C MNumbers 0)) i = Some num /\
     validateNumberWithCountryCode C num = Returned InvalidFormat /\
     before = a ++ select_events C i num ++ probe_events C i InvalidFormat) /\
  successes (snd run) <= List.length (sends (trace (snd run)))
  <= successes (snd run) + fails (snd run).
Proof.
  intros C MNumbers run before after.
  assert (Hr : run = (Returned {| result_successes := 0; result_fails := 1 |}, snd run))
    by (vm_compute; reflexivity).
  assert (Htr : trace (snd run)
                = before ++ ESend InvalidFormat "Good afternoon" :: after)
    by (vm_compute; reflexivity).
  split; [exact Hr|]. split; [exact Htr|].
  destruct (completed_run_sends_only_probed_contacts C WhiteCaves true MNumbers 0 _ _ Hr)
    as [Hfollow Hcount].
  split; [exact (Hfollow before InvalidFormat "Good afternoon" after Htr)|exact Hcount].
Defined.


Lemma error_outside_try_aborts_the_run_witness :
  let C := collaborators 1 validate_throwing never_contacted transport_ok in
  let MNumbers := ["971503334444"; "971501112222-malformed"; "971501112222"] in
  let pre := ["971501112222"] in
  let num := "971501112222-malformed" in
  let post := ["971503334444"] in
  let e := Raised "InvalidFormat" in
  let st1 := snd (for_entries (iteration C WhiteCaves false (pre ++ num :: post)) 0 pre
                    (loop_start (snd (ShuffleMyArray C MNumbers 0)))) in
  let st2 := snd (iteration C WhiteCaves false (pre ++ num :: post) 1 num st1) in
  fst (ShuffleMyArray C MNumbers 0) = pre ++ num :: post /\
  SelectingBotForCampaign C (remainder C 1) (world st1) = (Returned (Some 0), 2) /\
  validateNumberWithCountryCode C num = Threw e /\
  successes st2 = 1 /\
  iteration C WhiteCaves false (pre ++ num :: post) 1 num st1
    = (Threw e, observe st1 2 (select_events C 1 num)) /\
  sendBroadcast C MNumbers WhiteCaves false 0 = (Threw e, st2) /\
  validations (trace st2) = pre ++ [num] /\
  probes (trace st2) = [(Canonical "971501112222", 0)].
Proof.
  intros C MNumbers pre num post e st1 st2.
  assert (Hsh : fst (ShuffleMyArray C MNumbers 0) = pre ++ num :: post) by reflexivity.
  assert (Hpre : for_entries (iteration C WhiteCaves false (pre ++ num :: post)) 0 pre
                   (loop_start (snd (ShuffleMyArray C MNumbers 0)))
                 = (Returned tt, st1)) by (vm_compute; reflexivity).
  assert (Hsel : SelectingBotForCampaign C (remainder C 1) (world st1)
                 = (Returned (Some 0), 2)) by (vm_compute; reflexivity).
  assert (Hval : validateNumberWithCountryCode C num = Threw e) by reflexivity.
  assert (Hit : iteration C WhiteCaves false (pre ++ num :: post) (List.length pre) num st1
                = (Threw e, st2)) by (vm_compute; reflexivity).
  destruct (error_outside_try_aborts_the_run C WhiteCaves false)
    as (_ & Hvalidator & _ & Hrun & _).
  split; [exact Hsh|]. split; [exact Hsel|]. split; [exact Hval|].
  split; [vm_compute; reflexivity|].
  split; [exact (Hvalidator (pre ++ num :: post) 1 num st1 (Some 0) 2 e Hsel Hval)|].
  split; [exact (Hrun MNumbers 0 pre num post st1 e st2 Hsh Hpre Hit)|].
  split; vm_compute; reflexivity.
Defined.

Lemma report_shows_contacts_left_witness :
  let C := collaborators 1 validate_returning never_contacted
             (transport_losing "971501112222") in
  let pre := ["971501112222"] in
  let num := "971502223333" in
  let post := ["971503334444"; "971504445555"] in
  let st1 := snd (for_entries (iteration C WhiteCaves false (pre ++ num :: post)) 0 pre
                    (loop_start 0)) in
  let st2 := snd (iteration C WhiteCaves false (pre ++ num :: post) 1 num st1) in
  successes st1 = 1 /\ fails st1 = 1 /\ skipped st1 = 0 /\
  successes st2 = S (successes st1) /\ fails st2 = fails st1 /\
  progress_lines (skipn (List.length (trace st1)) (trace st2))
  = [LogResultTallies 2 1; LogResultSkippedRemaining 0 1] /\
  exists evs twice,
    trace st2 = trace st1 ++ evs /\
    successes st1 + fails st1 + skipped st1 = List.length pre + twice /\
    progress_lines evs
    = [LogResultTallies (successes st2) (fails st2);
       LogResultSkippedRemaining (skipped st2)
         (Z.of_nat (List.length post) - Z.of_nat twice)].
Proof.
  intros C pre num post st1 st2.
  assert (Hpre : for_entries (iteration C WhiteCaves false (pre ++ num :: post)) 0 pre
                   (loop_start 0) = (Returned tt, st1)) by (vm_compute; reflexivity).
  assert (Hit : iteration C WhiteCaves false (pre ++ num :: post) (List.length pre) num st1
                = (Returned tt, st2)) by (vm_compute; reflexivity).
  assert (Hsent : successes st2 = S (successes st1)) by (vm_compute; reflexivity).
  assert (Hfail : fails st2 = fails st1) by (vm_compute; reflexivity).
  do 3 (split; [vm_compute; reflexivity|]).
  split; [exact Hsent|]. split; [exact Hfail|].
  split; [vm_compute; reflexivity|].
  exact (report_shows_contacts_left C WhiteCaves false 0 pre num post st1 _ st2
           Hpre Hit Hsent Hfail).
Defined.

End BroadcastMore.

(** ** More on the router *)

Module InboundMore.

Import Inbound Scenarios InboundFacts.

Section More.

Context {World Agent : Type} (C : Collaborators World Agent).

Lemma trace_tail {A} (t a b : list A) : t ++ a = t ++ b -> a = b.
Proof. apply app_inv_head. Qed.

Lemma trace_no_tail {A} (t b : list A) : t = t ++ b -> b = [].
Proof.
  intros H. rewrite <- (app_nil_r t) in H at 1. now apply app_inv_head in H.
Qed.

Ltac branches :=
  unfold MessageAnalyzer, analyze, try_catch, bind, console_log, emit, await,
    call_detached, lift, throw, ret;
  cbn [world trace unhandled];
  repeat match goal with
         | |- context [String.eqb ?a ?b] => destruct (String.eqb a b) eqn:?
         | |- context [andb ?a ?b] => destruct (andb a b) eqn:?
         | |- context [Array_includes ?a ?b] => destruct (Array_includes a b) eqn:?
         | |- context [Array_find ?p ?l] => destruct (Array_find p l) eqn:?
         | |- context [FindAndShareOwnerNumberOnAgentRequest ?c ?m ?w] =>
             destruct (FindAndShareOwnerNumberOnAgentRequest c m w) as [[[]|?] ?] eqn:?
         | |- context [SharingMobileNumber ?c ?m ?w] =>
             destruct (SharingMobileNumber c m w) as [[[]|?] ?] eqn:?
         | |- context [reply ?c ?m ?a ?w] =>
             destruct (reply c m a w) as [[[|?]|?] ?] eqn:?
         | |- context [CreatingNewWhatsAppClientLucy ?c ?n ?w] =>
             destruct (CreatingNewWhatsAppClientLucy c n w) as [[?|?] ?] eqn:?
         | |- context [findWord ?c ?a ?b] => destruct (findWord c a b) eqn:?
         | |- context [ProjectCampaign ?c ?p ?w] =>
             destruct (ProjectCampaign c p w) as [[[?|]|?] ?] eqn:?
         end;
  cbn [world trace unhandled snd fst].

Ltac events evs H :=
  intros evs H; repeat rewrite <- app_assoc in H;
  first [apply trace_tail in H | apply trace_no_tail in H]; subst evs;
  cbn [app invoked].

(** X11. A message that makes MessageAnalyzer invoke no handler leaves the world
    as it was and no rejection unhandled: all it does is write log lines. *)
Theorem message_without_handler_has_no_effect msg st evs :
  trace (snd (MessageAnalyzer C msg st)) = trace st ++ evs ->
  invoked evs = [] ->
  world (snd (MessageAnalyzer C msg st)) = world st /\
  unhandled (snd (MessageAnalyzer C msg st)) = unhandled st.
Proof.
  revert evs. branches; events evs H; intros Hinv;
    try discriminate; split; reflexivity.
Qed.

(** X12. Unless [msg.reply] was called, no rejection is left unhandled: the
    errors of every other handler are caught. *)
Theorem only_reply_leaves_a_rejection_unhandled msg st evs :
  trace (snd (MessageAnalyzer C msg st)) = trace st ++ evs ->
  (forall content, ~ In (reply_ content) (invoked evs)) ->
  unhandled (snd (MessageAnalyzer C msg st)) = unhandled st.
Proof.
  revert evs. branches; events evs H; intros Hno; try reflexivity;
    exfalso; eapply Hno; left; reflexivity.
Qed.

(** X13. The contact-sharing handler needs the quoted message: without the flag
    SharingMobileNumber is never invoked, whatever the body; a text message
    with the marker and the flag invokes it and nothing else. *)
Theorem contact_sharing_needs_a_quoted_message msg st evs :
  trace (snd (MessageAnalyzer C msg st)) = trace st ++ evs ->
  (hasQuotedMsg msg = false -> ~ In SharingMobileNumber_ (invoked evs)) /\
  (type msg = "chat" ->
   includes (body msg) "House Number/Municipality Number=" = true ->
   hasQuotedMsg msg = true ->
   invoked evs = [SharingMobileNumber_]).
Proof.
  intros Htr. split.
  - intros Hq. revert evs Htr. branches; events evs H;
      try (intros [Hin|Hin]; solve [discriminate Hin | destruct Hin as [Hin|[]]; discriminate Hin
                                    | contradiction]);
      try (intros []; fail);
      try (exfalso;
           match goal with
           | Ha : _ && hasQuotedMsg msg = true |- _ =>
               rewrite Hq, andb_false_r in Ha; discriminate Ha
           end).
  - intros Htype Hinc Hq. revert evs Htr.
    unfold MessageAnalyzer, analyze. rewrite Htype, Hinc, Hq.
    cbn [andb]. rewrite String.eqb_refl.
    destruct (String.eqb_spec (body msg) "Kindly share the mobile number of the owner")
      as [Hb|Hb].
    { rewrite Hb in Hinc. vm_compute in Hinc. discriminate. }
    unfold try_catch, bind, console_log, emit, await. cbn [world trace unhandled].
    destruct (SharingMobileNumber C msg (world st)) as [[[]|e] w];
      cbn [snd trace]; events evs H; reflexivity.
Qed.

(** X14. A campaign is only started for a listed project named by the message:
    when ProjectCampaign is invoked, the message is a text whose body is the
    name of that project of MyProjects, the name does not contain
    "Mission Speed", the body is no FAQ question, findWord has returned, and
    no other handler is invoked. *)
Theorem campaign_starts_only_for_a_listed_project msg st evs p :
  trace (snd (MessageAnalyzer C msg st)) = trace st ++ evs ->
  In (ProjectCampaign_ p) (invoked evs) ->
  type msg = "chat" /\
  In p (MyProjects C) /\
  ProjectName p = body msg /\
  includes (body msg) "Mission Speed" = false /\
  Array_includes (ClientQuestionsArray C) (body msg) = false /\
  (exists r, findWord C "woo" "How much wood could a wood chip chop" = Returned r) /\
  invoked evs = [ProjectCampaign_ p].
Proof.
  revert evs. branches; events evs H; intros Hin;
    try contradiction;
    try (destruct Hin as [Hin|[]]; discriminate Hin);
    destruct Hin as [[= ->]|[]];
    repeat match goal with
           | Ha : String.eqb _ _ = true |- _ => apply String.eqb_eq in Ha
           | Ha : Array_find _ _ = Some _ |- _ =>
               apply find_some in Ha; destruct Ha as [? Ha]; unfold is_project in Ha
           | Ha : truthy (Some _) && _ = false |- _ => cbn [truthy andb] in Ha
           end;
    repeat split; eauto.
Qed.

(** X15. The sign-up never completes. The line that follows the call of
    WhatsAppClientFunctions is never written, for any message; and a sign-up
    message always ends in a logged error: the one of the client creation,
    or, when the client was created, the ReferenceError of the unbound
    WhatsAppClientFunctions. *)
Theorem signup_never_completes :
  (forall msg st evs,
     trace (snd (MessageAnalyzer C msg st)) = trace st ++ evs ->
     ~ In (ELog LogNewAgentResult) evs) /\
  (forall msg st,
     type msg = "chat" ->
     body msg = "I want to signup as lucy" ->
     Array_includes (ClientQuestionsArray C) (body msg) = false ->
     exists e,
       trace (snd (MessageAnalyzer C msg st))
       = trace st ++ [ELog (LogFrom (from msg)); ELog LogNewObjectCreation;
                      EInvoke (CreatingNewWhatsAppClientLucy_ "Lucy");
                      ELog (LogError e)] /\
       (forall Lucy w,
          CreatingNewWhatsAppClientLucy C "Lucy" (world st) = (Returned Lucy, w) ->
          e = ReferenceError "WhatsAppClientFunctions")).
Proof.
  split.
  - intros msg st. branches; events evs H; cbn;
      intuition discriminate.
  - intros msg st Htype Hbody Hfaq.
    assert (Howner : String.eqb "I want to signup as lucy"
                       "Kindly share the mobile number of the owner" = false)
      by reflexivity.
    assert (Hmarker : includes "I want to signup as lucy"
                        "House Number/Municipality Number=" = false)
      by (vm_compute; reflexivity).
    unfold MessageAnalyzer, analyze.
    rewrite Htype, Hfaq, Hbody, Howner, Hmarker, !String.eqb_refl. cbn [andb].
    unfold try_catch, bind, console_log, emit, await, throw. cbn [world trace unhandled].
    destruct (CreatingNewWhatsAppClientLucy C "Lucy" (world st)) as [[Lucy|e] w];
      cbn [snd trace].
    + exists (ReferenceError "WhatsAppClientFunctions").
      split; [repeat rewrite <- app_assoc; reflexivity|auto].
    + exists e. split; [repeat rewrite <- app_assoc; reflexivity|].
      intros ? ? [=].
Qed.

End More.

(** *** On concrete collaborators *)

Lemma message_without_handler_has_no_effect_witness :
  let C := router Fulfilled in
  let msg := text "Good morning" in
  let evs := [ELog (LogFrom "971501112222@c.us"); ELog LogDefault] in
  trace (snd (MessageAnalyzer C msg start)) = trace start ++ evs /\
  invoked evs = [] /\
  world (snd (MessageAnalyzer C msg start)) = world start /\
  unhandled (snd (MessageAnalyzer C msg start)) = unhandled start.
Proof.
  intros C msg evs.
  assert (Htr : trace (snd (MessageAnalyzer C msg start)) = trace start ++ evs)
    by reflexivity.
  assert (Hinv : invoked evs = []) by reflexivity.
  split; [exact Htr|]. split; [exact Hinv|].
  exact (message_without_handler_has_no_effect C msg start evs Htr Hinv).
Defined.

Lemma only_reply_leaves_a_rejection_unhandled_witness :
  let C := router (Rejected (Raised "disconnected")) in
  let msg := text "Kindly share the mobile number of the owner" in
  let evs := [ELog (LogFrom "971501112222@c.us"); ELog LogOwnerRequested;
              EInvoke FindAndShareOwnerNumberOnAgentRequest_] in
  trace (snd (MessageAnalyzer C msg start)) = trace start ++ evs /\
  (forall content, ~ In (reply_ content) (invoked evs)) /\
  unhandled (snd (MessageAnalyzer C msg start)) = unhandled start.
Proof.
  intros C msg evs.
  assert (Htr : trace (snd (MessageAnalyzer C msg start)) = trace start ++ evs)
    by reflexivity.
  assert (Hno : forall content, ~ In (reply_ content) (invoked evs)).
  { intros content [H|[]]. discriminate H. }
  split; [exact Htr|]. split; [exact Hno|].
  exact (only_reply_leaves_a_rejection_unhandled C msg start evs Htr Hno).
Defined.

Lemma contact_sharing_needs_a_quoted_message_witness :
  let C := router Fulfilled in
  let msg := {| type := "chat"; from := "971501112222@c.us";
                body := "House Number/Municipality Number=12";
                hasQuotedMsg := true |} in
  let evs := [ELog (LogFrom "971501112222@c.us"); ELog LogIncludesMunicipality;
              EInvoke SharingMobileNumber_] in
  trace (snd (MessageAnalyzer C msg start)) = trace start ++ evs /\
  type msg = "chat" /\
  includes (body msg) "House Number/Municipality Number=" = true /\
  hasQuotedMsg msg = true /\
  invoked evs = [SharingMobileNumber_].
Proof.
  intros C msg evs.
  assert (Htr : trace (snd (MessageAnalyzer C msg start)) = trace start ++ evs)
    by reflexivity.
  assert (Hinc : includes (body msg) "House Number/Municipality Number=" = true)
    by reflexivity.
  split; [exact Htr|]. split; [reflexivity|]. split; [exact Hinc|].
  split; [reflexivity|].
  exact (proj2 (contact_sharing_needs_a_quoted_message C msg start evs Htr)
           eq_refl Hinc eq_refl).
Defined.

Lemma campaign_starts_only_for_a_listed_project_witness :
  let C := router Fulfilled in
  let msg := text "Damac Hills 2" in
  let p := {| ProjectName := "Damac Hills 2" |} in
  let evs := [ELog (LogFrom "971501112222@c.us");
              EFindWord "woo" "How much wood could a wood chip chop";
              ELog (LogFindWord "true"); EInvoke (ProjectCampaign_ p);
              ELog (LogProjectResult "3")] in
  trace (snd (MessageAnalyzer C msg start)) = trace start ++ evs /\
  In (ProjectCampaign_ p) (invoked evs) /\
  type msg = "chat" /\
  In p (MyProjects C) /\
  ProjectName p = body msg /\
  includes (body msg) "Mission Speed" = false /\
  Array_includes (ClientQuestionsArray C) (body msg) = false /\
  (exists r, findWord C "woo" "How much wood could a wood chip chop" = Returned r) /\
  invoked evs = [ProjectCampaign_ p].
Proof.
  intros C msg p evs.
  assert (Htr : trace (snd (MessageAnalyzer C msg start)) = trace start ++ evs)
    by reflexivity.
  assert (Hin : In (ProjectCampaign_ p) (invoked evs)) by (left; reflexivity).
  split; [exact Htr|]. split; [exact Hin|].
  exact (campaign_starts_only_for_a_listed_project C msg start evs p Htr Hin).
Defined.

Lemma signup_never_completes_witness :
  let C := router Fulfilled in
  let msg := text "I want to signup as lucy" in
  type msg = "chat" /\
  body msg = "I want to signup as lucy" /\
  Array_includes (ClientQuestionsArray C) (body msg) = false /\
  (forall evs, trace (snd (MessageAnalyzer C msg start)) = trace start ++ evs ->
     ~ In (ELog LogNewAgentResult) evs) /\
  exists e,
    trace (snd (MessageAnalyzer C msg start))
    = trace start ++ [ELog (LogFrom (from msg)); ELog LogNewObjectCreation;
                      EInvoke (CreatingNewWhatsAppClientLucy_ "Lucy");
                      ELog (LogError e)] /\
    (forall Lucy w,
       CreatingNewWhatsAppClientLucy C "Lucy" (world start) = (Returned Lucy, w) ->
       e = ReferenceError "WhatsAppClientFunctions").
Proof.
  intros C msg.
  assert (Hfaq : Array_includes (ClientQuestionsArray C) (body msg) = false)
    by reflexivity.
  split; [reflexivity|]. split; [reflexivity|]. split; [exact Hfaq|].
  destruct (signup_never_completes C) as [Hdead Hsign].
  split.
  - exact (Hdead msg start).
  - exact (Hsign msg start eq_refl eq_refl Hfaq).
Defined.

End InboundMore.

(** ** The clock helpers *)

Module TimeFacts.

Import Time.
Local Open Scope Z_scope.

Lemma padTo2Digits_below_100 n :
  0 <= n < 100 -> padTo2Digits n = two_digits n.
Proof.
  intros Hn.
  assert (Hall : forallb (fun k => String.eqb (padTo2Digits (Z.of_nat k))
                                     (two_digits (Z.of_nat k)))
                   (seq 0 100) = true) by (vm_compute; reflexivity).
  rewrite forallb_forall in Hall.
  specialize (Hall (Z.to_nat n)).
  rewrite Z2Nat.id in Hall by lia.
  apply String.eqb_eq, Hall, in_seq. lia.
Qed.

(** What convertMsToTime computes on a time that is not negative. *)
Lemma convertMsToTime_fields ms :
  0 <= ms ->
  convertMsToTime ms =
  (two_digits ((ms / 3600000) mod 24) ++ ":" ++ two_digits ((ms / 60000) mod 60)
   ++ ":" ++ two_digits ((ms / 1000) mod 60))%string.
Proof.
  intros Hms. unfold convertMsToTime.
  assert (H1 : 0 <= ms / 1000) by (apply Z.div_pos; lia).
  assert (H2 : 0 <= ms / 1000 / 60) by (apply Z.div_pos; lia).
  assert (H3 : 0 <= ms / 1000 / 60 / 60) by (apply Z.div_pos; lia).
  rewrite !Z.rem_mod_nonneg by lia.
  rewrite !padTo2Digits_below_100
    by (match goal with |- 0 <= ?a mod ?b < _ =>
          pose proof (Z.mod_pos_bound a b ltac:(lia)); lia end).
  rewrite !Z.div_div by lia. reflexivity.
Qed.

(** X1. On a time of day given in hours (below 24), minutes and seconds
    (below 60), plus any fraction of a second, convertMsToTime writes back
    these hours, minutes and seconds, each with two digits. *)
Theorem convertMsToTime_toMilliseconds hrs min sec ms :
  0 <= hrs < 24 -> 0 <= min < 60 -> 0 <= sec < 60 -> 0 <= ms < 1000 ->
  convertMsToTime (toMilliseconds hrs min sec + ms) =
  (two_digits hrs ++ ":" ++ two_digits min ++ ":" ++ two_digits sec)%string.
Proof.
  intros Hh Hm Hs Hr. rewrite convertMsToTime_fields by (unfold toMilliseconds; lia).
  unfold toMilliseconds.
  replace ((((hrs * 60 * 60 + min * 60 + sec) * 1000 + ms) / 3600000) mod 24) with hrs
    by (Z.div_mod_to_equations; lia).
  replace ((((hrs * 60 * 60 + min * 60 + sec) * 1000 + ms) / 60000) mod 60) with min
    by (Z.div_mod_to_equations; lia).
  replace ((((hrs * 60 * 60 + min * 60 + sec) * 1000 + ms) / 1000) mod 60) with sec
    by (Z.div_mod_to_equations; lia).
  reflexivity.
Qed.

Lemma convertMsToTime_toMilliseconds_witness :
  convertMsToTime (toMilliseconds 4 15 5 + 0) = "04:15:05"%string.
Proof.
  exact (convertMsToTime_toMilliseconds 4 15 5 0
           ltac:(lia) ltac:(lia) ltac:(lia) ltac:(lia)).
Defined.

(** X2. convertMsToTime rolls over at 24 hours: a time that is not negative
    and the same time one day later are written alike, so a duration of a
    day or more loses its days. *)
Theorem convertMsToTime_rolls_over_after_a_day ms :
  0 <= ms -> ms + toMilliseconds 24 0 0 <= MAX_SAFE_INTEGER ->
  convertMsToTime (ms + toMilliseconds 24 0 0) = convertMsToTime ms.
Proof.
  intros Hms _. change (toMilliseconds 24 0 0) with 86400000.
  rewrite !convertMsToTime_fields by lia.
  replace (((ms + 86400000) / 3600000) mod 24) with ((ms / 3600000) mod 24)
    by (Z.div_mod_to_equations; lia).
  replace (((ms + 86400000) / 60000) mod 60) with ((ms / 60000) mod 60)
    by (Z.div_mod_to_equations; lia).
  replace (((ms + 86400000) / 1000) mod 60) with ((ms / 1000) mod 60)
    by (Z.div_mod_to_equations; lia).
  reflexivity.
Qed.

Lemma convertMsToTime_rolls_over_after_a_day_witness :
  convertMsToTime (0 + toMilliseconds 24 0 0) = convertMsToTime 0
  /\ convertMsToTime 0 = "00:00:00"%string.
Proof.
  split; [|reflexivity].
  exact (convertMsToTime_rolls_over_after_a_day 0 ltac:(lia)
           ltac:(unfold toMilliseconds, MAX_SAFE_INTEGER; lia)).
Defined.

(** X3. convertMsToHM rounds the minutes up from 30 seconds on, and does
    not carry into the hours: a time of hh:59:30 or later in that minute is
    written hh:00, an hour early. *)
Theorem convertMsToHM_rounds_minutes_without_carry hrs min sec ms :
  0 <= hrs < 24 -> 0 <= min < 60 -> 0 <= sec < 60 -> 0 <= ms < 1000 ->
  convertMsToHM (toMilliseconds hrs min sec + ms) =
    (two_digits hrs ++ ":"
     ++ two_digits (if Z.ltb sec 30 then min else (min + 1) mod 60))%string
  /\ (min = 59 -> 30 <= sec ->
      convertMsToHM (toMilliseconds hrs min sec + ms)
      = (two_digits hrs ++ ":00")%string).
Proof.
  intros Hh Hm Hs Hr.
  assert (Hgen : convertMsToHM (toMilliseconds hrs min sec + ms) =
            (two_digits hrs ++ ":"
             ++ two_digits (if Z.ltb sec 30 then min else (min + 1) mod 60))%string).
  { unfold convertMsToHM, toMilliseconds.
    replace (((hrs * 60 * 60 + min * 60 + sec) * 1000 + ms) / 1000)
      with (hrs * 60 * 60 + min * 60 + sec) by (Z.div_mod_to_equations; lia).
    replace ((hrs * 60 * 60 + min * 60 + sec) / 60) with (hrs * 60 + min)
      by (Z.div_mod_to_equations; lia).
    replace ((hrs * 60 + min) / 60) with hrs by (Z.div_mod_to_equations; lia).
    rewrite (Z.rem_mod_nonneg hrs 24) by lia.
    rewrite (Z.rem_mod_nonneg (hrs * 60 * 60 + min * 60 + sec) 60) by lia.
    replace ((hrs * 60 * 60 + min * 60 + sec) mod 60) with sec
      by (Z.div_mod_to_equations; lia).
    rewrite (Z.mod_small hrs 24) by lia.
    rewrite Z.geb_leb. destruct (Z.ltb_spec sec 30) as [Hlt|Hge].
    - destruct (Z.leb_spec 30 sec); [lia|].
      rewrite Z.rem_mod_nonneg by lia.
      replace ((hrs * 60 + min) mod 60) with min by (Z.div_mod_to_equations; lia).
      rewrite !padTo2Digits_below_100 by lia. reflexivity.
    - destruct (Z.leb_spec 30 sec); [|lia].
      rewrite Z.rem_mod_nonneg by lia.
      replace ((hrs * 60 + min + 1) mod 60) with ((min + 1) mod 60)
        by (Z.div_mod_to_equations; lia).
      rewrite !padTo2Digits_below_100
        by (try lia; pose proof (Z.mod_pos_bound (min + 1) 60 ltac:(lia)); lia).
      reflexivity. }
  split; [exact Hgen|].
  intros -> Hsec. rewrite Hgen.
  destruct (Z.ltb_spec sec 30); [lia|]. reflexivity.
Qed.

Lemma convertMsToHM_rounds_minutes_without_carry_witness :
  convertMsToHM (toMilliseconds 9 59 45 + 0) = "09:00"%string.
Proof.
  exact (proj2 (convertMsToHM_rounds_minutes_without_carry 9 59 45 0
                  ltac:(lia) ltac:(lia) ltac:(lia) ltac:(lia))
           eq_refl ltac:(lia)).
Defined.

(** X4. convertMsToTime does not reject a negative time: each field is
    floored on its own and printed with its sign, so the last second before
    zero is written -1:-1:-1. *)
Theorem convertMsToTime_just_below_zero ms :
  -1000 <= ms < 0 -> convertMsToTime ms = "-1:-1:-1"%string.
Proof.
  intros Hms. unfold convertMsToTime.
  replace (ms / 1000) with (-1) by (Z.div_mod_to_equations; lia).
  reflexivity.
Qed.

Lemma convertMsToTime_just_below_zero_witness :
  convertMsToTime (-500) = "-1:-1:-1"%string.
Proof. exact (convertMsToTime_just_below_zero (-500) ltac:(lia)). Defined.

End TimeFacts.

(** ** Reading the contacts of a project *)

Module ContactsFacts.

Import Contacts.

Section Facts.

Context {World Project Rows : Type} (C : Collaborators World Project Rows).

(** X16. FindBastardsInContacts never throws, and a failed read cannot be told
    from an empty sheet: when getSheet throws, the response has no data,
    getNumbersArrayFromRows throws or resolves with nothing, the error is
    logged and the empty array is returned; in the first two cases the rows
    are not parsed. Only when both calls return is the result the
    CorrectNumbers of the parsed rows. *)
Theorem FindBastardsInContacts_returns_empty_on_failure Project0 w t :
  let st := {| world := w; ListOfBastards := None; trace := t |} in
  exists result evs st',
    FindBastardsInContacts C Project0 st = (Returned result, st') /\
    trace st' = t ++ evs /\
    match getSheet C Project0 w with
    | (Threw e, _) =>
        result = Some [] /\ evs = [EGetSheet; ELog (LogError e)]
    | (Returned data, w1) =>
        match data_data_values data with
        | Threw e => result = Some [] /\ evs = [EGetSheet; ELog (LogError e)]
        | Returned values =>
            match getNumbersArrayFromRows C values w1 with
            | (Threw e, _) =>
                result = Some [] /\ evs = [EGetSheet; EGetNumbers; ELog (LogError e)]
            | (Returned NoNumbers, _) =>
                result = Some [] /\
                exists e, evs = [EGetSheet; EGetNumbers; ELog (LogFound NoNumbers);
                                 ELog (LogError e)]
            | (Returned (NumbersOf l), _) =>
                result = l /\
                evs = [EGetSheet; EGetNumbers; ELog (LogFound (NumbersOf l))]
            end
        end
    end.
Proof.
  intros st. unfold FindBastardsInContacts, try_catch, bind, assign, emit, await,
    lift, get, ret. cbn [world trace ListOfBastards st].
  destruct (getSheet C Project0 w) as [[data|e] w1].
  - destruct (data_data_values data) as [values|e].
    + cbn [world trace ListOfBastards].
      destruct (getNumbersArrayFromRows C values w1) as [[[|l]|e] w2];
        cbn [CorrectNumbers_of world trace ListOfBastards];
        eexists _, _, _; (split; [reflexivity|]); cbn [trace];
        (split; [repeat rewrite <- app_assoc; reflexivity|]);
        (split; [reflexivity|first [reflexivity|eexists; reflexivity]]).
    + eexists _, _, _. split; [reflexivity|]. cbn [trace].
      split; [repeat rewrite <- app_assoc; reflexivity|]. auto.
  - eexists _, _, _. split; [reflexivity|]. cbn [trace].
    split; [repeat rewrite <- app_assoc; reflexivity|]. auto.
Qed.

End Facts.

End ContactsFacts.

(** ** Setting up the database *)

Module SetupFacts.

Import Setup.

Lemma calls_app a b : calls (a ++ b) = calls a ++ calls b.
Proof. apply flat_map_app. Qed.

Lemma calls_EDb l : calls (map EDb l) = l.
Proof.
  unfold calls. induction l as [|c l IH]; cbn; [reflexivity|now f_equal].
Qed.

Section Facts.

Context {World Client Doc : Type} (D : Driver World Client Doc).

Lemma db_state_eq (w : World) (c : option Client) t t' :
  t = t' ->
  {| world := w; client := c; trace := t |} = {| world := w; client := c; trace := t' |}.
Proof. intros ->; reflexivity. Qed.

(** A loop of createIndex calls on one collection: the calls made are a
    prefix of the calls of the loop, the whole of them when the loop returns,
    at least one when it throws; and the loop is the driver run over these
    calls up to the first that throws. *)
Lemma for_of_driver {A} (collection : string) (k : A -> Key) (o : A -> IndexOptions)
    (l : list A) :
  let call := fun x => CreateIndex collection (k x) (o x) in
  forall (st : DbState World Client) r st',
    for_of l (fun x => driver (call x) (createIndex D collection (k x) (o x))) st
    = (r, st') ->
    client st' = client st /\
    exists n,
      trace st' = trace st ++ map EDb (firstn n (map call l)) /\
      n <= List.length l /\
      match r with
      | Returned _ => n = List.length l
      | Threw _ => 1 <= n
      end /\
      forall rest,
        create_in_order D (map call l ++ rest) (world st)
        = match r with
          | Returned _ =>
              let '(r2, w2, n2) := create_in_order D rest (world st') in
              (r2, w2, n + n2)
          | Threw e => (Threw e, world st', n)
          end.
Proof.
  intros call. induction l as [|x rest IH]; intros st r st'.
  - cbn. intros [= <- <-]. split; [reflexivity|]. exists 0. cbn.
    rewrite app_nil_r. split; [reflexivity|]. split; [lia|]. split; [reflexivity|].
    intros rest. now destruct (create_in_order D rest (world st)) as [[r2 w2] n2].
  - cbn [for_of]. unfold bind, driver at 1.
    destruct (createIndex D collection (k x) (o x) (world st)) as [[[]|e] w1] eqn:Hx.
    + intros Hrest. apply IH in Hrest. cbn [client trace world] in Hrest.
      destruct Hrest as (Hc & n & Htr & Hn & Hr & Hrep). split; [exact Hc|].
      exists (S n). cbn [map firstn List.length]. rewrite Htr, <- app_assoc.
      split; [reflexivity|]. split; [lia|]. split; [destruct r; lia|].
      intros rest0. cbn [app create_in_order]. unfold call at 1. rewrite Hx, Hrep.
      destruct r as [[]|e]; [|reflexivity].
      now destruct (create_in_order D rest0 (world st')) as [[r2 w2] n2].
    + intros [= <- <-]. split; [reflexivity|]. exists 1. cbn [world client trace].
      split; [reflexivity|]. split; [cbn; lia|]. split; [lia|].
      intros rest0. cbn [map app create_in_order]. unfold call at 1. now rewrite Hx.
Qed.

Lemma firstn_prefix_app {A} n (l1 l2 : list A) :
  n <= List.length l1 -> firstn n l1 = firstn n (l1 ++ l2).
Proof.
  intros Hn. rewrite firstn_app.
  replace (n - List.length l1) with 0 by lia. cbn. now rewrite app_nil_r.
Qed.

Lemma firstn_past_app {A} n (l1 l2 : list A) :
  l1 ++ firstn n l2 = firstn (List.length l1 + n) (l1 ++ l2).
Proof. now rewrite firstn_app_2. Qed.

(** What createIndexes does: it makes the createIndex calls of the table in
    order on the driver and stops at the first that throws, which it logs
    and throws again. *)
Lemma createIndexes_replay (st : DbState World Client) r st' :
  createIndexes D st = (r, st') ->
  client st' = client st /\
  exists evs n,
    trace st' = trace st ++ evs /\
    calls evs = firstn n all_index_calls /\
    create_in_order D all_index_calls (world st) = (r, world st', n) /\
    match r with
    | Returned _ => n = List.length all_index_calls
    | Threw e =>
        1 <= n <= List.length all_index_calls /\
        exists evs0, evs = evs0 ++ [EError (LogErrorCreatingIndexes e)]
    end.
Proof.
  unfold createIndexes, try_catch.
  unfold bind at 1. cbn [console_log emit].
  unfold bind at 1.
  match goal with |- context [for_of indexes_properties ?b ?s] =>
    destruct (for_of indexes_properties b s) as [r1 s1] eqn:H1 end.
  apply (for_of_driver "properties" key options_with_weights) in H1.
  cbn [client trace world] in H1.
  destruct H1 as (Hc1 & n1 & Ht1 & Hn1 & Hr1 & Hrep1).
  unfold all_index_calls at 2.
  destruct r1 as [[]|e].
  2:{ unfold bind, console_error, emit, throw. cbn [client trace world].
      intros [= <- <-]. cbn [client trace world]. split; [exact Hc1|].
      eexists _, n1. rewrite Ht1, <- !app_assoc. split; [reflexivity|].
      split; [|split].
      - rewrite !calls_app, calls_EDb. cbn [calls flat_map app]. rewrite app_nil_r.
        unfold all_index_calls. apply firstn_prefix_app. now rewrite length_map.
      - apply Hrep1.
      - split; [cbn in *; lia|]. eexists. rewrite app_assoc. reflexivity. }
  subst n1. rewrite firstn_all2 in Ht1 by (rewrite length_map; lia).
  unfold bind at 1. cbn [console_log emit].
  unfold bind at 1.
  match goal with |- context [for_of indexes_users ?b ?s] =>
    destruct (for_of indexes_users b s) as [r2 s2] eqn:H2 end.
  apply (for_of_driver "users" key options_with_weights) in H2.
  cbn [client trace world] in H2.
  destruct H2 as (Hc2 & n2 & Ht2 & Hn2 & Hr2 & Hrep2).
  destruct r2 as [[]|e].
  2:{ unfold bind, console_error, emit, throw. cbn [client trace world].
      intros [= <- <-]. cbn [client trace world]. split; [congruence|].
      eexists _, (List.length indexes_properties + n2).
      rewrite Ht2, Ht1, <- !app_assoc. split; [reflexivity|].
      split; [|split].
      - rewrite !calls_app, !calls_EDb. cbn [calls flat_map app]. rewrite app_nil_r.
        unfold all_index_calls.
        rewrite (firstn_prefix_app n2 _
                   (map (fun index => CreateIndex "transactions" (key index)
                                        (options_without_weights index))
                      indexes_transactions)) by (now rewrite length_map).
        rewrite <- (length_map (fun index => CreateIndex "properties" (key index)
                                  (options_with_weights index)) indexes_properties).
        apply firstn_past_app.
      - rewrite Hrep1, Hrep2. reflexivity.
      - split; [cbn in *; lia|]. eexists. rewrite !app_assoc. reflexivity. }
  subst n2. rewrite firstn_all2 in Ht2 by (rewrite length_map; lia).
  unfold bind at 1. cbn [console_log emit].
  unfold bind at 1.
  match goal with |- context [for_of indexes_transactions ?b ?s] =>
    destruct (for_of indexes_transactions b s) as [r3 s3] eqn:H3 end.
  apply (for_of_driver "transactions" key options_without_weights) in H3.
  cbn [client trace world] in H3.
  destruct H3 as (Hc3 & n3 & Ht3 & Hn3 & Hr3 & Hrep3).
  specialize (Hrep3 []). rewrite app_nil_r in Hrep3.
  destruct r3 as [[]|e].
  2:{ unfold bind, console_error, emit, throw. cbn [client trace world].
      intros [= <- <-]. cbn [client trace world]. split; [congruence|].
      eexists _, (List.length indexes_properties + (List.length indexes_users + n3)).
      rewrite Ht3, Ht2, Ht1, <- !app_assoc. split; [reflexivity|].
      split; [|split].
      - rewrite !calls_app, !calls_EDb. cbn [calls flat_map app]. rewrite app_nil_r.
        unfold all_index_calls.
        rewrite <- (length_map (fun index => CreateIndex "properties" (key index)
                                  (options_with_weights index)) indexes_properties).
        rewrite <- (length_map (fun index => CreateIndex "users" (key index)
                                  (options_with_weights index)) indexes_users).
        now rewrite <- !firstn_past_app.
      - rewrite Hrep1, Hrep2, Hrep3. reflexivity.
      - split; [cbn in *; lia|]. eexists. rewrite !app_assoc. reflexivity. }
  subst n3. rewrite firstn_all2 in Ht3 by (rewrite length_map; lia).
  unfold bind, console_log, emit. cbn [client trace world].
  intros [= <- <-]. cbn [client trace world]. split; [congruence|].
  eexists _, (List.length all_index_calls).
  rewrite Ht3, Ht2, Ht1, <- !app_assoc. split; [reflexivity|].
  split; [|split; [|reflexivity]].
  - rewrite !calls_app, !calls_EDb. cbn [calls flat_map app].
    rewrite firstn_all. reflexivity.
  - rewrite Hrep1, Hrep2, Hrep3. reflexivity.
Qed.

Lemma createIndexes_shape (st : DbState World Client) r st' :
  createIndexes D st = (r, st') ->
  client st' = client st /\
  exists evs n,
    trace st' = trace st ++ evs /\
    calls evs = firstn n all_index_calls /\
    match r with
    | Returned _ => n = List.length all_index_calls
    | Threw e =>
        1 <= n <= List.length all_index_calls /\
        exists evs0, evs = evs0 ++ [EError (LogErrorCreatingIndexes e)]
    end.
Proof.
  intros H. apply createIndexes_replay in H.
  destruct H as (Hc & evs & n & Htr & Hcalls & _ & Hr).
  split; [exact Hc|]. exists evs, n. auto.
Qed.

Lemma count_calls_app a b :
  count_calls D a -> count_calls D b -> count_calls D (a ++ b).
Proof.
  intros Ha Hb. induction Ha; cbn.
  - assumption.
  - constructor. assumption.
  - econstructor; eassumption.
Qed.

Lemma connecting_shape (st : DbState World Client) r st' :
  connecting D st = (r, st') ->
  exists evs,
    trace st' = trace st ++ evs /\
    ((exists e w, newMongoClient D (uri D) (world st) = (Threw e, w) /\
        r = Threw e /\ client st' = client st /\
        calls evs = [NewMongoClient (uri D)]) \/
     (exists c w, newMongoClient D (uri D) (world st) = (Returned c, w) /\
        client st' = Some c /\
        calls evs = [NewMongoClient (uri D); Connect] /\
        connect D c w = (r, world st'))).
Proof.
  unfold connecting, bind, console_log, emit, driver, set_client.
  cbn [world client trace].
  destruct (newMongoClient D (uri D) (world st)) as [[c|e] w] eqn:Hnew.
  - cbn [world client trace]. destruct (connect D c w) as [[[]|e] w1] eqn:Hcon.
    + intros [= <- <-]. cbn [world client trace]. eexists. rewrite <- !app_assoc.
      split; [reflexivity|]. right. exists c, w. repeat split; auto.
    + intros [= <- <-]. cbn [world client trace]. eexists. rewrite <- !app_assoc.
      split; [reflexivity|]. right. exists c, w. repeat split; auto.
  - intros [= <- <-]. cbn [world client trace]. eexists. rewrite <- !app_assoc.
    split; [reflexivity|]. left. exists e, w. repeat split; auto.
Qed.

Lemma seeding_shape collection what Which sample (st : DbState World Client) r st' :
  seeding D collection what Which sample st = (r, st') ->
  client st' = client st /\
  exists evs,
    trace st' = trace st ++ evs /\
    (calls evs = [CountDocuments collection] \/
     calls evs = [CountDocuments collection;
                  InsertMany collection (List.length sample)] /\
     exists w', countDocuments D collection (world st) = (Returned 0, w')).
Proof.
  unfold seeding, bind, console_log, emit, driver. cbn [world client trace].
  destruct (countDocuments D collection (world st)) as [[n|e] w] eqn:Hcount.
  - destruct n as [|n]; cbn [Nat.eqb world client trace].
    + destruct (insertMany D collection sample w) as [[[]|e] w1];
        intros [= <- <-]; cbn [client trace]; (split; [reflexivity|]);
        eexists; rewrite <- !app_assoc; (split; [reflexivity|]); right; cbn; eauto.
    + intros [= <- <-]. cbn [client trace]. split; [reflexivity|].
      eexists. rewrite <- !app_assoc. split; [reflexivity|]. left. reflexivity.
  - intros [= <- <-]. cbn [client trace]. split; [reflexivity|].
    eexists. split; [reflexivity|]. left. reflexivity.
Qed.

Lemma seeding_count_calls collection what Which sample
    (st : DbState World Client) r st' :
  seeding D collection what Which sample st = (r, st') ->
  client st' = client st /\
  exists evs, trace st' = trace st ++ evs /\ count_calls D (calls evs).
Proof.
  intros H. apply seeding_shape in H. destruct H as (Hc & evs & Htr & Hcalls).
  split; [exact Hc|]. exists evs. split; [exact Htr|].
  destruct Hcalls as [->|[-> [w' Hzero]]].
  - repeat constructor.
  - econstructor; [exact Hzero|constructor].
Qed.

Lemma counting_count_calls collection what (st : DbState World Client) r st' :
  counting D collection what st = (r, st') ->
  client st' = client st /\
  exists evs, trace st' = trace st ++ evs /\ count_calls D (calls evs).
Proof.
  unfold counting, bind, console_log, emit, driver. cbn [world client trace].
  destruct (countDocuments D collection (world st)) as [[n|e] w];
    intros [= <- <-]; cbn [client trace]; (split; [reflexivity|]);
    eexists; rewrite <- ?app_assoc; (split; [reflexivity|]); repeat constructor.
Qed.

Lemma counts_only_bind {A B} (m : M (DbState World Client) A)
    (k : A -> M (DbState World Client) B) :
  counts_only D m -> (forall a, counts_only D (k a)) -> counts_only D (bind m k).
Proof.
  intros Hm Hk st r st'. unfold bind.
  destruct (m st) as [[a|e] s1] eqn:H1.
  - intros H2. apply Hm in H1. apply Hk in H2.
    destruct H1 as (Hc1 & evs1 & Ht1 & Hcc1), H2 as (Hc2 & evs2 & Ht2 & Hcc2).
    split; [congruence|]. exists (evs1 ++ evs2).
    rewrite Ht2, Ht1, <- app_assoc, calls_app. split; [reflexivity|].
    now apply count_calls_app.
  - intros [= <- <-]. now apply Hm in H1.
Qed.

Lemma counts_only_log l : counts_only D (console_log l).
Proof.
  intros st r st' [= <- <-]. cbn. split; [reflexivity|].
  exists [ELog l]. split; [reflexivity|constructor].
Qed.

Lemma counts_only_seeding collection what Which sample :
  counts_only D (seeding D collection what Which sample).
Proof. intros st r st'. apply seeding_count_calls. Qed.

Lemma counts_only_counting collection what :
  counts_only D (counting D collection what).
Proof. intros st r st'. apply counting_count_calls. Qed.

Ltac counts :=
  repeat match goal with
         | |- counts_only _ (console_log _) => apply counts_only_log
         | |- counts_only _ (seeding _ _ _ _ _) => apply counts_only_seeding
         | |- counts_only _ (counting _ _ _) => apply counts_only_counting
         | |- counts_only _ (bind _ _) => apply counts_only_bind; [|intros _]
         end.

Lemma counts_only_summary : counts_only D (summary D).
Proof. unfold summary. counts. Qed.

Lemma creating_collections_shape (st : DbState World Client) r st' :
  creating_collections D st = (r, st') ->
  client st' = client st /\
  exists evs,
    trace st' = trace st ++ evs /\
    collection_calls D (calls evs) /\ calls evs <> [].
Proof.
  unfold creating_collections, bind, console_log, emit, driver.
  cbn [world client trace for_of config_collections snd].
  destruct (listCollections D (world st)) as [[names|e] w] eqn:Hlist.
  2:{ intros [= <- <-]. cbn [client trace]. split; [reflexivity|].
      eexists. rewrite <- !app_assoc. split; [reflexivity|]. cbn.
      split; [|discriminate]. right. exists [], (world st). rewrite Hlist. auto. }
  unfold bind, console_log, emit, driver, ret. cbn [world client trace].
  assert (Hshape : forall created k,
            created = firstn k (missing names) ->
            collection_calls D (ListCollections :: map CreateCollection created)).
  { intros created k ->. right. exists (firstn k (missing names)), (world st).
    rewrite Hlist. eauto. }
  unfold missing in Hshape. cbn [map snd config_collections filter] in Hshape.
  destruct (existsb (String.eqb "properties") names);
    destruct (existsb (String.eqb "users") names);
    destruct (existsb (String.eqb "transactions") names);
    cbn [negb world client trace] in *;
    repeat match goal with
           | |- context [createCollection D ?n ?w0] =>
               destruct (createCollection D n w0) as [[[]|?] ?];
               cbn [world client trace]
           end;
    intros [= <- <-]; cbn [client trace]; (split; [reflexivity|]);
    eexists; rewrite <- ?app_assoc; (split; [reflexivity|]);
    (split; [|discriminate]); cbn;
    first [ apply (Hshape [] 0); reflexivity
          | apply (Hshape [_] 1); reflexivity
          | apply (Hshape [_; _] 2); reflexivity
          | apply (Hshape [_; _; _] 3); reflexivity ].
Qed.

(** The [try] block of setupDatabase as a whole: the client could not be
    made; or it was made, and the calls that follow are the connection, the
    creation of collections, a prefix of the index creations and, only when
    all indexes were created, counts and justified inserts. *)
Lemma setting_up_shape (st : DbState World Client) r st' :
  setting_up D st = (r, st') ->
  exists evs,
    trace st' = trace st ++ evs /\
    ((exists e w, newMongoClient D (uri D) (world st) = (Threw e, w) /\
        r = Threw e /\ client st' = client st /\
        calls evs = [NewMongoClient (uri D)]) \/
     (exists c w colls n tail,
        newMongoClient D (uri D) (world st) = (Returned c, w) /\
        client st' = Some c /\
        calls evs = NewMongoClient (uri D) :: Connect
                      :: colls ++ firstn n all_index_calls ++ tail /\
        collection_calls D colls /\
        count_calls D tail /\
        (tail <> [] -> n = List.length all_index_calls) /\
        (r = Returned tt -> colls <> [] /\ n = List.length all_index_calls))).
Proof.
  unfold setting_up. unfold bind at 1.
  destruct (connecting D st) as [r1 s1] eqn:H1. apply connecting_shape in H1.
  destruct H1 as (evs1 & Ht1 & [(e & w & Hnew & -> & Hc1 & Hcalls1)
                               |(c & w & Hnew & Hc1 & Hcalls1 & Hcon)]).
  { intros [= <- <-]. exists evs1. split; [exact Ht1|]. left. exists e, w. auto. }
  destruct r1 as [[]|e].
  2:{ intros [= <- <-]. exists evs1. split; [exact Ht1|]. right.
      exists c, w, [], 0, []. cbn. rewrite Hcalls1.
      repeat split; auto; try (now left); try constructor; try congruence;
        discriminate. }
  unfold bind at 1.
  destruct (creating_collections D s1) as [r2 s2] eqn:H2.
  apply creating_collections_shape in H2.
  destruct H2 as (Hc2 & evs2 & Ht2 & Hcolls & Hne2).
  destruct r2 as [[]|e].
  2:{ intros [= <- <-]. exists (evs1 ++ evs2). rewrite Ht2, Ht1, <- app_assoc.
      split; [reflexivity|]. right.
      exists c, w, (calls evs2), 0, []. rewrite calls_app, Hcalls1. cbn.
      rewrite app_nil_r.
      repeat split; auto; try constructor; try congruence; discriminate. }
  unfold bind at 1.
  destruct (createIndexes D s2) as [r3 s3] eqn:H3.
  apply createIndexes_shape in H3.
  destruct H3 as (Hc3 & evs3 & n & Ht3 & Hidx & Hr3).
  destruct r3 as [[]|e].
  2:{ intros [= <- <-]. exists (evs1 ++ evs2 ++ evs3).
      rewrite Ht3, Ht2, Ht1, <- !app_assoc.
      split; [reflexivity|]. right.
      exists c, w, (calls evs2), n, []. rewrite !calls_app, Hcalls1, Hidx. cbn.
      rewrite app_nil_r.
      repeat split; auto; try constructor; try congruence; discriminate. }
  intros H4.
  assert (Htail : counts_only D
            (bind (console_log LogBlank) (fun _ =>
             bind (console_log LogInsertingSeedData) (fun _ =>
             bind (seeding D "properties" "properties" "Properties"
                     (sampleProperties D)) (fun _ =>
             bind (seeding D "users" "users" "Users" (sampleUsers D)) (fun _ =>
             bind (seeding D "transactions" "transactions" "Transactions"
                     (sampleTransactions D))
                  (fun _ => summary D))))))).
  { counts. apply counts_only_summary. }
  apply Htail in H4. destruct H4 as (Hc4 & evs4 & Ht4 & Hcc).
  exists (evs1 ++ evs2 ++ evs3 ++ evs4).
  rewrite Ht4, Ht3, Ht2, Ht1, <- !app_assoc. split; [reflexivity|]. right.
  exists c, w, (calls evs2), n, (calls evs4).
  rewrite !calls_app, Hcalls1, Hidx. cbn.
  repeat split; auto; congruence.
Qed.

(** setupDatabase as a whole, called before [client] is assigned: the [try]
    block, then the error line if it threw, then the [finally] block, which
    closes the client if one was made. *)
Lemma setupDatabase_shape (st : DbState World Client) r st' :
  client st = None ->
  setupDatabase D st = (r, st') ->
  exists evs,
    trace st' = trace st ++ evs /\
    ((exists e w, newMongoClient D (uri D) (world st) = (Threw e, w) /\
        r = Threw e /\ calls evs = [NewMongoClient (uri D)]) \/
     (exists c w colls n tail,
        newMongoClient D (uri D) (world st) = (Returned c, w) /\
        calls evs = NewMongoClient (uri D) :: Connect
                      :: (colls ++ firstn n all_index_calls ++ tail) ++ [Close] /\
        collection_calls D colls /\
        count_calls D tail /\
        (tail <> [] -> n = List.length all_index_calls) /\
        (r = Returned tt -> colls <> [] /\ n = List.length all_index_calls))).
Proof.
  intros Hnone. unfold setupDatabase, try_finally, try_catch.
  destruct (setting_up D st) as [r1 s1] eqn:H1. apply setting_up_shape in H1.
  destruct H1 as (evs1 & Ht1 & [(e & w & Hnew & -> & Hc1 & Hcalls1)
                  |(c & w & colls & n & tail & Hnew & Hc1 & Hcalls1 & Hcolls & Htail
                    & Hn & Hret)]).
  - unfold bind, console_error, emit, throw, closing, get. cbn [world client trace].
    rewrite Hc1, Hnone. cbn. intros [= <- <-]. cbn [trace].
    eexists. rewrite Ht1, <- app_assoc. split; [reflexivity|]. left.
    exists e, w. rewrite calls_app, Hcalls1. auto.
  - assert (Hclose : forall (s : DbState World Client) evs0,
              client s = Some c -> trace s = trace st ++ evs1 ++ evs0 ->
              calls evs0 = [] ->
              forall r2 s2, closing D s = (r2, s2) ->
              exists evs, trace s2 = trace st ++ evs /\
                calls evs = NewMongoClient (uri D) :: Connect
                  :: (colls ++ firstn n all_index_calls ++ tail) ++ [Close]).
    { intros s evs0 Hcs Hts H0 r2 s2.
      unfold closing, bind, get, driver, console_log, emit. rewrite Hcs.
      cbn [world client trace].
      destruct (close D c (world s)) as [[[]|e] w2]; intros [= <- <-]; cbn [trace];
        eexists; rewrite Hts, <- !app_assoc; (split; [reflexivity|]);
        rewrite !calls_app, Hcalls1, H0; cbn; rewrite ?app_nil_r;
        now rewrite <- !app_assoc. }
    destruct r1 as [[]|e].
    + destruct (closing D s1) as [r2 s2] eqn:H2.
      destruct (Hclose s1 [] Hc1 ltac:(now rewrite app_nil_r) eq_refl _ _ H2)
        as (evs & Htr & Hcalls).
      intros Hr. exists evs. split.
      { destruct r2; injection Hr as <- <-; exact Htr. }
      right. exists c, w, colls, n, tail.
      repeat split; auto; try (apply Hret; reflexivity).
    + unfold bind, console_error, emit, throw. cbn [world client trace].
      match goal with |- context [closing D ?s] =>
        destruct (closing D s) as [r2 s2] eqn:H2;
        destruct (Hclose s [EError (LogErrorSettingUp e)] Hc1
                    ltac:(cbn [trace]; now rewrite Ht1, <- app_assoc) eq_refl _ _ H2)
          as (evs & Htr & Hcalls)
      end.
      intros Hr. exists evs. split.
      { destruct r2; injection Hr as <- <-; exact Htr. }
      right. exists c, w, colls, n, tail.
      repeat split; auto; destruct r2; injection Hr as <- _; discriminate.
Qed.

Lemma In_firstn {A} n (l : list A) x : In x (firstn n l) -> In x l.
Proof.
  intros H. rewrite <- (firstn_skipn n l). apply in_or_app. now left.
Qed.

Lemma index_call_kind c n :
  In c (firstn n all_index_calls) ->
  exists collection k options, c = CreateIndex collection k options.
Proof.
  intros H. apply In_firstn in H. unfold all_index_calls in H.
  repeat (apply in_app_or in H; destruct H as [H|H]);
    apply in_map_iff in H; destruct H as (index & <- & _); eauto.
Qed.

Lemma collection_call_kind l c :
  collection_calls D l -> In c l ->
  c = ListCollections \/ exists name, c = CreateCollection name.
Proof.
  intros [->|(created & w & -> & _)] Hin; [contradiction|].
  destruct Hin as [<-|Hin]; [now left|].
  apply in_map_iff in Hin. destruct Hin as (name & <- & _). eauto.
Qed.

Lemma count_call_kind l c :
  count_calls D l -> In c l ->
  (exists collection, c = CountDocuments collection) \/
  (exists collection n, c = InsertMany collection n).
Proof.
  induction 1; intros Hin; [contradiction| |].
  - destruct Hin as [<-|Hin]; eauto.
  - destruct Hin as [<-|[<-|Hin]]; eauto.
Qed.

Lemma count_calls_justify l collection n :
  count_calls D l -> In (InsertMany collection n) l ->
  exists a b w w',
    l = a ++ CountDocuments collection :: InsertMany collection n :: b /\
    countDocuments D collection w = (Returned 0, w').
Proof.
  induction 1 as [|c rest Hrest IH|c k w w' rest Hzero Hrest IH]; intros Hin.
  - contradiction.
  - destruct Hin as [Hin|Hin]; [discriminate|].
    destruct (IH Hin) as (a & b & w1 & w2 & -> & Hz).
    exists (CountDocuments c :: a), b, w1, w2. auto.
  - destruct Hin as [Hin|[Hin|Hin]]; [discriminate| |].
    + injection Hin as <- <-. exists [], rest, w, w'. auto.
    + destruct (IH Hin) as (a & b & w1 & w2 & -> & Hz).
      exists (CountDocuments c :: InsertMany c k :: a), b, w1, w2. auto.
Qed.

Lemma insert_is_seeding u colls n tail collection documents :
  collection_calls D colls ->
  In (InsertMany collection documents)
     (NewMongoClient u :: Connect
        :: (colls ++ firstn n all_index_calls ++ tail) ++ [Close]) ->
  In (InsertMany collection documents) tail.
Proof.
  intros Hcolls Hin. cbn [In] in Hin.
  destruct Hin as [Hin|[Hin|Hin]]; try discriminate.
  apply in_app_or in Hin. destruct Hin as [Hin|Hin].
  2:{ cbn [In] in Hin. destruct Hin as [Hin|[]]. discriminate. }
  apply in_app_or in Hin. destruct Hin as [Hin|Hin].
  { destruct (collection_call_kind _ _ Hcolls Hin) as [?|[? ?]]; discriminate. }
  apply in_app_or in Hin. destruct Hin as [Hin|Hin]; [|exact Hin].
  destruct (index_call_kind _ _ Hin) as (? & ? & ? & ?). discriminate.
Qed.

(** X17. Index creation is not atomic. createIndexes makes the createIndex
    calls of the table on the driver in its order (18 for properties, 10 for
    users, 14 for transactions, with unique and sparse false unless the entry
    says true) and stops at the first that throws: its completion, the world
    it leaves and the number of calls it makes are those of the driver run
    over the table up to the first error. It returns when all 42 calls
    returned; when one throws, the indexes created before it stay, and the
    error is written with console.error and thrown again. *)
Theorem createIndexes_stops_at_first_failure (st : DbState World Client) r st' :
  createIndexes D st = (r, st') ->
  List.length all_index_calls = 42 /\
  exists evs n,
    trace st' = trace st ++ evs /\
    calls evs = firstn n all_index_calls /\
    create_in_order D all_index_calls (world st) = (r, world st', n) /\
    match r with
    | Returned _ => n = 42
    | Threw e =>
        1 <= n <= 42 /\
        exists evs0, evs = evs0 ++ [EError (LogErrorCreatingIndexes e)]
    end.
Proof.
  intros H. split; [reflexivity|]. apply createIndexes_replay in H.
  destruct H as (_ & evs & n & Htr & Hcalls & Hrep & Hr). exists evs, n.
  change (List.length all_index_calls) with 42 in Hr. auto.
Qed.

(** X18. The connection is closed exactly once. When the client could not be
    made, setupDatabase makes no other call and rejects with that error.
    Once it is made, whatever happens in the [try] block, close is called
    once, and it is the last call on the driver. *)
Theorem setupDatabase_closes_the_client_once w r st' :
  setupDatabase D (fresh w) = (r, st') ->
  match newMongoClient D (uri D) w with
  | (Threw e, _) => r = Threw e /\ calls (trace st') = [NewMongoClient (uri D)]
  | (Returned c, _) =>
      exists body,
        calls (trace st') = NewMongoClient (uri D) :: Connect :: body ++ [Close] /\
        ~ In Close body
  end.
Proof.
  intros H. apply setupDatabase_shape in H; [|reflexivity].
  cbn [fresh world trace app] in H.
  destruct H as (evs & -> & [(e & w1 & Hnew & -> & Hcalls)
                            |(c & w1 & colls & n & tail & Hnew & Hcalls & Hcolls
                              & Htail & _)]); rewrite Hnew.
  - auto.
  - exists (colls ++ firstn n all_index_calls ++ tail). split; [exact Hcalls|].
    intros [Hin|[Hin|Hin]%in_app_or]%in_app_or.
    + destruct (collection_call_kind _ _ Hcolls Hin) as [?|[? ?]]; discriminate.
    + destruct (index_call_kind _ _ Hin) as (? & ? & ? & ?). discriminate.
    + destruct (count_call_kind _ _ Htail Hin) as [[? ?]|(? & ? & ?)]; discriminate.
Qed.

(** X19. Seed data only goes into an empty collection, and only once all indexes
    exist: every insertMany directly follows a countDocuments of the same
    collection, a count of that collection has answered 0, and the 42 index
    creations precede it. *)
Theorem setupDatabase_seeds_after_indexes_and_only_when_empty
    w r st' collection documents :
  setupDatabase D (fresh w) = (r, st') ->
  In (InsertMany collection documents) (calls (trace st')) ->
  (exists w1 w2, countDocuments D collection w1 = (Returned 0, w2)) /\
  exists before between after,
    calls (trace st')
    = before ++ all_index_calls ++ between
      ++ CountDocuments collection :: InsertMany collection documents :: after.
Proof.
  intros H Hin. apply setupDatabase_shape in H; [|reflexivity].
  cbn [fresh world trace app] in H.
  destruct H as (evs & Htr & [(e & w1 & Hnew & -> & Hcalls)
                             |(c & w1 & colls & n & tail & Hnew & Hcalls & Hcolls
                               & Htail & Hn & _)]); rewrite Htr, Hcalls in *.
  - cbn [In] in Hin. destruct Hin as [Hin|[]]. discriminate.
  - apply (insert_is_seeding _ _ _ _ _ _ Hcolls) in Hin.
    assert (Hne : tail <> []) by (intros ->; contradiction).
    rewrite (Hn Hne), firstn_all.
    destruct (count_calls_justify _ _ _ Htail Hin) as (a & b & w2 & w3 & -> & Hz).
    split; [eauto|].
    exists (NewMongoClient (uri D) :: Connect :: colls), a, (b ++ [Close]).
    rewrite <- !app_assoc. reflexivity.
Qed.

(** X20. A collection that is not empty is never seeded: when every count of it
    answers at least one document, insertMany is not called on it. *)
Theorem setupDatabase_never_seeds_a_collection_with_documents
    w r st' collection :
  (forall w1, exists n w2, countDocuments D collection w1 = (Returned (S n), w2)) ->
  setupDatabase D (fresh w) = (r, st') ->
  forall documents, ~ In (InsertMany collection documents) (calls (trace st')).
Proof.
  intros Hfull H documents Hin. apply setupDatabase_shape in H; [|reflexivity].
  cbn [fresh world trace app] in H.
  destruct H as (evs & Htr & [(e & w1 & Hnew & -> & Hcalls)
                             |(c & w1 & colls & n & tail & Hnew & Hcalls & Hcolls
                               & Htail & Hn & _)]); rewrite Htr, Hcalls in *.
  - cbn [In] in Hin. destruct Hin as [Hin|[]]. discriminate.
  - apply (insert_is_seeding _ _ _ _ _ _ Hcolls) in Hin.
    destruct (count_calls_justify _ _ _ Htail Hin) as (a & b & w2 & w3 & _ & Hz).
    destruct (Hfull w2) as (k & w4 & Hk). rewrite Hk in Hz. discriminate.
Qed.

Lemma creation_is_collection_call u colls n tail name :
  count_calls D tail ->
  In (CreateCollection name)
     (NewMongoClient u :: Connect
        :: (colls ++ firstn n all_index_calls ++ tail) ++ [Close]) ->
  In (CreateCollection name) colls.
Proof.
  intros Htail Hin. cbn [In] in Hin.
  destruct Hin as [Hin|[Hin|Hin]]; try discriminate.
  apply in_app_or in Hin. destruct Hin as [Hin|Hin].
  2:{ cbn [In] in Hin. destruct Hin as [Hin|[]]. discriminate. }
  apply in_app_or in Hin. destruct Hin as [Hin|Hin]; [exact Hin|].
  apply in_app_or in Hin. destruct Hin as [Hin|Hin].
  - destruct (index_call_kind _ _ Hin) as (? & ? & ? & ?). discriminate.
  - destruct (count_call_kind _ _ Htail Hin) as [[? ?]|(? & ? & ?)]; discriminate.
Qed.

(** X21. An existing collection is never created again: createCollection is only
    called for a configured collection that the listing did not contain. *)
Theorem setupDatabase_creates_only_missing_collections w r st' name :
  setupDatabase D (fresh w) = (r, st') ->
  In (CreateCollection name) (calls (trace st')) ->
  In name (map snd config_collections) /\
  exists w1 collectionNames w2,
    listCollections D w1 = (Returned collectionNames, w2) /\
    ~ In name collectionNames.
Proof.
  intros H Hin. apply setupDatabase_shape in H; [|reflexivity].
  cbn [fresh world trace app] in H.
  destruct H as (evs & Htr & [(e & w1 & Hnew & -> & Hcalls)
                             |(c & w1 & colls & n & tail & Hnew & Hcalls & Hcolls
                               & Htail & Hn & _)]); rewrite Htr, Hcalls in *.
  - cbn [In] in Hin. destruct Hin as [Hin|[]]. discriminate.
  - apply (creation_is_collection_call _ _ _ _ _ Htail) in Hin.
    destruct Hcolls as [->|(created & w2 & -> & Hlist)]; [contradiction|].
    destruct Hin as [Hin|Hin]; [discriminate|].
    apply in_map_iff in Hin. destruct Hin as (name' & [= ->] & Hin).
    destruct (listCollections D w2) as [[names|e] w3] eqn:Hl.
    2:{ subst created. contradiction. }
    destruct Hlist as (k & ->). apply In_firstn in Hin.
    unfold missing in Hin. apply filter_In in Hin. destruct Hin as [Hcfg Hneg].
    split; [exact Hcfg|]. exists w2, names, w3. split; [exact Hl|].
    intros Hnames. apply negb_true_iff in Hneg.
    assert (existsb (String.eqb name) names = true)
      by (apply existsb_exists; exists name; split; [assumption|apply String.eqb_refl]).
    congruence.
Qed.

(** X22. A failed connection: the error is written with console.error, the
    client is closed, and setupDatabase rejects with the connection error,
    unless close throws too, in which case it rejects with the error of
    close. Nothing else is called. *)
Theorem setupDatabase_connection_failure w c w1 e w2 :
  newMongoClient D (uri D) w = (Returned c, w1) ->
  connect D c w1 = (Threw e, w2) ->
  exists st',
    setupDatabase D (fresh w)
    = (match fst (close D c w2) with
       | Returned _ => Threw e
       | Threw e' => Threw e'
       end, st') /\
    calls (trace st') = [NewMongoClient (uri D); Connect; Close] /\
    In (EError (LogErrorSettingUp e)) (trace st').
Proof.
  intros Hnew Hcon.
  unfold setupDatabase, try_finally, try_catch, setting_up, connecting, closing,
    bind, get, console_log, console_error, emit, driver, set_client, throw, fresh.
  cbn [world client trace]. rewrite Hnew. cbn [world client trace]. rewrite Hcon.
  cbn [world client trace].
  destruct (close D c w2) as [[[]|e'] w3]; cbn [fst];
    eexists; (split; [reflexivity|]); cbn; auto 10.
Qed.

End Facts.

(** *** On the database in memory *)

Import Memory.

Lemma createIndexes_stops_at_first_failure_witness :
  let D := server true 20 in
  let run := createIndexes D (fresh empty) in
  fst run = Threw (Raised "index build failed") /\
  index_count (world (snd run)) = 20 /\
  create_in_order D all_index_calls empty
  = (Threw (Raised "index build failed"), world (snd run), 21) /\
  List.length all_index_calls = 42 /\
  exists evs n,
    trace (snd run) = trace (fresh (Client := unit) empty) ++ evs /\
    calls evs = firstn n all_index_calls /\
    create_in_order D all_index_calls (world (fresh (Client := unit) empty))
    = (Threw (Raised "index build failed"), world (snd run), n) /\
    1 <= n <= 42 /\
    exists evs0,
      evs = evs0 ++ [EError (LogErrorCreatingIndexes (Raised "index build failed"))].
Proof.
  intros D run.
  split; [vm_compute; reflexivity|]. split; [vm_compute; reflexivity|].
  split; [vm_compute; reflexivity|].
  exact (createIndexes_stops_at_first_failure D (fresh empty) (fst run) (snd run)
           (surjective_pairing run)).
Defined.

Lemma setupDatabase_closes_the_client_once_witness :
  let D := server true 42 in
  let run := setupDatabase D (fresh empty) in
  fst run = Returned tt /\
  exists body,
    calls (trace (snd run)) = NewMongoClient default_uri :: Connect :: body ++ [Close] /\
    ~ In Close body.
Proof.
  intros D run.
  split; [vm_compute; reflexivity|].
  exact (setupDatabase_closes_the_client_once D empty (fst run) (snd run)
           (surjective_pairing run)).
Defined.

Lemma setupDatabase_seeds_after_indexes_and_only_when_empty_witness :
  let D := server true 42 in
  let run := setupDatabase D (fresh empty) in
  documents (world (snd run)) = [("properties", 3); ("users", 5); ("transactions", 2)] /\
  In (InsertMany "users" 5) (calls (trace (snd run))) /\
  (exists w1 w2, countDocuments D "users" w1 = (Returned 0, w2)) /\
  exists before between after,
    calls (trace (snd run))
    = before ++ all_index_calls ++ between
      ++ CountDocuments "users" :: InsertMany "users" 5 :: after.
Proof.
  intros D run.
  assert (Hin : In (InsertMany "users" 5) (calls (trace (snd run)))).
  { vm_compute. repeat (first [left; reflexivity | right]). }
  split; [vm_compute; reflexivity|]. split; [exact Hin|].
  exact (setupDatabase_seeds_after_indexes_and_only_when_empty D empty (fst run)
           (snd run) "users" 5 (surjective_pairing run) Hin).
Defined.

Lemma setupDatabase_never_seeds_a_collection_with_documents_witness :
  let D := populated 6 in
  let run := setupDatabase D (fresh empty) in
  fst run = Returned tt /\
  (forall w1, exists n w2, countDocuments D "properties" w1 = (Returned (S n), w2)) /\
  forall documents, ~ In (InsertMany "properties" documents) (calls (trace (snd run))).
Proof.
  intros D run.
  assert (Hfull : forall w1, exists n w2,
            countDocuments D "properties" w1 = (Returned (S n), w2)).
  { intros w1. exists 6, w1. reflexivity. }
  split; [vm_compute; reflexivity|]. split; [exact Hfull|].
  exact (setupDatabase_never_seeds_a_collection_with_documents D empty (fst run)
           (snd run) "properties" Hfull (surjective_pairing run)).
Defined.

Lemma setupDatabase_creates_only_missing_collections_witness :
  let D := server true 42 in
  let run := setupDatabase D (fresh with_users) in
  documents (world (snd run)) = [("users", 2); ("properties", 3); ("transactions", 2)] /\
  In (CreateCollection "properties") (calls (trace (snd run))) /\
  In "properties" (map snd config_collections) /\
  exists w1 collectionNames w2,
    listCollections D w1 = (Returned collectionNames, w2) /\
    ~ In "properties" collectionNames.
Proof.
  intros D run.
  assert (Hin : In (CreateCollection "properties") (calls (trace (snd run)))).
  { vm_compute. repeat (first [left; reflexivity | right]). }
  split; [vm_compute; reflexivity|]. split; [exact Hin|].
  exact (setupDatabase_creates_only_missing_collections D with_users (fst run)
           (snd run) "properties" (surjective_pairing run) Hin).
Defined.

Lemma setupDatabase_connection_failure_witness :
  let D := server false 42 in
  let e := Raised "ECONNREFUSED" in
  newMongoClient D (uri D) empty = (Returned tt, empty) /\
  connect D tt empty = (Threw e, empty) /\
  exists st',
    setupDatabase D (fresh empty) = (Threw e, st') /\
    calls (trace st') = [NewMongoClient (uri D); Connect; Close] /\
    In (EError (LogErrorSettingUp e)) (trace st').
Proof.
  intros D e.
  assert (Hnew : newMongoClient D (uri D) empty = (Returned tt, empty)) by reflexivity.
  assert (Hcon : connect D tt empty = (Threw e, empty)) by reflexivity.
  split; [exact Hnew|]. split; [exact Hcon|].
  exact (setupDatabase_connection_failure D empty tt empty e empty Hnew Hcon).
Defined.

End SetupFacts.
